(** * Tymer analytics dashboard (src/app.py): a shallow embedding

    The dashboard is one Streamlit script: it loads the [contact_messages]
    table into a pandas [DataFrame], shows three KPI cards, a chart of daily
    counts, a preview of the ten most recent rows and the full table with a
    CSV download.

    The embedding keeps the script's shape.  pandas operations are pure
    functions on table values; the script itself runs in a small state and
    exception monad whose state holds the object store (every [DataFrame]
    object of the script lives at a location) and the list of elements
    written to the page so far.

    What pandas decides on its own is a parameter of the embedding, the
    [library]: the values the table constructor stores, the parser of
    [pd.to_datetime], the order in which a sort leaves rows of equal keys,
    title case beyond ASCII, and comparisons and sorts on columns that
    hold no timestamps.  The theorems hold for every library; the
    examples fix one.

    Left to the frameworks and not modelled: the page configuration and
    the style sheet, the secrets and the client, the 60-second cache of
    [st.cache_data], the rendering of widgets and the quoting rules of the
    CSV writer.  The pictographs of the texts are left out. *)

From Stdlib Require Import ZArith List Bool Arith Lia String Ascii.
From Stdlib Require Import Decimal DecimalString.
From Stdlib Require Import Permutation Sorted.
Import ListNotations.
Open Scope string_scope.
Open Scope Z_scope.
Open Scope list_scope.

(** ** Python strings (ASCII part) *)

Module PyStr.

Definition is_upper (c : ascii) : bool :=
  let n := nat_of_ascii c in ((65 <=? n) && (n <=? 90))%nat.

Definition is_lower (c : ascii) : bool :=
  let n := nat_of_ascii c in ((97 <=? n) && (n <=? 122))%nat.

Definition to_lower (c : ascii) : ascii :=
  if is_upper c then ascii_of_nat (nat_of_ascii c + 32) else c.

Definition to_upper (c : ascii) : ascii :=
  if is_lower c then ascii_of_nat (nat_of_ascii c - 32) else c.

(** [s.lower()] *)
Fixpoint lower (s : string) : string :=
  match s with
  | EmptyString => EmptyString
  | String c r => String (to_lower c) (lower r)
  end.

(** [needle in hay] *)
Fixpoint contains (needle hay : string) : bool :=
  String.prefix needle hay
  || match hay with
     | EmptyString => false
     | String _ r => contains needle r
     end.

(** [s.replace(a, b)] for one-character [a] and [b] *)
Fixpoint replace (a b : ascii) (s : string) : string :=
  match s with
  | EmptyString => EmptyString
  | String c r => String (if Ascii.eqb c a then b else c) (replace a b r)
  end.

(** [s.title()]: a letter that follows a letter is lowered, any other
    letter is raised. *)
Fixpoint title_from (previous_is_cased : bool) (s : string) : string :=
  match s with
  | EmptyString => EmptyString
  | String c r =>
      String (if previous_is_cased then to_lower c else to_upper c)
             (title_from (is_upper c || is_lower c) r)
  end.

(** [s.title()] of a text of ASCII characters *)
Definition title (s : string) : string := title_from false s.

(** [s.isascii()] *)
Fixpoint is_ascii (s : string) : bool :=
  match s with
  | EmptyString => true
  | String c r => (nat_of_ascii c <? 128)%nat && is_ascii r
  end.

(** [repr(s)] of a text without quotes or escapes *)
Definition repr (s : string) : string := "'" ++ s ++ "'".

(** [str(n)] *)
Definition of_nat (n : nat) : string := NilZero.string_of_uint (Nat.to_uint n).

End PyStr.

(** ** Instants

    A timestamp is a number of nanoseconds since the epoch, in UTC. *)

Definition day_ns : Z := 86400 * 1000000000.
Definition hour_ns : Z := 3600 * 1000000000.

(** [Timestamp.normalize()]: midnight of the same UTC day. *)
Definition normalize (t : Z) : Z := t - t mod day_ns.

(** [Timestamp.date()], as a number of days since the epoch. *)
Definition date (t : Z) : Z := t / day_ns.

(** [pd.Timedelta(days=n)] *)
Definition Timedelta_days (n : Z) : Z := n * day_ns.

(** Days since the epoch of a civil (proleptic Gregorian) date; used to
    write instants of the examples the way the specification writes them. *)
Definition days_from_civil (y m d : Z) : Z :=
  let y' := if m <=? 2 then y - 1 else y in
  let era := y' / 400 in
  let yoe := y' - era * 400 in
  let mp := if m <=? 2 then m + 9 else m - 3 in
  let doy := (153 * mp + 2) / 5 + d - 1 in
  let doe := yoe * 365 + yoe / 4 - yoe / 100 + doy in
  era * 146097 + doe - 719468.

Definition utc (y m d hh mm : Z) : Z :=
  days_from_civil y m d * day_ns + hh * hour_ns + mm * 60 * 1000000000.

(** ** Cell values and tables *)

Inductive value : Type :=
| VNone                 (* a missing value: None or NaN *)
| VStr (s : string)
| VNum (z : Z)            (* an integer *)
| VFloat (m e : Z)        (* the float m * 2^e *)
| VBool (b : bool)
| VTime (ns : Z)        (* a [Timestamp] with tz UTC *)
| VNaT                  (* the missing timestamp *)
| VDate (d : Z).        (* a [datetime.date] *)

(** One record of [response.data]: field names with their values, in the
    order of the keys. *)
Definition record : Type := list (string * value).

(** A [DataFrame]: column labels in order, and the rows in order, each with
    its index label. *)
Record DataFrame : Type := mkDataFrame {
  columns : list string;
  rows : list (nat * list value)
}.

Definition Series : Type := list value.

(** What [df[label]] selects: a [Series] when the label names one column, a
    frame when it names several. *)
Inductive selection : Type :=
| Column (s : Series)
| Frame (d : DataFrame).

Inductive exn : Type :=
| Exception (kind : string) (msg : string).

Definition exn_str (e : exn) : string :=
  match e with Exception _ msg => msg end.

Inductive result (A : Type) : Type :=
| Ok (a : A)
| Raise (e : exn).
Arguments Ok {A} a.
Arguments Raise {A} e.

(** ** What pandas decides

    The parts of pandas the script relies on without fixing them. *)
Record library : Type := mkLibrary {
  (* [pd.DataFrame(records)]: the values a column stores for the values
     the records hold (an integer column with a missing value becomes a
     float column, and so on) *)
  stored : Series -> Series;
  (* [pd.to_datetime(x, utc=True)]: the instants, a missing one for a
     missing value, or the exception raised when a value does not parse *)
  to_datetime : selection -> result (list (option Z));
  (* the rank [sort_values] gives the row at a position among the rows of
     the same key: the default sort is not stable *)
  tie_rank : list (option Z) -> nat -> nat;
  (* [df[x >= t]] when [x] is no series of timestamps *)
  ge_other : DataFrame -> selection -> Z -> result DataFrame;
  (* [df.sort_values(by, ascending=False)] when the column [by] holds no
     timestamps *)
  sort_other : DataFrame -> string -> result DataFrame;
  (* [px.line(df, x=..., y=...)] when a label does not name one column *)
  line_other : DataFrame -> string -> string -> result (list (value * value));
  (* [s.title()] when [s] has a character beyond ASCII *)
  title_other : string -> string
}.

Module pd.

(** [pd.DataFrame()] *)
Definition empty_frame : DataFrame := mkDataFrame [] [].

Definition has_label (k : string) (cols : list string) : bool :=
  existsb (String.eqb k) cols.

Fixpoint add_keys (cols : list string) (r : record) : list string :=
  match r with
  | [] => cols
  | (k, _) :: r' => add_keys (if has_label k cols then cols else cols ++ [k]) r'
  end.

Fixpoint field (r : record) (k : string) : value :=
  match r with
  | [] => VNone
  | (k', v) :: r' => if String.eqb k k' then v else field r' k
  end.

Fixpoint enumerate_from {A : Type} (i : nat) (l : list A) : list (nat * A) :=
  match l with
  | [] => []
  | x :: l' => (i, x) :: enumerate_from (S i) l'
  end.

(** [pd.DataFrame(data)] for a list of records: the columns are the keys
    in order of first appearance, a field a record lacks is missing, the
    library decides how each column stores its values, and the index is
    0, 1, 2, ... *)
Definition DataFrame_of (L : library) (data : list record) : DataFrame :=
  let cols := fold_left add_keys data [] in
  mkDataFrame cols
    (map (fun i =>
            (i, map (fun k => nth i (stored L (map (fun r => field r k) data)) VNone)
                    cols))
         (seq 0 (List.length data))).

(** [len(df)] *)
Definition len (df : DataFrame) : nat := List.length (rows df).

(** [df.empty]: some axis has length 0 *)
Definition empty (df : DataFrame) : bool :=
  (List.length (rows df) =? 0)%nat || (List.length (columns df) =? 0)%nat.

(** [label in df.columns] *)
Definition in_columns (label : string) (df : DataFrame) : bool :=
  has_label label (columns df).

Fixpoint positions_from (i : nat) (label : string) (cols : list string) : list nat :=
  match cols with
  | [] => []
  | k :: cols' =>
      (if String.eqb k label then [i] else []) ++ positions_from (S i) label cols'
  end.

(** Positions of the columns that carry [label]. *)
Definition positions (label : string) (cols : list string) : list nat :=
  positions_from 0 label cols.

Definition cell (p : nat) (r : nat * list value) : value := nth p (snd r) VNone.

Fixpoint set_at {A : Type} (p : nat) (x : A) (l : list A) : list A :=
  match l, p with
  | [], _ => []
  | _ :: l', O => x :: l'
  | y :: l', S p' => y :: set_at p' x l'
  end.

(** The cell of an instant *)
Definition of_timestamp (t : option Z) : value :=
  match t with
  | Some t => VTime t
  | None => VNaT
  end.

(** The rows with the column at [p] set from a series of timestamps with
    the index 0, 1, 2, ...: every row takes the value of its index label,
    the missing timestamp where the series has none. *)
Definition set_column (p : nat) (s : list (option Z)) (rs : list (nat * list value))
  : list (nat * list value) :=
  map (fun r => (fst r, set_at p (of_timestamp (nth (fst r) s None)) (snd r))) rs.

(** [df[label] = s] for an existing, unique label and a series of
    timestamps *)
Definition setitem (df : DataFrame) (label : string) (s : list (option Z))
  : DataFrame :=
  match positions label (columns df) with
  | [p] => mkDataFrame (columns df) (set_column p s (rows df))
  | _ => df
  end.

(** [df.rename(columns={old: new})] *)
Definition rename (df : DataFrame) (old new : string) : DataFrame :=
  mkDataFrame
    (map (fun k => if String.eqb k old then new else k) (columns df))
    (rows df).

(** [df.copy()] *)
Definition copy (df : DataFrame) : DataFrame :=
  mkDataFrame (columns df) (rows df).

(** [df.head(n)] *)
Definition head (n : nat) (df : DataFrame) : DataFrame :=
  mkDataFrame (columns df) (firstn n (rows df)).

Fixpoint select_by_mask {A : Type} (l : list A) (mask : list bool) : list A :=
  match l, mask with
  | x :: l', b :: mask' =>
      if b then x :: select_by_mask l' mask' else select_by_mask l' mask'
  | _, _ => []
  end.

(** [df[mask]] for a boolean mask aligned with the rows *)
Definition getitem_mask (df : DataFrame) (mask : list bool) : DataFrame :=
  mkDataFrame (columns df) (select_by_mask (rows df) mask).

(** [df.index == idx] *)
Definition index_eq (df : DataFrame) (idx : nat) : list bool :=
  map (fun r => Nat.eqb (fst r) idx) (rows df).

(** [df[labels]] for a list of labels *)
Definition getitem_list (df : DataFrame) (labels : list string) : DataFrame :=
  let ps := flat_map (fun l => positions l (columns df)) labels in
  mkDataFrame
    (map (fun p => nth p (columns df) "") ps)
    (map (fun r => (fst r, map (fun p => cell p r) ps)) (rows df)).

(** [df[label]] *)
Definition getitem (df : DataFrame) (label : string) : result selection :=
  match positions label (columns df) with
  | [] => Raise (Exception "KeyError" (PyStr.repr label))
  | [p] => Ok (Column (map (cell p) (rows df)))
  | _ => Ok (Frame (getitem_list df [label]))
  end.

(** The values of a datetime [Series]; any other value in it means the
    series has another dtype. *)
Definition timestamp_of (v : value) : option (option Z) :=
  match v with
  | VTime t => Some (Some t)
  | VNaT => Some None
  | _ => None
  end.

Fixpoint datetimes (s : Series) : option (list (option Z)) :=
  match s with
  | [] => Some []
  | v :: s' =>
      match timestamp_of v, datetimes s' with
      | Some t, Some ts => Some (t :: ts)
      | _, _ => None
      end
  end.

(** [x.dt] *)
Definition dt (x : selection) : result (list (option Z)) :=
  match x with
  | Column s =>
      match datetimes s with
      | Some ts => Ok ts
      | None =>
          Raise (Exception "AttributeError"
                   "Can only use .dt accessor with datetimelike values")
      end
  | Frame _ =>
      Raise (Exception "AttributeError" "'DataFrame' object has no attribute 'dt'")
  end.

(** [s.dt.normalize() == today]: a missing timestamp equals nothing *)
Definition normalize_eq (ts : list (option Z)) (today : Z) : list bool :=
  map (fun t => match t with
                | Some t => normalize t =? today
                | None => false
                end) ts.

(** [s >= t] for a datetime series: a missing timestamp compares false *)
Definition datetime_ge (ts : list (option Z)) (t : Z) : list bool :=
  map (fun x => match x with
                | Some x => t <=? x
                | None => false
                end) ts.

(** [s.dt.date] *)
Definition dt_date (ts : list (option Z)) : list (option Z) :=
  map (option_map date) ts.

End pd.

(** ** Sorting, grouping, plotting and export *)

Module pdx.
Import pd.

(** A row with the key it is sorted by: its instant and the rank the
    library gives it among the rows of the same instant. *)
Definition keyed (A : Type) : Type := (option Z * nat) * A.

(** [sort_values(ascending=False)] on a datetime key may put [a] before
    [b]: later instants first, rows of the same instant by rank, rows
    without an instant last ([na_position='last']) in the order they had. *)
Definition before {A : Type} (a b : keyed A) : bool :=
  match fst (fst a), fst (fst b) with
  | Some x, Some y => (y <? x) || ((y =? x) && (snd (fst a) <=? snd (fst b))%nat)
  | Some _, None => true
  | None, Some _ => false
  | None, None => true
  end.

Fixpoint insert_keyed {A : Type} (x : keyed A) (l : list (keyed A)) : list (keyed A) :=
  match l with
  | [] => [x]
  | y :: l' => if before x y then x :: l else y :: insert_keyed x l'
  end.

Fixpoint sort_keyed {A : Type} (l : list (keyed A)) : list (keyed A) :=
  match l with
  | [] => []
  | x :: l' => insert_keyed x (sort_keyed l')
  end.

(** The rows with their keys, position by position *)
Definition with_keys {A : Type} (rank : nat -> nat) (ts : list (option Z))
           (rs : list A) : list (keyed A) :=
  map (fun itr => ((fst (snd itr), rank (fst itr)), snd (snd itr)))
      (combine (seq 0 (List.length ts)) (combine ts rs)).

(** [df.sort_values(by, ascending=False)] *)
Definition sort_values_desc (L : library) (df : DataFrame) (by_ : string)
  : result DataFrame :=
  match positions by_ (columns df) with
  | [] => Raise (Exception "KeyError" (PyStr.repr by_))
  | [p] =>
      match datetimes (map (cell p) (rows df)) with
      | Some ts =>
          Ok (mkDataFrame (columns df)
                (map snd (sort_keyed (with_keys (tie_rank L ts) ts (rows df)))))
      | None => sort_other L df by_
      end
  | _ =>
      Raise (Exception "ValueError"
               ("The column label " ++ PyStr.repr by_ ++ " is not unique."))
  end.

Fixpoint count_key (k : Z) (g : list (Z * nat)) : list (Z * nat) :=
  match g with
  | [] => [(k, 1%nat)]
  | (k', n) :: g' =>
      if k <? k' then (k, 1%nat) :: g
      else if k =? k' then (k', S n) :: g'
      else (k', n) :: count_key k g'
  end.

(** [df.groupby(keys).size()]: one group per key present, keys ascending,
    rows whose key is missing dropped. *)
Definition groupby_size (keys : list (option Z)) : list (Z * nat) :=
  fold_left (fun g k => match k with
                        | Some k => count_key k g
                        | None => g
                        end) keys [].

(** [.reset_index()] of the sizes: the key column keeps the name of the
    key series, the sizes get the label 0. *)
Definition reset_index (name : string) (g : list (Z * nat)) : DataFrame :=
  mkDataFrame [name; "0"]
    (enumerate_from 0
       (map (fun kn => [VDate (fst kn); VNum (Z.of_nat (snd kn))]) g)).

(** [df.columns = names] *)
Definition set_columns (df : DataFrame) (names : list string) : result DataFrame :=
  if (List.length names =? List.length (columns df))%nat
  then Ok (mkDataFrame names (rows df))
  else Raise (Exception "ValueError"
                ("Length mismatch: Expected axis has "
                 ++ PyStr.of_nat (List.length (columns df))
                 ++ " elements, new values have "
                 ++ PyStr.of_nat (List.length names) ++ " elements")).

(** [px.line(df, x=..., y=...)]: the points of the line *)
Definition px_line (L : library) (df : DataFrame) (x y : string)
  : result (list (value * value)) :=
  match pd.positions x (columns df), pd.positions y (columns df) with
  | [p], [q] => Ok (combine (map (pd.cell p) (rows df)) (map (pd.cell q) (rows df)))
  | _, _ => line_other L df x y
  end.

(** The text of a CSV file, record by record. *)
Record csv : Type := mkCsv {
  header : list string;
  lines : list (list value)
}.

(** [df.to_csv(index=...)] *)
Definition to_csv (df : DataFrame) (index : bool) : csv :=
  if index
  then mkCsv ("" :: columns df)
             (map (fun r => VNum (Z.of_nat (fst r)) :: snd r) (rows df))
  else mkCsv (columns df) (map snd (rows df)).

(** [row.get(label, default)] on a row of a frame with columns [cols] *)
Definition row_get (cols : list string) (r : list value) (label : string)
           (default : value) : value :=
  match positions label cols with
  | [] => default
  | p :: _ => nth p r VNone
  end.

End pdx.

(** ** The page *)

Module st.

#[local] Unset Elimination Schemes.

Inductive element : Type :=
| title (body : string)
| markdown (body : string)
| subheader (body : string)
| caption (body : string)
(* [st.markdown] of the metric-card template with the number filled in *)
| metric_card (label : string) (n : nat)
| info (body : string)
| error (body : string)
(* [st.plotly_chart] of [px.line(frame, x, y)]: the points of the line *)
| plotly_chart (points : list (value * value))
(* [st.expander] labelled with the name and the email, and its content *)
| expander (name email : value) (body : list element)
(* [st.write] of a field: the label in bold, then the value *)
| write (label : string) (v : value)
| dataframe (df : DataFrame) (hide_index : bool)
| download_button (label : string) (data : pdx.csv) (file_name mime : string).

End st.

(** ** The script monad: object store, page, exceptions *)

Definition loc : Type := nat.

Record state : Type := mkState {
  heap : list DataFrame;
  page : list st.element
}.

Definition M (A : Type) : Type := state -> result A * state.

Definition ret {A : Type} (a : A) : M A := fun s => (Ok a, s).

Definition bind {A B : Type} (m : M A) (f : A -> M B) : M B :=
  fun s => match m s with
           | (Ok a, s') => f a s'
           | (Raise e, s') => (Raise e, s')
           end.

Notation "x <- m ;; k" := (bind m (fun x => k))
  (at level 61, m at next level, right associativity).
Notation "m ;;; k" := (bind m (fun _ => k))
  (at level 61, right associativity).

(** An operation of pandas that may raise *)
Definition lift {A : Type} (r : result A) : M A := fun s => (r, s).

(** A new object *)
Definition alloc (df : DataFrame) : M loc :=
  fun s => (Ok (List.length (heap s)), mkState (heap s ++ [df]) (page s)).

(** The object a variable is bound to *)
Definition deref (l : loc) : M DataFrame :=
  fun s => match nth_error (heap s) l with
           | Some df => (Ok df, s)
           | None => (Raise (Exception "NameError" "no such object"), s)
           end.

(** An in-place update of an object *)
Definition store (l : loc) (df : DataFrame) : M unit :=
  fun s => (Ok tt, mkState (pd.set_at l df (heap s)) (page s)).

(** One more element on the page *)
Definition emit (e : st.element) : M unit :=
  fun s => (Ok tt, mkState (heap s) (page s ++ [e])).

(** [try: body  except Exception as e: handler e] *)
Definition try_except {A : Type} (body : M A) (handler : exn -> M A) : M A :=
  fun s => match body s with
           | (Ok a, s') => (Ok a, s')
           | (Raise e, s') => handler e s'
           end.

(** [for x in l: body x] *)
Fixpoint for_each {A : Type} (l : list A) (body : A -> M unit) : M unit :=
  match l with
  | [] => ret tt
  | x :: l' => body x ;;; for_each l' body
  end.

(** [with st.expander(label): body]: what the body writes goes inside. *)
Definition with_expander (name email : value) (body : M unit) : M unit :=
  fun s => match body (mkState (heap s) []) with
           | (r, s') =>
               (r, mkState (heap s') (page s ++ [st.expander name email (page s')]))
           end.

(** ** The script *)

(** [col.replace('_', ' ').title()] *)
Definition humanize (L : library) (col : string) : string :=
  let spaced := PyStr.replace "_" " " col in
  if PyStr.is_ascii spaced then PyStr.title spaced else title_other L spaced.

(** The test of the list comprehension that builds [time_cols] *)
Definition time_like (col : string) : bool :=
  PyStr.contains "created" (PyStr.lower col)
  || PyStr.contains "time" (PyStr.lower col).

Definition time_cols (df : DataFrame) : list string :=
  filter time_like (columns df).

(** [df.iloc[0]] *)
Definition iloc0 (df : DataFrame) : result (list value) :=
  match rows df with
  | r :: _ => Ok (snd r)
  | [] => Raise (Exception "IndexError" "single positional indexer is out-of-bounds")
  end.

Section Script.

Variable L : library.

(** The body of the [try] of [load_contact_messages()].  [execute] is the
    outcome of [supabase.table("contact_messages").select("*").execute()]:
    the records of [response.data], or the exception the client raised. *)
Definition fetch_and_normalize (execute : result (list record)) : M loc :=
  data <- lift execute ;;
  df <- alloc (pd.DataFrame_of L data) ;;
  d <- deref df ;;
  if negb (pd.empty d) then
    match time_cols d with
    | c :: _ =>
        x <- lift (pd.getitem d c) ;;
        parsed <- lift (to_datetime L x) ;;
        store df (pd.setitem d c parsed) ;;;
        d' <- deref df ;;
        alloc (pd.rename d' c "request_time")
    | [] => ret df
    end
  else ret df.

(** [load_contact_messages()] *)
Definition load_contact_messages (execute : result (list record)) : M loc :=
  try_except
    (fetch_and_normalize execute)
    (fun e =>
       emit (st.error ("Error loading contact messages: " ++ exn_str e)) ;;;
       alloc pd.empty_frame).

(** KPI card of [col1] *)
Definition kpi_total (contact_df : loc) : M unit :=
  d <- deref contact_df ;;
  emit (st.metric_card "TOTAL MESSAGES" (pd.len d)).

(** KPI card of [col2]; [now] is the reading of [pd.Timestamp.now(tz='UTC')] *)
Definition kpi_today (contact_df : loc) (now : Z) : M unit :=
  d <- deref contact_df ;;
  today_messages <-
    (if negb (pd.empty d) && pd.in_columns "request_time" d then
       let today := normalize now in
       x <- lift (pd.getitem d "request_time") ;;
       ts <- lift (pd.dt x) ;;
       sel <- alloc (pd.getitem_mask d (pd.normalize_eq ts today)) ;;
       f <- deref sel ;;
       ret (pd.len f)
     else ret 0%nat) ;;
  emit (st.metric_card "TODAY" today_messages).

(** KPI card of [col3] *)
Definition kpi_last_7_days (contact_df : loc) (now : Z) : M unit :=
  d <- deref contact_df ;;
  last_7_days <-
    (if negb (pd.empty d) && pd.in_columns "request_time" d then
       let week_ago := now - Timedelta_days 7 in
       x <- lift (pd.getitem d "request_time") ;;
       selected <-
         lift (match x with
               | Column s =>
                   match pd.datetimes s with
                   | Some ts => Ok (pd.getitem_mask d (pd.datetime_ge ts week_ago))
                   | None => ge_other L d x week_ago
                   end
               | Frame _ => ge_other L d x week_ago
               end) ;;
       sel <- alloc selected ;;
       f <- deref sel ;;
       ret (pd.len f)
     else ret 0%nat) ;;
  emit (st.metric_card "LAST 7 DAYS" last_7_days).

(** Charts section *)
Definition charts (contact_df : loc) : M unit :=
  emit (st.subheader "Submission Trends") ;;;
  emit (st.markdown "**Contact Messages Over Time**") ;;;
  d <- deref contact_df ;;
  if negb (pd.empty d) && pd.in_columns "request_time" d then
    x <- lift (pd.getitem d "request_time") ;;
    ts <- lift (pd.dt x) ;;
    daily_contacts <-
      alloc (pdx.reset_index "request_time" (pdx.groupby_size (pd.dt_date ts))) ;;
    dc <- deref daily_contacts ;;
    renamed <- lift (pdx.set_columns dc ["Date"; "Messages"]) ;;
    store daily_contacts renamed ;;;
    dc <- deref daily_contacts ;;
    fig <- lift (pdx.px_line L dc "Date" "Messages") ;;
    emit (st.plotly_chart fig)
  else emit (st.info "No contact message data available").

(** The content of one expander of the preview *)
Definition expander_body (contact_df : loc) (idx : nat) : M unit :=
  cd <- deref contact_df ;;
  one <- alloc (pd.getitem_mask cd (pd.index_eq cd idx)) ;;
  od <- deref one ;;
  full_row <- lift (iloc0 od) ;;
  for_each (combine (columns od) full_row)
    (fun cv => if negb (String.eqb (fst cv) "id")
               then emit (st.write (humanize L (fst cv)) (snd cv))
               else ret tt).

(** The preview of [recent_contacts]: one expander per row when a name,
    an email or a request time can label it, the plain table otherwise *)
Definition show_preview (contact_df recent_contacts : loc) : M unit :=
  rc <- deref recent_contacts ;;
  match filter (fun col => pd.in_columns col rc) ["name"; "email"; "request_time"] with
  | [] =>
      shown <- alloc (pd.head 10 rc) ;;
      h <- deref shown ;;
      emit (st.dataframe h true)
  | preview_cols =>
      selected <- alloc (pd.getitem_list rc preview_cols) ;;
      sd <- deref selected ;;
      preview_df <- alloc (pd.head 10 sd) ;;
      pv <- deref preview_df ;;
      for_each (rows pv)
        (fun r =>
           with_expander
             (pdx.row_get (columns pv) (snd r) "name" (VStr "Unknown"))
             (pdx.row_get (columns pv) (snd r) "email" (VStr ""))
             (expander_body contact_df (fst r)))
  end.

(** Recent activity section *)
Definition recent_activity (contact_df : loc) : M unit :=
  emit (st.subheader "Recent Activity") ;;;
  emit (st.markdown "**Latest Contact Messages**") ;;;
  d <- deref contact_df ;;
  if negb (pd.empty d) then
    copied <- alloc (pd.copy d) ;;
    rc <- deref copied ;;
    recent_contacts <-
      (if pd.in_columns "request_time" rc then
         sorted <- lift (pdx.sort_values_desc L rc "request_time") ;;
         alloc sorted
       else ret copied) ;;
    show_preview contact_df recent_contacts
  else emit (st.info "No messages yet").

(** Full data table and CSV download *)
Definition all_contact_messages (contact_df : loc) : M unit :=
  emit (st.subheader "All Contact Messages") ;;;
  d <- deref contact_df ;;
  if negb (pd.empty d) then
    display_df <-
      (if pd.in_columns "request_time" d then
         sorted <- lift (pdx.sort_values_desc L d "request_time") ;;
         alloc sorted
       else ret contact_df) ;;
    dd <- deref display_df ;;
    emit (st.dataframe dd false) ;;;
    let csv := pdx.to_csv dd false in
    emit (st.download_button "Download as CSV" csv "contact_messages.csv" "text/csv")
  else emit (st.info "No contact messages yet").

(** Everything the script does once the table is loaded.  The clock is
    read twice: [now_today] for the Today card, [now_week] for the
    Last-7-days card. *)
Definition render (contact_df : loc) (now_today now_week : Z) : M unit :=
  emit (st.title "Tymer.me Analytics Dashboard") ;;;
  emit (st.markdown "**Real-time insights from your contact forms**") ;;;
  emit (st.markdown "---") ;;;
  kpi_total contact_df ;;;
  kpi_today contact_df now_today ;;;
  kpi_last_7_days contact_df now_week ;;;
  emit (st.markdown "<br>") ;;;
  charts contact_df ;;;
  emit (st.markdown "---") ;;;
  recent_activity contact_df ;;;
  emit (st.markdown "---") ;;;
  all_contact_messages contact_df ;;;
  emit (st.markdown "---") ;;;
  emit (st.caption "Data refreshes every 60 seconds | Built with Streamlit & Supabase").

(** The whole script *)
Definition app (execute : result (list record)) (now_today now_week : Z) : M unit :=
  emit (st.markdown "<style>...</style>") ;;;
  contact_df <- load_contact_messages execute ;;
  render contact_df now_today now_week.

End Script.

(** ** Vocabulary of the statements *)

(** The variable [l] is bound to the table [df]. *)
Definition points_to (s : state) (l : loc) (df : DataFrame) : Prop :=
  nth_error (heap s) l = Some df.

(** Running [m] from [s] raises nothing, adds [elems] at the end of the page
    and leaves every object of [s] as it is. *)
Definition writes (m : M unit) (s : state) (elems : list st.element) : Prop :=
  exists fresh, m s = (Ok tt, mkState (heap s ++ fresh) (page s ++ elems)).

(** A table [load_contact_messages()] can return. *)
Definition loaded (L : library) (df : DataFrame) : Prop :=
  exists execute s l s',
    load_contact_messages L execute s = (Ok l, s') /\ points_to s' l df.

(** The label names one column of the table. *)
Definition has_column (label : string) (df : DataFrame) : Prop :=
  exists p, pd.positions label (columns df) = [p].

(** The instant a row carries under [request_time], if any. *)
Definition request_time (df : DataFrame) (r : nat * list value) : option Z :=
  match pd.positions "request_time" (columns df) with
  | p :: _ => match pd.cell p r with
              | VTime t => Some t
              | _ => None
              end
  | [] => None
  end.

(** Same UTC calendar day *)
Definition same_utc_day (t now : Z) : bool := date t =? date now.

(** No earlier than 7 times 24 hours before [now] *)
Definition within_7_days (t now : Z) : bool := now - 7 * 24 * hour_ns <=? t.

Definition rows_where (df : DataFrame) (p : Z -> bool) : list (nat * list value) :=
  filter (fun r => match request_time df r with
                   | Some t => p t
                   | None => false
                   end) (rows df).

Definition rows_today (df : DataFrame) (now : Z) : list (nat * list value) :=
  rows_where df (fun t => same_utc_day t now).

Definition rows_last_7_days (df : DataFrame) (now : Z) : list (nat * list value) :=
  rows_where df (fun t => within_7_days t now).

(** The rows whose [request_time] is not missing *)
Definition timed_rows (df : DataFrame) : list (nat * list value) :=
  rows_where df (fun _ => true).

(** The rows whose [request_time] is missing *)
Definition untimed_rows (df : DataFrame) : list (nat * list value) :=
  filter (fun r => match request_time df r with
                   | Some _ => false
                   | None => true
                   end) (rows df).

(** Row [a] may stand before row [b] when the rows go by descending
    [request_time]: [a] is not earlier than [b], and a row without an
    instant stands before no row that has one. *)
Definition not_earlier (df : DataFrame) (a b : nat * list value) : Prop :=
  match request_time df a, request_time df b with
  | Some x, Some y => y <= x
  | Some _, None => True
  | None, Some _ => False
  | None, None => True
  end.

(** The value of a field of a row, or [default] when the table has no such
    column. *)
Definition field_or (df : DataFrame) (r : nat * list value) (label : string)
           (default : value) : value :=
  match pd.positions label (columns df) with
  | p :: _ => pd.cell p r
  | [] => default
  end.

(** The fields of a row with their labels, in column order *)
Definition items (df : DataFrame) (r : nat * list value) : list (string * value) :=
  combine (columns df) (snd r).

(** The collapsible summary of a row: labelled with name and email, holding
    every field but [id] under its humanized label. *)
Definition summary (L : library) (df : DataFrame) (r : nat * list value)
  : st.element :=
  st.expander
    (field_or df r "name" (VStr "Unknown"))
    (field_or df r "email" (VStr ""))
    (map (fun cv => st.write (humanize L (fst cv)) (snd cv))
         (filter (fun cv => negb (String.eqb (fst cv) "id")) (items df r))).

(** Every row has one cell per column. *)
Definition rectangular (df : DataFrame) : Prop :=
  Forall (fun r => List.length (snd r) = List.length (columns df)) (rows df).

(** The points of the chart for the daily counts [g] *)
Definition chart_points (g : list (Z * nat)) : list (value * value) :=
  map (fun dn => (VDate (fst dn), VNum (Z.of_nat (snd dn)))) g.

Definition total_count (g : list (Z * nat)) : nat :=
  fold_right (fun dn acc => (snd dn + acc)%nat) 0%nat g.

(** What the script relies on: distinct labels, the index 0, 1, 2, ... and
    timestamps under [request_time]. *)
Record canonical (df : DataFrame) : Prop := mkCanonical {
  labels_distinct : NoDup (columns df);
  index_range : map fst (rows df) = seq 0 (List.length (rows df));
  cells_per_row : rectangular df;
  request_time_datetime :
    forall p, pd.positions "request_time" (columns df) = [p] ->
              exists ts, pd.datetimes (map (pd.cell p) (rows df)) = Some ts
}.

(** The message of the loader for the exception [e] *)
Definition load_error (e : exn) : st.element :=
  st.error ("Error loading contact messages: " ++ exn_str e).

(** The shapes of a loaded table *)
Inductive shape (L : library) : DataFrame -> Prop :=
| shape_failed : shape L pd.empty_frame
| shape_plain (data : list record) :
    pd.empty (pd.DataFrame_of L data) = true \/ time_cols (pd.DataFrame_of L data) = [] ->
    shape L (pd.DataFrame_of L data)
| shape_normalized (data : list record) (c : string) (rest : list string)
                   (p : nat) (parsed : list (option Z)) :
    pd.empty (pd.DataFrame_of L data) = false ->
    time_cols (pd.DataFrame_of L data) = c :: rest ->
    pd.positions c (columns (pd.DataFrame_of L data)) = [p] ->
    to_datetime L (Column (map (pd.cell p) (rows (pd.DataFrame_of L data)))) = Ok parsed ->
    shape L (pd.rename (pd.setitem (pd.DataFrame_of L data) c parsed) c "request_time").

(** The table the loader returns when it has parsed the column [c] into
    [parsed] *)
Definition normalized (L : library) (data : list record) (c : string)
           (parsed : list (option Z)) : DataFrame :=
  pd.rename (pd.setitem (pd.DataFrame_of L data) c parsed) c "request_time".

(** The number of keys that are not missing *)
Definition present (keys : list (option Z)) : nat :=
  List.length (filter (fun k => match k with Some _ => true | None => false end) keys).

(** The counts per UTC date of the rows that carry an instant *)
Definition daily_counts (df : DataFrame) : list (Z * nat) :=
  pdx.groupby_size (pd.dt_date (map (request_time df) (rows df))).

(** What an expander shows of a row *)
Definition field_lines (L : library) (df : DataFrame) (r : nat * list value)
  : list st.element :=
  map (fun cv => st.write (humanize L (fst cv)) (snd cv))
      (filter (fun cv => negb (String.eqb (fst cv) "id")) (items df r)).

(** The labels of [preview_cols] *)
Definition preview_labels (df : DataFrame) : list string :=
  filter (fun col => pd.in_columns col df) ["name"; "email"; "request_time"].

(** What the preview shows of the rows [view], in this order *)
Definition preview_of (L : library) (df : DataFrame) (view : list (nat * list value))
  : list st.element :=
  match preview_labels df with
  | [] => [st.dataframe (mkDataFrame (columns df) (firstn 10 view)) true]
  | _ :: _ => map (summary L df) (firstn 10 view)
  end.

(** Running [m] changes none of the first [n] objects and only adds to the
    page, whether it raises or not. *)
Definition keeps (n : nat) {A : Type} (m : M A) : Prop :=
  forall s, (n <= List.length (heap s))%nat ->
    (n <= List.length (heap (snd (m s))))%nat /\
    firstn n (heap (snd (m s))) = firstn n (heap s) /\
    exists more, page (snd (m s)) = page s ++ more.

(** Running [m] changes no object that exists: it only makes new ones. *)
Definition leaves_objects_alone {A : Type} (m : M A) : Prop :=
  forall s, exists fresh, heap (snd (m s)) = heap s ++ fresh.

(** The order of the keys of the sort *)
Definition keyed_before {A : Type} (x y : pdx.keyed A) : Prop :=
  pdx.before x y = true.

(** The rows as [sort_values('request_time', ascending=False)] leaves
    them *)
Definition latest_first (L : library) (df : DataFrame) : list (nat * list value) :=
  match pdx.sort_values_desc L df "request_time" with
  | Ok sorted => rows sorted
  | Raise _ => rows df
  end.

(** Running [m] from [s] raises nothing and leaves every object of [s] as
    it is. *)
Definition runs (m : M unit) (s : state) : Prop :=
  exists elems, writes m s elems.

(** The count the daily counts [g] hold for the date [d] *)
Definition count_on (d : Z) (g : list (Z * nat)) : nat :=
  total_count (filter (fun dn => fst dn =? d) g).

(** The rows whose [request_time] falls on the UTC date [d] *)
Definition rows_on (df : DataFrame) (d : Z) : list (nat * list value) :=
  rows_where df (fun t => date t =? d).

(** [k] is a key of some record of the response. *)
Definition is_key (k : string) (data : list record) : Prop :=
  exists r v, In r data /\ In (k, v) r.

(** ** Example data *)

Module Examples.

Definition digit (c : ascii) : option Z :=
  let n := nat_of_ascii c in
  if ((48 <=? n) && (n <=? 57))%nat then Some (Z.of_nat (n - 48)) else None.

Fixpoint digits (acc : Z) (cs : list ascii) : option Z :=
  match cs with
  | [] => Some acc
  | c :: cs' => match digit c with
                | Some d => digits (10 * acc + d) cs'
                | None => None
                end
  end.

(** The instant of a text of the form [2024-01-02T00:30:00Z], for a date
    every month has and a year pandas can hold *)
Definition iso8601 (s : string) : option Z :=
  match list_ascii_of_string s with
  | [y1; y2; y3; y4; a; m1; m2; b; d1; d2; t; h1; h2; c; n1; n2; d; s1; s2; z] =>
      if (Ascii.eqb a "-" && Ascii.eqb b "-" && Ascii.eqb t "T"
          && Ascii.eqb c ":" && Ascii.eqb d ":" && Ascii.eqb z "Z")%bool
      then
        match digits 0 [y1; y2; y3; y4], digits 0 [m1; m2], digits 0 [d1; d2],
              digits 0 [h1; h2], digits 0 [n1; n2], digits 0 [s1; s2] with
        | Some y, Some m, Some dd, Some h, Some n, Some sec =>
            if (1678 <=? y) && (y <=? 2261) && (1 <=? m) && (m <=? 12)
               && (1 <=? dd) && (dd <=? 28) && (h <=? 23) && (n <=? 59)
               && (sec <=? 59)
            then Some (utc y m dd h n + sec * 1000000000)
            else None
        | _, _, _, _, _, _ => None
        end
      else None
  | _ => None
  end.

(** The instants of a column of such texts and of missing values, row by
    row from position [i] *)
Fixpoint instants (i : nat) (s : Series) : result (list (option Z)) :=
  match s with
  | [] => Ok []
  | v :: s' =>
      match v with
      | VNone =>
          match instants (S i) s' with
          | Ok ts => Ok (None :: ts)
          | Raise e => Raise e
          end
      | VStr text =>
          match iso8601 text with
          | Some t =>
              match instants (S i) s' with
              | Ok ts => Ok (Some t :: ts)
              | Raise e => Raise e
              end
          | None =>
              Raise (Exception "DateParseError"
                       ("Unknown datetime string format, unable to parse: "
                        ++ text ++ ", at position " ++ PyStr.of_nat i))
          end
      | _ => Raise (Exception "NotImplementedError" "no answer in the examples")
      end
  end.

(** The float nearest to an integer, ties to the even significand *)
Definition to_float (z : Z) : value :=
  let n := Z.abs z in
  let shift := Z.max 0 (Z.log2 n + 1 - 53) in
  let q := Z.shiftr n shift in
  let rest := n - Z.shiftl q shift in
  let half := Z.shiftl 1 (shift - 1) in
  let up := (0 <? shift) && ((half <? rest) || ((rest =? half) && Z.odd q)) in
  VFloat (Z.sgn z * (if up then q + 1 else q)) shift.

(** A column of 64-bit integers with a missing value among them *)
Definition gapped_integers (s : Series) : bool :=
  forallb (fun v => match v with
                    | VNum z => Z.abs z <? 2 ^ 63
                    | VNone => true
                    | _ => false
                    end) s
  && existsb (fun v => match v with VNum _ => true | _ => false end) s
  && existsb (fun v => match v with VNone => true | _ => false end) s.

(** A library for the examples: what pandas does with the responses of
    this module.  Columns are stored as they come, but for the integers of
    a column with a missing value, which become floats.  A column of
    texts and missing values parses when every text is a timestamp
    written as above; the first text that is none is refused, in the words
    pandas 2 has when this text is the first value of the column.  Rows of
    equal keys stay in their order.  Every other question has no answer
    here, and no statement asks one. *)
Definition library : library :=
  mkLibrary
    (fun s => if gapped_integers s
              then map (fun v => match v with VNum z => to_float z | _ => v end) s
              else s)
    (fun x => match x with
              | Column s => instants 0 s
              | Frame _ =>
                  Raise (Exception "NotImplementedError" "no answer in the examples")
              end)
    (fun _ i => i)
    (fun _ _ _ => Raise (Exception "NotImplementedError" "no answer in the examples"))
    (fun _ _ => Raise (Exception "NotImplementedError" "no answer in the examples"))
    (fun _ _ _ => Raise (Exception "NotImplementedError" "no answer in the examples"))
    (fun s => s).

(** Three submissions; the clock of the examples reads 2024-01-02T01:00Z. *)
Definition now : Z := utc 2024 1 2 1 0.

Definition data : list record :=
  [ [("id", VNum 1); ("name", VStr "Ann"); ("email", VStr "ann@example.org");
     ("created_at", VStr "2024-01-01T23:00:00Z")];
    [("id", VNum 2); ("name", VStr "Bob"); ("email", VStr "bob@example.org");
     ("created_at", VStr "2024-01-02T00:30:00Z")];
    [("id", VNum 3); ("name", VStr "Cy"); ("email", VStr "cy@example.org");
     ("created_at", VNone)] ].

(** The table the loader makes of [data] *)
Definition table : DataFrame :=
  mkDataFrame ["id"; "name"; "email"; "request_time"]
    [ (0%nat, [VNum 1; VStr "Ann"; VStr "ann@example.org"; VTime (utc 2024 1 1 23 0)]);
      (1%nat, [VNum 2; VStr "Bob"; VStr "bob@example.org"; VTime (utc 2024 1 2 0 30)]);
      (2%nat, [VNum 3; VStr "Cy"; VStr "cy@example.org"; VNaT]) ].

(** Records without any time-like field *)
Definition plain_data : list record :=
  [ [("id", VNum 1); ("name", VStr "Ann"); ("email", VStr "ann@example.org")];
    [("id", VNum 2); ("name", VStr "Bob"); ("email", VStr "bob@example.org")] ].

Definition plain_table : DataFrame :=
  mkDataFrame ["id"; "name"; "email"]
    [ (0%nat, [VNum 1; VStr "Ann"; VStr "ann@example.org"]);
      (1%nat, [VNum 2; VStr "Bob"; VStr "bob@example.org"]) ].

Definition start : state := mkState [] [].

(** The state in which the script renders [table] *)
Definition loaded_state : state :=
  snd (load_contact_messages library (Ok data) start).

Definition plain_state : state :=
  snd (load_contact_messages library (Ok plain_data) start).

(** A time-like label over values that are no timestamps *)
Definition zone_data : list record :=
  [ [("id", VNum 1); ("name", VStr "Ann"); ("timezone", VStr "Europe/Paris")] ].

(** Two submissions, one with a time that is no timestamp *)
Definition garbled_data : list record :=
  [ [("id", VNum 1); ("name", VStr "Ann"); ("created_at", VStr "not a date")];
    [("id", VNum 2); ("name", VStr "Bob");
     ("created_at", VStr "2024-01-02T00:30:00Z")] ].

(** Records with none of the fields that label a preview *)
Definition bare_data : list record :=
  [ [("id", VNum 1); ("message", VStr "hello")] ].

Definition bare_table : DataFrame :=
  mkDataFrame ["id"; "message"] [ (0%nat, [VNum 1; VStr "hello"]) ].

Definition bare_state : state :=
  snd (load_contact_messages library (Ok bare_data) start).

(** Rows whose request times are the ordinals 3, 1, 2 *)
Definition ordinal_table : DataFrame :=
  mkDataFrame ["name"; "request_time"]
    [ (0%nat, [VStr "c"; VTime 3]);
      (1%nat, [VStr "a"; VTime 1]);
      (2%nat, [VStr "b"; VTime 2]) ].

(** The columns of the tie-break example *)
Definition tie_data : list record :=
  [ [("id", VNum 1);
     ("updated_time", VStr "2024-01-02T00:30:00Z");
     ("created_at", VStr "2024-01-01T23:00:00Z")] ].

(** A response with a field request_time behind another time-like field *)
Definition twice_data : list record :=
  [ [("id", VNum 1);
     ("created_at", VStr "2024-01-02T00:30:00Z");
     ("request_time", VStr "2024-01-01T23:00:00Z")] ].

End Examples.

(** * Properties *)

(** ** Column labels and positions *)

Section Positions.

Import pd.

Lemma has_label_In (k : string) (cols : list string) :
  has_label k cols = true <-> In k cols.
Proof.
  unfold has_label. rewrite existsb_exists. split.
  - intros [x [Hin Heq]]. apply String.eqb_eq in Heq. now subst.
  - intros Hin. exists k. split; [assumption | apply String.eqb_refl].
Qed.

Lemma positions_from_spec (label : string) (cols : list string) (i q : nat) :
  In q (positions_from i label cols) <->
  exists j, q = (i + j)%nat /\ nth_error cols j = Some label.
Proof.
  revert i. induction cols as [|k cols IH]; intros i; simpl.
  - split; [tauto | intros [[|j] [_ H]]; discriminate].
  - rewrite in_app_iff, IH. split.
    + intros [H | [j [-> Hj]]].
      * destruct (String.eqb_spec k label) as [->|]; simpl in H; [|tauto].
        destruct H as [<-|[]]. exists 0%nat. split; [lia | reflexivity].
      * exists (S j). split; [lia | assumption].
    + intros [[|j] [-> Hj]]; simpl in Hj.
      * left. injection Hj as ->. rewrite String.eqb_refl. left. lia.
      * right. exists j. split; [lia | assumption].
Qed.

Lemma positions_spec (label : string) (cols : list string) (q : nat) :
  In q (positions label cols) <-> nth_error cols q = Some label.
Proof.
  unfold positions. rewrite positions_from_spec. split.
  - intros [j [-> H]]. exact H.
  - intros H. now exists q.
Qed.

Lemma positions_nil (label : string) (cols : list string) :
  positions label cols = [] <-> ~ In label cols.
Proof.
  split.
  - intros H Hin. apply In_nth_error in Hin as [q Hq].
    apply positions_spec in Hq. rewrite H in Hq. exact Hq.
  - intros H. destruct (positions label cols) as [|q l] eqn:E; [reflexivity|].
    exfalso. apply H. assert (Hq : In q (positions label cols)) by (rewrite E; now left).
    apply positions_spec in Hq. eapply nth_error_In; eassumption.
Qed.

Lemma positions_from_shift (label : string) (cols : list string) (i : nat) :
  positions_from (S i) label cols = map S (positions_from i label cols).
Proof.
  revert i. induction cols as [|k cols IH]; intros i; simpl; [reflexivity|].
  rewrite map_app, IH. now destruct (String.eqb k label).
Qed.

Lemma positions_from_notin (label : string) (cols : list string) (i : nat) :
  ~ In label cols -> positions_from i label cols = [].
Proof.
  revert i. induction cols as [|k cols IH]; intros i H; simpl; [reflexivity|].
  destruct (String.eqb_spec k label) as [->|].
  - exfalso. apply H. now left.
  - simpl. apply IH. intros Hin. apply H. now right.
Qed.

(** A label of a table with distinct labels names one column. *)
Lemma positions_unique (label : string) (cols : list string) :
  NoDup cols -> In label cols -> exists p, positions label cols = [p].
Proof.
  unfold positions. generalize 0%nat.
  induction cols as [|k cols IH]; intros i Hnd Hin; [destruct Hin|].
  inversion Hnd as [|? ? Hk Hnd']; subst. simpl.
  destruct (String.eqb_spec k label) as [->|Hne].
  - exists i. now rewrite positions_from_notin.
  - destruct Hin as [->|Hin]; [congruence|]. simpl. now apply IH.
Qed.

Lemma in_columns_positions (label : string) (df : DataFrame) (p : nat) :
  positions label (columns df) = [p] -> in_columns label df = true.
Proof.
  intros H. apply has_label_In.
  destruct (in_dec string_dec label (columns df)) as [|Hn]; [assumption|].
  apply positions_nil in Hn. congruence.
Qed.

Lemma in_columns_false (label : string) (df : DataFrame) :
  in_columns label df = false -> positions label (columns df) = [].
Proof.
  intros H. apply positions_nil. intros Hin.
  apply has_label_In in Hin. unfold in_columns in H. congruence.
Qed.

End Positions.

(** ** Running the script *)

Lemma deref_points_to (s : state) (l : loc) (df : DataFrame) :
  points_to s l df -> deref l s = (Ok df, s).
Proof. unfold points_to, deref. now intros ->. Qed.

Lemma points_to_fresh (s : state) (l : loc) (df : DataFrame)
      (fresh : list DataFrame) (pg : list st.element) :
  points_to s l df -> points_to (mkState (heap s ++ fresh) pg) l df.
Proof.
  unfold points_to. simpl. intros H.
  rewrite nth_error_app1; [assumption|].
  apply nth_error_Some. congruence.
Qed.

Lemma points_to_new (h : list DataFrame) (df : DataFrame) (pg : list st.element) :
  points_to (mkState (h ++ [df]) pg) (List.length h) df.
Proof.
  unfold points_to. simpl. rewrite nth_error_app2, Nat.sub_diag; [reflexivity | lia].
Qed.

Lemma writes_emit (e : st.element) (s : state) : writes (emit e) s [e].
Proof. exists []. unfold emit. now rewrite app_nil_r. Qed.

Lemma writes_ret (s : state) : writes (ret tt) s [].
Proof. exists []. unfold ret. rewrite !app_nil_r. now destruct s. Qed.

Lemma writes_bind (m k : M unit) (s : state) (e1 e2 : list st.element) :
  writes m s e1 ->
  (forall fresh, writes k (mkState (heap s ++ fresh) (page s ++ e1)) e2) ->
  writes (m ;;; k) s (e1 ++ e2).
Proof.
  intros [f1 H1] H2. destruct (H2 f1) as [f2 H3]. simpl in H3.
  exists (f1 ++ f2). unfold bind. rewrite H1, H3. now rewrite <- !app_assoc.
Qed.

Lemma writes_deref (l : loc) (k : DataFrame -> M unit) (s : state)
      (df : DataFrame) (elems : list st.element) :
  points_to s l df -> writes (k df) s elems -> writes (d <- deref l ;; k d) s elems.
Proof.
  intros Hl [fresh H]. exists fresh. unfold bind.
  now rewrite (deref_points_to _ _ _ Hl).
Qed.

(** ** Masks and filters *)

Lemma mask_filter (p : nat) (f : option Z -> bool)
      (rs : list (nat * list value)) (ts : list (option Z)) :
  pd.datetimes (map (pd.cell p) rs) = Some ts ->
  pd.select_by_mask rs (map f ts) =
  filter (fun r => match pd.timestamp_of (pd.cell p r) with
                   | Some t => f t
                   | None => false
                   end) rs.
Proof.
  revert ts. induction rs as [|r rs IH]; intros ts H; simpl in *.
  - now injection H as <-.
  - destruct (pd.timestamp_of (pd.cell p r)) as [t|]; [|discriminate].
    destruct (pd.datetimes (map (pd.cell p) rs)) as [ts'|]; [|discriminate].
    injection H as <-. simpl. rewrite (IH ts' eq_refl). reflexivity.
Qed.

Lemma day_ns_pos : 0 < day_ns.
Proof. reflexivity. Qed.

(** Two instants have the same midnight exactly when they have the same
    date. *)
Lemma normalize_same_day (t now : Z) :
  (normalize t =? normalize now) = same_utc_day t now.
Proof.
  unfold normalize, same_utc_day, date.
  pose proof day_ns_pos as Hd.
  pose proof (Z.div_mod t day_ns ltac:(lia)) as Ht.
  pose proof (Z.div_mod now day_ns ltac:(lia)) as Hn.
  destruct (Z.eqb_spec (t / day_ns) (now / day_ns)) as [E|E].
  - apply Z.eqb_eq. rewrite E in Ht. lia.
  - apply Z.eqb_neq. intros H. apply E.
    assert (day_ns * (t / day_ns) = day_ns * (now / day_ns)) by lia.
    nia.
Qed.

(** The rows a datetime mask selects, in the words of the statements *)
Lemma rows_where_mask (df : DataFrame) (p : nat) (ts : list (option Z))
      (f : Z -> bool) :
  pd.positions "request_time" (columns df) = [p] ->
  pd.datetimes (map (pd.cell p) (rows df)) = Some ts ->
  pd.select_by_mask (rows df)
    (map (fun t => match t with Some t => f t | None => false end) ts)
  = rows_where df f.
Proof.
  intros Hp Hts. rewrite (mask_filter p _ _ _ Hts).
  unfold rows_where, request_time. rewrite Hp.
  apply filter_ext. intros r.
  destruct (pd.cell p r); reflexivity.
Qed.

(** ** The KPI cards *)

Section Cards.

Variables (L : library) (df : DataFrame) (contact_df : loc) (s : state).
Hypothesis Hc : points_to s contact_df df.

Lemma kpi_total_writes :
  writes (kpi_total contact_df) s
    [st.metric_card "TOTAL MESSAGES" (List.length (rows df))].
Proof.
  unfold kpi_total. apply writes_deref with (1 := Hc). apply writes_emit.
Qed.

Lemma kpi_today_absent (now : Z) :
  pd.empty df = true \/ pd.in_columns "request_time" df = false ->
  writes (kpi_today contact_df now) s [st.metric_card "TODAY" 0].
Proof.
  intros H. apply writes_deref with (1 := Hc). unfold writes, bind.
  replace (negb (pd.empty df) && pd.in_columns "request_time" df) with false
    by (destruct H as [-> | ->]; [reflexivity | now rewrite andb_false_r]).
  apply writes_emit.
Qed.

Lemma kpi_last_7_days_absent (now : Z) :
  pd.empty df = true \/ pd.in_columns "request_time" df = false ->
  writes (kpi_last_7_days L contact_df now) s [st.metric_card "LAST 7 DAYS" 0].
Proof.
  intros H. apply writes_deref with (1 := Hc). unfold writes, bind.
  replace (negb (pd.empty df) && pd.in_columns "request_time" df) with false
    by (destruct H as [-> | ->]; [reflexivity | now rewrite andb_false_r]).
  apply writes_emit.
Qed.

Hypothesis Hcan : canonical df.
Hypothesis Hrt : In "request_time" (columns df).

Lemma rows_where_empty (f : Z -> bool) :
  pd.empty df = true -> rows_where df f = [].
Proof.
  unfold pd.empty. intros H. apply orb_true_iff in H as [H|H].
  - unfold rows_where. apply Nat.eqb_eq in H.
    destruct (rows df); [reflexivity | discriminate].
  - apply Nat.eqb_eq in H. destruct (columns df); [destruct Hrt | discriminate].
Qed.

Lemma kpi_today_writes (now : Z) :
  writes (kpi_today contact_df now) s
    [st.metric_card "TODAY" (List.length (rows_today df now))].
Proof.
  destruct (pd.empty df) eqn:Hem.
  - unfold rows_today. rewrite (rows_where_empty _ Hem).
    apply kpi_today_absent. now left.
  - destruct (positions_unique _ _ (labels_distinct _ Hcan) Hrt) as [p Hp].
    destruct (request_time_datetime _ Hcan _ Hp) as [ts Hts].
    apply writes_deref with (1 := Hc). unfold writes, bind.
    rewrite Hem, (in_columns_positions _ _ _ Hp). simpl.
    unfold lift, pd.getitem, pd.dt. rewrite Hp, Hts.
    unfold alloc. rewrite (deref_points_to _ _ _ (points_to_new _ _ _)).
    unfold ret, emit, pd.len, pd.normalize_eq. simpl.
    rewrite (map_ext _ (fun t => match t with
                                 | Some t => same_utc_day t now
                                 | None => false
                                 end))
      by (intros [t|]; [apply normalize_same_day | reflexivity]).
    rewrite (rows_where_mask df p ts (fun t => same_utc_day t now) Hp Hts).
    eexists [_]. reflexivity.
Qed.

Lemma kpi_last_7_days_writes (now : Z) :
  writes (kpi_last_7_days L contact_df now) s
    [st.metric_card "LAST 7 DAYS" (List.length (rows_last_7_days df now))].
Proof.
  destruct (pd.empty df) eqn:Hem.
  - unfold rows_last_7_days. rewrite (rows_where_empty _ Hem).
    apply kpi_last_7_days_absent. now left.
  - destruct (positions_unique _ _ (labels_distinct _ Hcan) Hrt) as [p Hp].
    destruct (request_time_datetime _ Hcan _ Hp) as [ts Hts].
    apply writes_deref with (1 := Hc). unfold writes, bind.
    rewrite Hem, (in_columns_positions _ _ _ Hp). simpl.
    unfold lift, pd.getitem, pd.datetime_ge. rewrite Hp, Hts.
    unfold alloc. rewrite (deref_points_to _ _ _ (points_to_new _ _ _)).
    unfold ret, emit, pd.len. simpl.
    rewrite (map_ext _ (fun t => match t with
                                 | Some t => within_7_days t now
                                 | None => false
                                 end))
      by (intros [t|]; reflexivity).
    rewrite (rows_where_mask df p ts (fun t => within_7_days t now) Hp Hts).
    eexists [_]. reflexivity.
Qed.

End Cards.

(** ** The table constructor *)

Section Constructor.

Import pd.

Variable L : library.

Lemma add_keys_NoDup (r : record) (cols : list string) :
  NoDup cols -> NoDup (add_keys cols r).
Proof.
  revert cols. induction r as [|[k v] r IH]; intros cols H; simpl; [assumption|].
  apply IH. destruct (has_label k cols) eqn:E; [assumption|].
  apply NoDup_app; [assumption | repeat constructor; intros [] |].
  intros x Hx [<-|[]]. apply has_label_In in Hx. congruence.
Qed.

Lemma collected_NoDup (data : list record) (cols : list string) :
  NoDup cols -> NoDup (fold_left add_keys data cols).
Proof.
  revert cols. induction data as [|r data IH]; intros cols H; simpl; [assumption|].
  apply IH. now apply add_keys_NoDup.
Qed.

Lemma DataFrame_of_NoDup (data : list record) :
  NoDup (columns (DataFrame_of L data)).
Proof. apply collected_NoDup. constructor. Qed.

Lemma DataFrame_of_index (data : list record) :
  map fst (rows (DataFrame_of L data))
  = seq 0 (List.length (rows (DataFrame_of L data))).
Proof.
  unfold DataFrame_of. cbn [rows].
  rewrite map_map, length_map, length_seq. cbn [fst]. apply map_id.
Qed.

Lemma DataFrame_of_rectangular (data : list record) :
  rectangular (DataFrame_of L data).
Proof.
  unfold rectangular, DataFrame_of. cbn [rows columns].
  apply Forall_map, Forall_forall. intros i _. cbn [snd]. apply length_map.
Qed.

(** One record per row, in the order of the response *)
Lemma DataFrame_of_len (data : list record) :
  len (DataFrame_of L data) = List.length data.
Proof.
  unfold len, DataFrame_of. cbn [rows].
  now rewrite length_map, length_seq.
Qed.

End Constructor.

(** ** Setting and renaming a column *)

Section Columns.

Import pd.

Lemma set_at_length {A : Type} (p : nat) (x : A) (l : list A) :
  List.length (set_at p x l) = List.length l.
Proof.
  revert p. induction l as [|y l IH]; intros [|p]; simpl; auto.
Qed.

Lemma set_at_same {A : Type} (p : nat) (x d : A) (l : list A) :
  (p < List.length l)%nat -> nth p (set_at p x l) d = x.
Proof.
  revert p. induction l as [|y l IH]; intros [|p] H; simpl in *; try lia; auto.
  apply IH. lia.
Qed.

Lemma set_at_other {A : Type} (p q : nat) (x d : A) (l : list A) :
  q <> p -> nth q (set_at p x l) d = nth q l d.
Proof.
  revert p q. induction l as [|y l IH]; intros [|p] [|q] H; simpl;
    auto; congruence.
Qed.

Lemma setitem_rows (df : DataFrame) (label : string) (p : nat)
      (s : list (option Z)) :
  positions label (columns df) = [p] ->
  setitem df label s = mkDataFrame (columns df) (set_column p s (rows df)).
Proof. unfold setitem. now intros ->. Qed.

Lemma set_column_fst (p : nat) (s : list (option Z)) (rs : list (nat * list value)) :
  map fst (set_column p s rs) = map fst rs.
Proof. unfold set_column. rewrite map_map. reflexivity. Qed.

Lemma set_column_length (p : nat) (s : list (option Z))
      (rs : list (nat * list value)) :
  List.length (set_column p s rs) = List.length rs.
Proof. apply length_map. Qed.

Lemma set_column_widths (p n : nat) (s : list (option Z))
      (rs : list (nat * list value)) :
  Forall (fun r => List.length (snd r) = n) rs ->
  Forall (fun r => List.length (snd r) = n) (set_column p s rs).
Proof.
  intros H. unfold set_column. apply Forall_map.
  eapply Forall_impl; [|exact H]. intros r Hr. cbn [snd].
  now rewrite set_at_length.
Qed.

(** The cells of the column that was set are the new values. *)
Lemma set_column_same (p n : nat) (s : list (option Z))
      (rs : list (nat * list value)) :
  (p < n)%nat ->
  Forall (fun r => List.length (snd r) = n) rs ->
  map (cell p) (set_column p s rs)
  = map (fun r => of_timestamp (nth (fst r) s None)) rs.
Proof.
  intros Hp H. unfold set_column. rewrite map_map.
  apply map_ext_in. intros r Hr. unfold cell. cbn [snd fst].
  apply set_at_same. rewrite Forall_forall in H. rewrite (H r Hr). exact Hp.
Qed.

(** The cells of every other column are the old ones. *)
Lemma set_column_other (p q : nat) (s : list (option Z))
      (rs : list (nat * list value)) :
  q <> p -> map (cell q) (set_column p s rs) = map (cell q) rs.
Proof.
  intros Hq. unfold set_column. rewrite map_map.
  apply map_ext. intros r. unfold cell. cbn [snd]. now apply set_at_other.
Qed.

(** Cells made of instants form a datetime series. *)
Lemma datetimes_of_timestamps (ts : list (option Z)) :
  datetimes (map of_timestamp ts) = Some ts.
Proof.
  induction ts as [|[t|] ts IH]; simpl; [reflexivity | |]; now rewrite IH.
Qed.

(** On the index 0, 1, 2, ... the values land in their order. *)
Lemma nth_over_index (s : list (option Z)) (rs : list (nat * list value)) :
  map fst rs = seq 0 (List.length rs) ->
  List.length s = List.length rs ->
  map (fun r => nth (fst r) s None) rs = s.
Proof.
  intros Hidx Hlen.
  rewrite <- (map_map fst (fun i => nth i s None)), Hidx, <- Hlen.
  clear Hidx Hlen rs.
  induction s as [|x s IH]; [reflexivity|].
  cbn [List.length seq map nth]. f_equal.
  rewrite <- seq_shift, map_map. exact IH.
Qed.

Lemma rename_positions (old new : string) (cols : list string) (p : nat) :
  In p (positions old cols) ->
  In p (positions new (map (fun k => if String.eqb k old then new else k) cols)).
Proof.
  rewrite !positions_spec. intros H.
  rewrite nth_error_map, H. simpl. now rewrite String.eqb_refl.
Qed.

Lemma positions_bound (label : string) (cols : list string) (p : nat) :
  In p (positions label cols) -> (p < List.length cols)%nat.
Proof.
  rewrite positions_spec. intros H. apply nth_error_Some. congruence.
Qed.

End Columns.

(** ** The loader, case by case *)

Section Loader.

Variable L : library.

Lemma set_at_last {A : Type} (h : list A) (x y : A) :
  pd.set_at (List.length h) x (h ++ [y]) = h ++ [x].
Proof. induction h as [|z h IH]; simpl; [reflexivity | now rewrite IH]. Qed.

(** The client raised. *)
Lemma load_fetch_failed (e : exn) (s : state) :
  load_contact_messages L (Raise e) s
  = (Ok (List.length (heap s)),
     mkState (heap s ++ [pd.empty_frame]) (page s ++ [load_error e])).
Proof. reflexivity. Qed.

(** Nothing to normalize: no row, no column, or no time-like label. *)
Lemma load_plain (data : list record) (s : state) :
  pd.empty (pd.DataFrame_of L data) = true \/ time_cols (pd.DataFrame_of L data) = [] ->
  load_contact_messages L (Ok data) s
  = (Ok (List.length (heap s)),
     mkState (heap s ++ [pd.DataFrame_of L data]) (page s)).
Proof.
  intros H.
  unfold load_contact_messages, try_except, fetch_and_normalize, bind, lift, alloc.
  rewrite (deref_points_to _ _ _ (points_to_new _ _ _)).
  destruct (pd.empty (pd.DataFrame_of L data)); [reflexivity|].
  destruct H as [H|H]; [discriminate|]. simpl. now rewrite H.
Qed.

(** The first time-like label names one column of the fresh table. *)
Lemma first_time_col_series (data : list record) (c : string) (rest : list string) :
  time_cols (pd.DataFrame_of L data) = c :: rest ->
  exists p, pd.positions c (columns (pd.DataFrame_of L data)) = [p].
Proof.
  intros H. apply positions_unique; [apply DataFrame_of_NoDup|].
  assert (Hin : In c (time_cols (pd.DataFrame_of L data))) by (rewrite H; now left).
  unfold time_cols in Hin. now apply filter_In in Hin.
Qed.

(** The values of the first time-like column do not parse. *)
Lemma load_parse_failed (data : list record) (c : string) (rest : list string)
      (p : nat) (e : exn) (s : state) :
  pd.empty (pd.DataFrame_of L data) = false ->
  time_cols (pd.DataFrame_of L data) = c :: rest ->
  pd.positions c (columns (pd.DataFrame_of L data)) = [p] ->
  to_datetime L (Column (map (pd.cell p) (rows (pd.DataFrame_of L data)))) = Raise e ->
  load_contact_messages L (Ok data) s
  = (Ok (S (List.length (heap s))),
     mkState (heap s ++ [pd.DataFrame_of L data; pd.empty_frame])
             (page s ++ [load_error e])).
Proof.
  intros Hem Htc Hp He.
  unfold load_contact_messages, try_except, fetch_and_normalize, bind, lift, alloc.
  rewrite (deref_points_to _ _ _ (points_to_new _ _ _)).
  rewrite Hem, Htc. simpl. unfold pd.getitem. rewrite Hp, He.
  unfold emit, alloc. simpl. rewrite length_app, <- app_assoc. simpl.
  now rewrite Nat.add_1_r.
Qed.

(** The first time-like column is parsed and renamed. *)
Lemma load_normalized (data : list record) (c : string) (rest : list string)
      (p : nat) (parsed : list (option Z)) (s : state) :
  pd.empty (pd.DataFrame_of L data) = false ->
  time_cols (pd.DataFrame_of L data) = c :: rest ->
  pd.positions c (columns (pd.DataFrame_of L data)) = [p] ->
  to_datetime L (Column (map (pd.cell p) (rows (pd.DataFrame_of L data)))) = Ok parsed ->
  load_contact_messages L (Ok data) s
  = (Ok (S (List.length (heap s))),
     mkState (heap s ++ [pd.setitem (pd.DataFrame_of L data) c parsed;
                         pd.rename (pd.setitem (pd.DataFrame_of L data) c parsed)
                                   c "request_time"])
             (page s)).
Proof.
  intros Hem Htc Hp He.
  unfold load_contact_messages, try_except, fetch_and_normalize, bind, lift, alloc.
  rewrite (deref_points_to _ _ _ (points_to_new _ _ _)).
  rewrite Hem, Htc. simpl. unfold pd.getitem. rewrite Hp, He.
  unfold store. simpl. rewrite set_at_last.
  rewrite (deref_points_to _ _ _ (points_to_new _ _ _)). simpl.
  rewrite length_app, <- app_assoc. simpl. now rewrite Nat.add_1_r.
Qed.

Lemma loaded_shape (df : DataFrame) : loaded L df -> shape L df.
Proof.
  intros (execute & s & l & s' & Hrun & Hl). unfold points_to in Hl.
  destruct execute as [data|e].
  - destruct (pd.empty (pd.DataFrame_of L data)) eqn:Hem.
    + rewrite load_plain in Hrun by now left.
      injection Hrun as <- <-. cbn [heap] in Hl.
      rewrite nth_error_app2, Nat.sub_diag in Hl by lia.
      injection Hl as <-. constructor. now left.
    + destruct (time_cols (pd.DataFrame_of L data)) as [|c rest] eqn:Htc.
      * rewrite load_plain in Hrun by now right.
        injection Hrun as <- <-. cbn [heap] in Hl.
        rewrite nth_error_app2, Nat.sub_diag in Hl by lia.
        injection Hl as <-. constructor. now right.
      * destruct (first_time_col_series _ _ _ Htc) as [p Hp].
        destruct (to_datetime L
                    (Column (map (pd.cell p) (rows (pd.DataFrame_of L data)))))
          as [parsed|e] eqn:He.
        -- rewrite (load_normalized _ _ _ _ _ s Hem Htc Hp He) in Hrun.
           injection Hrun as <- <-. cbn [heap] in Hl.
           rewrite nth_error_app2 in Hl by lia.
           replace (S (List.length (heap s)) - List.length (heap s))%nat
             with 1%nat in Hl by lia.
           injection Hl as <-. now apply shape_normalized with (rest := rest) (p := p).
        -- rewrite (load_parse_failed _ _ _ _ _ s Hem Htc Hp He) in Hrun.
           injection Hrun as <- <-. cbn [heap] in Hl.
           rewrite nth_error_app2 in Hl by lia.
           replace (S (List.length (heap s)) - List.length (heap s))%nat
             with 1%nat in Hl by lia.
           injection Hl as <-. constructor.
  - rewrite load_fetch_failed in Hrun. injection Hrun as <- <-. cbn [heap] in Hl.
    rewrite nth_error_app2, Nat.sub_diag in Hl by lia.
    injection Hl as <-. constructor.
Qed.

Lemma time_like_request_time : time_like "request_time" = true.
Proof. reflexivity. Qed.

(** A loaded table whose labels are distinct is canonical. *)
Lemma loaded_canonical (df : DataFrame) :
  loaded L df -> NoDup (columns df) -> canonical df.
Proof.
  intros Hl Hnd. apply loaded_shape in Hl.
  destruct Hl as [|data Hplain|data c rest p parsed Hem Htc Hp He].
  - constructor; simpl; [constructor | reflexivity | constructor |].
    intros p _. now exists [].
  - constructor;
      [assumption | apply DataFrame_of_index | apply DataFrame_of_rectangular |].
    intros p Hp. destruct Hplain as [Hem|Htc].
    + unfold pd.empty in Hem. apply orb_true_iff in Hem as [Hem|Hem];
        apply Nat.eqb_eq in Hem.
      * destruct (rows (pd.DataFrame_of L data)); [now exists [] | discriminate].
      * destruct (columns (pd.DataFrame_of L data)); discriminate.
    + exfalso.
      assert (Hin : In "request_time" (columns (pd.DataFrame_of L data))).
      { apply has_label_In. apply (in_columns_positions _ _ _ Hp). }
      assert (Hin' : In "request_time" (time_cols (pd.DataFrame_of L data))).
      { apply filter_In. split; [assumption | reflexivity]. }
      rewrite Htc in Hin'. destruct Hin'.
  - assert (Hpin : In p (pd.positions c (columns (pd.DataFrame_of L data))))
      by (rewrite Hp; now left).
    pose proof (positions_bound _ _ _ Hpin) as Hpb.
    pose proof (rename_positions c "request_time" _ _ Hpin) as Hren.
    rewrite (setitem_rows _ _ _ _ Hp) in *. unfold pd.rename in *.
    cbn [columns rows] in *.
    constructor; cbn [columns rows].
    + assumption.
    + rewrite set_column_fst, set_column_length. apply DataFrame_of_index.
    + unfold rectangular. cbn [columns rows]. rewrite length_map.
      apply set_column_widths. apply DataFrame_of_rectangular.
    + intros q Hq. rewrite Hq in Hren. destruct Hren as [->|[]].
      rewrite (set_column_same p (List.length (columns (pd.DataFrame_of L data))));
        [|assumption | apply DataFrame_of_rectangular].
      rewrite <- (map_map (fun r => nth (fst r) parsed None) pd.of_timestamp).
      eexists. apply datetimes_of_timestamps.
Qed.

End Loader.

(** ** Sorting by [request_time], latest first *)

Section Sorting.

Import pdx.

Section Keyed.

Variable A : Type.

Lemma before_total (a b : keyed A) : before a b = true \/ before b a = true.
Proof.
  unfold before. destruct (fst (fst a)) as [x|], (fst (fst b)) as [y|]; auto.
  destruct (Z.ltb_spec y x); [now left|].
  destruct (Z.ltb_spec x y); [now right|].
  assert (x = y) by lia. subst. rewrite Z.eqb_refl. cbn [orb andb].
  destruct (Nat.leb_spec (snd (fst a)) (snd (fst b))); [now left | right].
  apply Nat.leb_le. lia.
Qed.

Lemma before_trans (a b c : keyed A) :
  before a b = true -> before b c = true -> before a c = true.
Proof.
  unfold before.
  destruct (fst (fst a)) as [x|], (fst (fst b)) as [y|], (fst (fst c)) as [z|];
    try congruence.
  rewrite !orb_true_iff, !andb_true_iff, !Z.ltb_lt, !Z.eqb_eq, !Nat.leb_le. lia.
Qed.

(** What the order of the sort says of the instants *)
Lemma before_keys (a b : keyed A) :
  before a b = true ->
  match fst (fst a), fst (fst b) with
  | Some x, Some y => y <= x
  | Some _, None => True
  | None, Some _ => False
  | None, None => True
  end.
Proof.
  unfold before. destruct (fst (fst a)) as [x|], (fst (fst b)) as [y|];
    try easy.
  rewrite orb_true_iff, andb_true_iff, Z.ltb_lt, Z.eqb_eq. lia.
Qed.

Lemma insert_keyed_perm (x : keyed A) (l : list (keyed A)) :
  Permutation (insert_keyed x l) (x :: l).
Proof.
  induction l as [|y l IH]; simpl; [reflexivity|].
  destruct (before x y); [reflexivity|].
  rewrite IH. apply perm_swap.
Qed.

Lemma sort_keyed_perm (l : list (keyed A)) : Permutation (sort_keyed l) l.
Proof.
  induction l as [|x l IH]; simpl; [reflexivity|].
  rewrite insert_keyed_perm. now constructor.
Qed.

Lemma insert_keyed_sorted (x : keyed A) (l : list (keyed A)) :
  StronglySorted keyed_before l -> StronglySorted keyed_before (insert_keyed x l).
Proof.
  induction 1 as [|y l Hs IH Hall]; simpl.
  - repeat constructor.
  - destruct (before x y) eqn:E.
    + constructor; [now constructor|]. constructor; [exact E|].
      eapply Forall_impl; [|exact Hall].
      intros z Hz. unfold keyed_before in *. eapply before_trans; eassumption.
    + constructor; [assumption|].
      apply (Permutation_Forall (Permutation_sym (insert_keyed_perm x l))).
      constructor; [|assumption].
      unfold keyed_before. destruct (before_total x y); congruence.
Qed.

Lemma sort_keyed_sorted (l : list (keyed A)) :
  StronglySorted keyed_before (sort_keyed l).
Proof.
  induction l as [|x l IH]; simpl; [constructor | now apply insert_keyed_sorted].
Qed.

Lemma keyed_rows (key : A -> option Z) (rank : nat -> nat)
      (idx : list nat) (rs : list A) :
  List.length idx = List.length rs ->
  let m := map (fun itr : nat * (option Z * A) =>
                  ((fst (snd itr), rank (fst itr)), snd (snd itr)))
               (combine idx (combine (map key rs) rs)) in
  map snd m = rs /\ Forall (fun kr => fst (fst kr) = key (snd kr)) m.
Proof.
  revert idx. induction rs as [|r rs IH]; intros [|i idx] Hlen;
    try discriminate; cbn [map combine]; [split; [reflexivity | constructor]|].
  destruct (IH idx) as [Hs Hk]; [now injection Hlen|].
  cbn [snd fst]. split; [now rewrite Hs | now constructor].
Qed.

Lemma sorted_unkeyed (key : A -> option Z) (R : A -> A -> Prop)
      (m : list (keyed A)) :
  (forall a b : keyed A,
      before a b = true ->
      fst (fst a) = key (snd a) -> fst (fst b) = key (snd b) ->
      R (snd a) (snd b)) ->
  StronglySorted keyed_before m ->
  Forall (fun kr => fst (fst kr) = key (snd kr)) m ->
  StronglySorted R (map snd m).
Proof.
  intros HR. induction 1 as [|x m Hs IH Hall]; intros Hdec; simpl; constructor.
  - apply IH. now inversion Hdec.
  - inversion Hdec as [|? ? Hx Hm]; subst.
    apply Forall_map. rewrite Forall_forall in *.
    intros y Hy. apply HR; [now apply Hall | assumption | now apply Hm].
Qed.

End Keyed.

(** The instants of the [request_time] column, row by row *)
Lemma datetimes_request_time (df : DataFrame) (p : nat)
      (rs : list (nat * list value)) (ts : list (option Z)) :
  pd.positions "request_time" (columns df) = [p] ->
  pd.datetimes (map (pd.cell p) rs) = Some ts ->
  ts = map (request_time df) rs.
Proof.
  intros Hp. revert ts. induction rs as [|r rs IH]; intros ts H; simpl in H.
  - now injection H as <-.
  - destruct (pd.timestamp_of (pd.cell p r)) as [t|] eqn:Et; [|discriminate].
    destruct (pd.datetimes (map (pd.cell p) rs)) as [ts'|]; [|discriminate].
    injection H as <-. rewrite (IH ts' eq_refl). simpl. f_equal.
    unfold request_time. rewrite Hp.
    destruct (pd.cell p r); simpl in Et; congruence.
Qed.

(** [sort_values] of a canonical table: the same rows, latest first, rows
    without an instant last. *)
Lemma sort_values_desc_sorted (L : library) (df : DataFrame) :
  canonical df -> In "request_time" (columns df) ->
  exists sorted,
    sort_values_desc L df "request_time" = Ok (mkDataFrame (columns df) sorted)
    /\ Permutation sorted (rows df)
    /\ StronglySorted (not_earlier df) sorted.
Proof.
  intros Hcan Hin.
  destruct (positions_unique _ _ (labels_distinct _ Hcan) Hin) as [p Hp].
  destruct (request_time_datetime _ Hcan _ Hp) as [ts Hts].
  unfold sort_values_desc. rewrite Hp, Hts.
  eexists. split; [reflexivity|].
  rewrite (datetimes_request_time df p _ _ Hp Hts). unfold with_keys.
  set (rank := tie_rank L (map (request_time df) (rows df))).
  destruct (keyed_rows _ (request_time df) rank
              (seq 0 (List.length (map (request_time df) (rows df)))) (rows df))
    as [Hs Hk]; [now rewrite length_seq, length_map|].
  match type of Hs with map snd ?m = _ => set (dl := m) in * end.
  assert (Hperm : Permutation (sort_keyed dl) dl) by apply sort_keyed_perm.
  split.
  - rewrite Hperm. now rewrite Hs.
  - apply (sorted_unkeyed _ (request_time df)).
    + intros a b Hab Ha Hb. apply before_keys in Hab.
      unfold not_earlier. now rewrite <- Ha, <- Hb.
    + apply sort_keyed_sorted.
    + apply (Permutation_Forall (Permutation_sym Hperm)). exact Hk.
Qed.

End Sorting.

(** ** Daily counts *)

Section Daily.

Import pdx.

Lemma count_key_total (k : Z) (g : list (Z * nat)) :
  total_count (count_key k g) = S (total_count g).
Proof.
  induction g as [|[k' n] g IH]; simpl; [reflexivity|].
  destruct (k <? k'); [reflexivity|].
  destruct (k =? k'); simpl; [reflexivity | rewrite IH; lia].
Qed.

Lemma groupby_size_from (keys : list (option Z)) (g : list (Z * nat)) :
  total_count
    (fold_left (fun g k => match k with
                           | Some k => count_key k g
                           | None => g
                           end) keys g)
  = (total_count g + present keys)%nat.
Proof.
  revert g. induction keys as [|[k|] keys IH]; intros g; unfold present in *; simpl.
  - lia.
  - rewrite IH, count_key_total. lia.
  - apply IH.
Qed.

(** The counts of the groups add up to the number of keys present. *)
Lemma groupby_size_total (keys : list (option Z)) :
  total_count (groupby_size keys) = present keys.
Proof. unfold groupby_size. now rewrite groupby_size_from. Qed.

Lemma count_key_ascending (k : Z) (g : list (Z * nat)) :
  StronglySorted Z.lt (map fst g) ->
  StronglySorted Z.lt (map fst (count_key k g)) /\
  (forall lo, Forall (Z.lt lo) (map fst g) -> lo < k ->
              Forall (Z.lt lo) (map fst (count_key k g))).
Proof.
  induction g as [|[k' n] g IH]; simpl; intros Hs.
  - split; [repeat constructor|]. intros lo _ H. now repeat constructor.
  - inversion Hs as [|? ? Hs' Hall]; subst.
    destruct (IH Hs') as [IH1 IH2].
    destruct (Z.ltb_spec k k') as [Hlt|Hge]; simpl.
    + split.
      * constructor; [assumption|]. constructor; [assumption|].
        eapply Forall_impl; [|exact Hall]. simpl. intros; lia.
      * intros lo Hlo Hk. now constructor.
    + destruct (Z.eqb_spec k k') as [->|Hne]; simpl.
      * split; [assumption | intros lo Hlo _; assumption].
      * split.
        -- constructor; [assumption|]. apply IH2; [assumption | lia].
        -- intros lo Hlo Hk. inversion Hlo; subst.
           constructor; [assumption|]. apply IH2; assumption.
Qed.

(** The groups come by ascending date, one per date. *)
Lemma groupby_size_ascending (keys : list (option Z)) :
  StronglySorted Z.lt (map fst (groupby_size keys)).
Proof.
  unfold groupby_size.
  assert (H : StronglySorted Z.lt (map fst (@nil (Z * nat)))) by constructor.
  revert H. generalize (@nil (Z * nat)).
  induction keys as [|[k|] keys IH]; intros g Hg; simpl; auto.
  apply IH. now apply count_key_ascending.
Qed.

Lemma present_timed_rows (df : DataFrame) :
  present (pd.dt_date (map (request_time df) (rows df)))
  = List.length (timed_rows df).
Proof.
  unfold present, timed_rows, rows_where, pd.dt_date.
  induction (rows df) as [|r rs IH]; simpl; [reflexivity|].
  destruct (request_time df r); simpl; now rewrite IH.
Qed.

Lemma chart_points_of_frame (g : list (Z * nat)) (i : nat) :
  let rs := pd.enumerate_from i
              (map (fun kn => [VDate (fst kn); VNum (Z.of_nat (snd kn))]) g) in
  combine (map (pd.cell 0) rs) (map (pd.cell 1) rs) = chart_points g.
Proof.
  simpl. revert i. induction g as [|kn g IH]; intros i; simpl; [reflexivity|].
  now rewrite IH.
Qed.

End Daily.

(** ** The chart *)

Lemma writes_emit_bind (e : st.element) (k : M unit) (s : state)
      (elems : list st.element) :
  writes k (mkState (heap s) (page s ++ [e])) elems ->
  writes (emit e ;;; k) s (e :: elems).
Proof.
  intros [fresh H]. exists fresh. unfold bind, emit. rewrite H. simpl.
  now rewrite <- app_assoc.
Qed.

Section Chart.

Variables (L : library) (df : DataFrame) (contact_df : loc) (s : state).
Hypothesis Hc : points_to s contact_df df.

Lemma charts_absent :
  pd.empty df = true \/ pd.in_columns "request_time" df = false ->
  writes (charts L contact_df) s
    [st.subheader "Submission Trends";
     st.markdown "**Contact Messages Over Time**";
     st.info "No contact message data available"].
Proof.
  intros H. unfold charts. do 2 apply writes_emit_bind.
  apply writes_deref with (df := df); [exact Hc|].
  replace (negb (pd.empty df) && pd.in_columns "request_time" df) with false
    by (destruct H as [-> | ->]; [reflexivity | now rewrite andb_false_r]).
  apply writes_emit.
Qed.

Lemma charts_writes :
  canonical df -> In "request_time" (columns df) -> pd.empty df = false ->
  writes (charts L contact_df) s
    [st.subheader "Submission Trends";
     st.markdown "**Contact Messages Over Time**";
     st.plotly_chart (chart_points (daily_counts df))].
Proof.
  intros Hcan Hrt Hem.
  destruct (positions_unique _ _ (labels_distinct _ Hcan) Hrt) as [p Hp].
  destruct (request_time_datetime _ Hcan _ Hp) as [ts Hts].
  unfold charts. do 2 apply writes_emit_bind.
  apply writes_deref with (df := df); [exact Hc|].
  rewrite Hem, (in_columns_positions _ _ _ Hp). simpl.
  unfold writes, bind, lift, pd.getitem, pd.dt. rewrite Hp, Hts.
  unfold alloc. rewrite (deref_points_to _ _ _ (points_to_new _ _ _)).
  cbn [pdx.set_columns pdx.reset_index columns List.length Nat.eqb].
  unfold store. cbn [heap page]. rewrite set_at_last.
  rewrite (deref_points_to _ _ _ (points_to_new _ _ _)).
  unfold pdx.px_line.
  cbn [pd.positions pd.positions_from columns rows String.eqb Ascii.eqb
       Bool.eqb app].
  change ([0%nat] ++ [] ++ []) with [0%nat].
  change ([] ++ [1%nat] ++ []) with [1%nat].
  unfold emit, pdx.reset_index. cbn [heap page rows]. cbv beta iota.
  rewrite chart_points_of_frame.
  rewrite (datetimes_request_time df p _ _ Hp Hts).
  eexists [_]. reflexivity.
Qed.

End Chart.

(** ** The full table and its CSV export *)

Section FullTable.

Variables (L : library) (df : DataFrame) (contact_df : loc) (s : state).
Hypothesis Hc : points_to s contact_df df.

Lemma all_contact_messages_empty :
  pd.empty df = true ->
  writes (all_contact_messages L contact_df) s
    [st.subheader "All Contact Messages"; st.info "No contact messages yet"].
Proof.
  intros Hem. unfold all_contact_messages. apply writes_emit_bind.
  apply writes_deref with (df := df); [exact Hc|].
  rewrite Hem. apply writes_emit.
Qed.

Lemma all_contact_messages_unsorted :
  pd.empty df = false -> pd.in_columns "request_time" df = false ->
  writes (all_contact_messages L contact_df) s
    [st.subheader "All Contact Messages";
     st.dataframe df false;
     st.download_button "Download as CSV"
       (pdx.mkCsv (columns df) (map snd (rows df)))
       "contact_messages.csv" "text/csv"].
Proof.
  intros Hem Hrt. unfold all_contact_messages. apply writes_emit_bind.
  apply writes_deref with (df := df); [exact Hc|].
  rewrite Hem, Hrt. cbn [negb].
  unfold writes, bind, ret, deref. cbn [heap page].
  rewrite (Hc : nth_error (heap s) contact_df = Some df).
  unfold emit. cbn [heap page].
  exists []. rewrite app_nil_r, <- !app_assoc. reflexivity.
Qed.

Lemma all_contact_messages_sorted :
  canonical df -> In "request_time" (columns df) -> pd.empty df = false ->
  exists sorted,
    Permutation sorted (rows df) /\
    StronglySorted (not_earlier df) sorted /\
    writes (all_contact_messages L contact_df) s
      [st.subheader "All Contact Messages";
       st.dataframe (mkDataFrame (columns df) sorted) false;
       st.download_button "Download as CSV"
         (pdx.mkCsv (columns df) (map snd sorted))
         "contact_messages.csv" "text/csv"].
Proof.
  intros Hcan Hrt Hem.
  destruct (sort_values_desc_sorted L df Hcan Hrt) as (sorted & Hsort & Hperm & Hs).
  exists sorted. split; [assumption|]. split; [assumption|].
  unfold all_contact_messages. apply writes_emit_bind.
  apply writes_deref with (df := df); [exact Hc|].
  rewrite Hem. cbn [negb].
  rewrite (proj2 (has_label_In _ _) Hrt : pd.in_columns "request_time" df = true).
  unfold writes, bind, lift. rewrite Hsort. unfold alloc. cbn [heap page].
  rewrite (deref_points_to _ _ _ (points_to_new _ _ _)).
  unfold emit. cbn [heap page].
  eexists [_]. rewrite <- !app_assoc. reflexivity.
Qed.

End FullTable.

(** ** The preview of recent activity *)

Section Preview.

Import pd.

Variable L : library.

Lemma nth_positions (label : string) (cols : list string) (p : nat) :
  positions label cols = [p] -> nth p cols "" = label.
Proof.
  intros H. apply nth_error_nth.
  apply positions_spec. rewrite H. now left.
Qed.

(** Selecting labels that each name one column gives columns with these
    labels. *)
Lemma getitem_list_columns (df : DataFrame) (labels : list string) :
  Forall (fun l => exists p, positions l (columns df) = [p]) labels ->
  columns (getitem_list df labels) = labels.
Proof.
  unfold getitem_list. simpl.
  induction 1 as [|l labels [p Hp] _ IH]; simpl; [reflexivity|].
  rewrite Hp. simpl. now rewrite IH, (nth_positions _ _ _ Hp).
Qed.

(** [row.get] on a row of the selection reads the cell of the full row. *)
Lemma row_get_selected (df : DataFrame) (r : nat * list value)
      (labels : list string) (label : string) (default : value) :
  Forall (fun l => exists p, positions l (columns df) = [p]) labels ->
  pdx.row_get labels
    (map (fun p => cell p r) (flat_map (fun l => positions l (columns df)) labels))
    label default
  = if has_label label labels then field_or df r label default else default.
Proof.
  unfold pdx.row_get, positions.
  induction 1 as [|l labels [p Hp] _ IH]; simpl; [reflexivity|].
  unfold positions in Hp. rewrite Hp. simpl.
  destruct (String.eqb_spec l label) as [->|Hne].
  - rewrite String.eqb_refl. simpl. unfold field_or, positions. now rewrite Hp.
  - rewrite (proj2 (String.eqb_neq label l)) by congruence. simpl.
    rewrite positions_from_shift.
    destruct (positions_from 0 label labels) as [|q qs] eqn:E; simpl in *;
      exact IH.
Qed.

Lemma field_or_absent (df : DataFrame) (r : nat * list value) (label : string)
      (default : value) :
  in_columns label df = false -> field_or df r label default = default.
Proof.
  intros H. unfold field_or. now rewrite (in_columns_false _ _ H).
Qed.

Lemma preview_labels_unique (df : DataFrame) :
  NoDup (columns df) ->
  Forall (fun l => exists p, positions l (columns df) = [p]) (preview_labels df).
Proof.
  intros Hnd. apply Forall_forall. intros l Hl.
  apply filter_In in Hl as [_ Hl].
  apply positions_unique; [assumption | now apply has_label_In].
Qed.

Lemma has_preview_label (df : DataFrame) (label : string) :
  In label ["name"; "email"] ->
  has_label label (preview_labels df) = in_columns label df.
Proof.
  unfold preview_labels.
  intros [<-|[<-|[]]]; simpl;
    destruct (in_columns "name" df) eqn:E1, (in_columns "email" df) eqn:E2,
             (in_columns "request_time" df) eqn:E3; reflexivity.
Qed.

(** The label of the expander of a row of the preview *)
Lemma preview_label (df : DataFrame) (r : nat * list value)
      (label : string) (default : value) :
  NoDup (columns df) -> In label ["name"; "email"] ->
  pdx.row_get (columns (getitem_list df (preview_labels df)))
    (map (fun p => cell p r)
         (flat_map (fun l => positions l (columns df)) (preview_labels df)))
    label default
  = field_or df r label default.
Proof.
  intros Hnd Hl.
  rewrite (getitem_list_columns _ _ (preview_labels_unique df Hnd)).
  rewrite (row_get_selected df r _ label default (preview_labels_unique df Hnd)).
  rewrite (has_preview_label df label Hl).
  destruct (in_columns label df) eqn:E; [reflexivity|].
  now rewrite field_or_absent.
Qed.

(** An index label that occurs once selects its row. *)
Lemma select_index (rs : list (nat * list value)) (r : nat * list value) :
  NoDup (map fst rs) -> In r rs ->
  select_by_mask rs (map (fun x => Nat.eqb (fst x) (fst r)) rs) = [r].
Proof.
  induction rs as [|x rs IH]; intros Hnd Hin; [destruct Hin|].
  simpl in *. inversion Hnd as [|? ? Hx Hnd']; subst.
  assert (Hout : forall y, In y rs -> fst y <> fst x).
  { intros y Hy E. apply Hx. rewrite <- E. now apply in_map. }
  destruct Hin as [->|Hin].
  - rewrite Nat.eqb_refl. f_equal.
    clear IH Hnd Hnd' Hx. induction rs as [|y rs IH]; simpl; [reflexivity|].
    destruct (Nat.eqb_spec (fst y) (fst r)) as [E|_].
    + exfalso. apply (Hout y); [now left | assumption].
    + apply IH. intros z Hz. apply Hout. now right.
  - destruct (Nat.eqb_spec (fst x) (fst r)) as [E|_].
    + exfalso. apply (Hout r Hin). now symmetry.
    + now apply IH.
Qed.

Lemma canonical_index_NoDup (df : DataFrame) :
  canonical df -> NoDup (map fst (rows df)).
Proof. intros H. rewrite (index_range _ H). apply seq_NoDup. Qed.

Lemma for_each_write (l : list (string * value)) (s : state) :
  for_each l
    (fun cv => if negb (String.eqb (fst cv) "id")
               then emit (st.write (humanize L (fst cv)) (snd cv))
               else ret tt) s
  = (Ok tt,
     mkState (heap s)
       (page s ++ map (fun cv => st.write (humanize L (fst cv)) (snd cv))
                      (filter (fun cv => negb (String.eqb (fst cv) "id")) l))).
Proof.
  revert s. induction l as [|cv l IH]; intros s; simpl.
  - unfold ret. rewrite app_nil_r. now destruct s.
  - unfold bind. destruct (negb (String.eqb (fst cv) "id")); simpl.
    + unfold emit. rewrite IH. simpl. now rewrite <- app_assoc.
    + unfold ret. apply IH.
Qed.

Variables (df : DataFrame) (contact_df : loc).
Hypothesis Hcan : canonical df.

(** Opening the expander of a row writes its fields. *)
Lemma expander_body_run (r : nat * list value) (s : state) :
  points_to s contact_df df -> In r (rows df) ->
  expander_body L contact_df (fst r) s
  = (Ok tt,
     mkState (heap s ++ [mkDataFrame (columns df) [r]])
             (page s ++ field_lines L df r)).
Proof.
  intros Hc Hin. unfold expander_body, bind.
  rewrite (deref_points_to _ _ _ Hc). unfold alloc.
  rewrite (deref_points_to _ _ _ (points_to_new _ _ _)).
  unfold getitem_mask, index_eq.
  rewrite (select_index _ _ (canonical_index_NoDup _ Hcan) Hin).
  unfold lift, iloc0. cbn [rows columns].
  rewrite for_each_write. reflexivity.
Qed.

(** The loop over the rows of the preview *)
Lemma preview_loop (project : nat * list value -> list value)
      (name email : list value -> value)
      (shown : list (nat * list value)) (s : state) :
  points_to s contact_df df ->
  Forall (fun r => In r (rows df)) shown ->
  (forall r, name (project r) = field_or df r "name" (VStr "Unknown")) ->
  (forall r, email (project r) = field_or df r "email" (VStr "")) ->
  writes
    (for_each (map (fun r => (fst r, project r)) shown)
       (fun r => with_expander (name (snd r)) (email (snd r))
                   (expander_body L contact_df (fst r))))
    s (map (summary L df) shown).
Proof.
  intros Hc Hall Hname Hemail. revert s Hc.
  induction Hall as [|r shown Hr _ IH]; intros s Hc; simpl.
  - apply writes_ret.
  - change (summary L df r :: map (summary L df) shown)
      with ([summary L df r] ++ map (summary L df) shown).
    apply writes_bind.
    + exists [mkDataFrame (columns df) [r]].
      unfold with_expander. cbn [fst snd].
      rewrite (expander_body_run r (mkState (heap s) [])) by assumption.
      cbn [heap page app]. now rewrite Hname, Hemail.
    + intros fresh. apply IH. now apply points_to_fresh.
Qed.

End Preview.

Lemma writes_alloc (x : DataFrame) (k : loc -> M unit) (s : state)
      (elems : list st.element) :
  writes (k (List.length (heap s))) (mkState (heap s ++ [x]) (page s)) elems ->
  writes (l <- alloc x ;; k l) s elems.
Proof.
  intros [fresh H]. exists ([x] ++ fresh). unfold bind, alloc. rewrite H.
  cbn [heap page]. now rewrite <- app_assoc.
Qed.

Lemma copy_same (df : DataFrame) : pd.copy df = df.
Proof. now destruct df. Qed.

Section Recent.

Variables (L : library) (df : DataFrame) (contact_df : loc).
Hypothesis Hcan : canonical df.

Lemma show_preview_writes (recent_contacts : loc)
      (view : list (nat * list value)) (s : state) :
  points_to s contact_df df ->
  points_to s recent_contacts (mkDataFrame (columns df) view) ->
  Forall (fun r => In r (rows df)) view ->
  writes (show_preview L contact_df recent_contacts) s (preview_of L df view).
Proof.
  intros Hc Hrc Hview. unfold show_preview.
  apply writes_deref with (df := mkDataFrame (columns df) view); [exact Hrc|].
  change (filter (fun col => pd.in_columns col (mkDataFrame (columns df) view))
                 ["name"; "email"; "request_time"])
    with (preview_labels df).
  unfold preview_of.
  destruct (preview_labels df) as [|l ls] eqn:Hlabels.
  - apply writes_alloc.
    apply writes_deref with (df := pd.head 10 (mkDataFrame (columns df) view));
      [apply points_to_new|].
    apply writes_emit.
  - rewrite <- Hlabels.
    set (rc := mkDataFrame (columns df) view).
    apply writes_alloc.
    apply writes_deref with (df := pd.getitem_list rc (preview_labels df));
      [apply points_to_new|].
    apply writes_alloc.
    apply writes_deref
      with (df := pd.head 10 (pd.getitem_list rc (preview_labels df)));
      [apply points_to_new|].
    unfold pd.head at 1. cbn [rows]. unfold pd.getitem_list at 1. cbn [rows].
    rewrite firstn_map.
    apply (preview_loop L df contact_df Hcan
             (fun r => map (fun p => pd.cell p r)
                           (flat_map (fun l => pd.positions l (columns df))
                                     (preview_labels df)))
             (fun cells => pdx.row_get
                             (columns (pd.getitem_list df (preview_labels df)))
                             cells "name" (VStr "Unknown"))
             (fun cells => pdx.row_get
                             (columns (pd.getitem_list df (preview_labels df)))
                             cells "email" (VStr ""))).
    + now do 2 apply points_to_fresh.
    + apply Forall_forall. intros r Hr.
      rewrite Forall_forall in Hview. apply Hview.
      rewrite <- (firstn_skipn 10 view). apply in_or_app. now left.
    + intros r. apply preview_label; [apply (labels_distinct _ Hcan) | now left].
    + intros r. apply preview_label;
        [apply (labels_distinct _ Hcan) | right; now left].
Qed.

Variable s : state.
Hypothesis Hc : points_to s contact_df df.

Lemma recent_activity_empty :
  pd.empty df = true ->
  writes (recent_activity L contact_df) s
    [st.subheader "Recent Activity";
     st.markdown "**Latest Contact Messages**";
     st.info "No messages yet"].
Proof.
  intros Hem. unfold recent_activity. do 2 apply writes_emit_bind.
  apply writes_deref with (df := df); [exact Hc|].
  rewrite Hem. apply writes_emit.
Qed.

(** Without a [request_time] column the preview keeps the order of the
    table. *)
Lemma recent_activity_unsorted :
  pd.empty df = false -> pd.in_columns "request_time" df = false ->
  writes (recent_activity L contact_df) s
    (st.subheader "Recent Activity"
     :: st.markdown "**Latest Contact Messages**"
     :: preview_of L df (rows df)).
Proof.
  intros Hem Hrt. unfold recent_activity. do 2 apply writes_emit_bind.
  apply writes_deref with (df := df); [exact Hc|].
  rewrite Hem. cbn [negb].
  apply writes_alloc.
  apply writes_deref with (df := pd.copy df); [apply points_to_new|].
  change (pd.in_columns "request_time" (pd.copy df))
    with (pd.in_columns "request_time" df).
  rewrite Hrt. unfold bind at 1, ret at 1.
  apply show_preview_writes.
  - now apply points_to_fresh.
  - apply points_to_new.
  - apply Forall_forall. auto.
Qed.

(** With a [request_time] column the preview shows the latest rows
    first. *)
Lemma recent_activity_sorted :
  In "request_time" (columns df) -> pd.empty df = false ->
  exists sorted,
    Permutation sorted (rows df) /\
    StronglySorted (not_earlier df) sorted /\
    writes (recent_activity L contact_df) s
      (st.subheader "Recent Activity"
       :: st.markdown "**Latest Contact Messages**"
       :: preview_of L df sorted).
Proof.
  intros Hrt Hem.
  destruct (sort_values_desc_sorted L df Hcan Hrt) as (sorted & Hsort & Hperm & Hs).
  exists sorted. split; [assumption|]. split; [assumption|].
  unfold recent_activity. do 2 apply writes_emit_bind.
  apply writes_deref with (df := df); [exact Hc|].
  rewrite Hem. cbn [negb].
  apply writes_alloc.
  apply writes_deref with (df := pd.copy df); [apply points_to_new|].
  change (pd.in_columns "request_time" (pd.copy df))
    with (pd.in_columns "request_time" df).
  rewrite (proj2 (has_label_In _ _) Hrt : pd.in_columns "request_time" df = true).
  rewrite (copy_same df), Hsort. unfold bind at 2, lift at 1.
  apply writes_alloc.
  apply show_preview_writes.
  - now do 2 apply points_to_fresh.
  - apply points_to_new.
  - apply Forall_forall. intros r Hr.
    eapply Permutation_in; eassumption.
Qed.

End Recent.

(** ** Objects the script leaves alone *)

Lemma firstn_set_at {A : Type} (n l : nat) (x : A) (h : list A) :
  (n <= l)%nat -> firstn n (pd.set_at l x h) = firstn n h.
Proof.
  revert l h. induction n as [|m IH]; intros l h Hl; [reflexivity|].
  destruct l as [|l]; [lia|].
  destruct h as [|y h]; [reflexivity|].
  simpl. f_equal. apply IH. lia.
Qed.

Section Frame.

Variable n : nat.

Lemma keeps_ret {A : Type} (a : A) : keeps n (ret a).
Proof.
  intros s Hn. simpl. repeat split; auto. exists []. now rewrite app_nil_r.
Qed.

Lemma keeps_lift {A : Type} (r : result A) : keeps n (lift r).
Proof.
  intros s Hn. simpl. repeat split; auto. exists []. now rewrite app_nil_r.
Qed.

Lemma keeps_deref (l : loc) : keeps n (deref l).
Proof.
  intros s Hn. unfold deref. destruct (nth_error (heap s) l); simpl;
    repeat split; auto; exists []; now rewrite app_nil_r.
Qed.

Lemma keeps_emit (e : st.element) : keeps n (emit e).
Proof. intros s Hn. simpl. repeat split; auto. now exists [e]. Qed.

Lemma keeps_alloc (x : DataFrame) : keeps n (alloc x).
Proof.
  intros s Hn. simpl. rewrite length_app. simpl. split; [lia|]. split.
  - rewrite firstn_app. replace (n - List.length (heap s))%nat with 0%nat by lia.
    simpl. now rewrite app_nil_r.
  - exists []. now rewrite app_nil_r.
Qed.

(** An update of an object beyond the first [n] *)
Lemma keeps_store (l : loc) (x : DataFrame) : (n <= l)%nat -> keeps n (store l x).
Proof.
  intros Hl s Hn. simpl. rewrite set_at_length. split; [assumption|]. split.
  - now apply firstn_set_at.
  - exists []. now rewrite app_nil_r.
Qed.

Lemma keeps_bind {A B : Type} (m : M A) (f : A -> M B) :
  keeps n m -> (forall a, keeps n (f a)) -> keeps n (bind m f).
Proof.
  intros Hm Hf s Hn. unfold bind.
  destruct (Hm s Hn) as (H1 & H2 & more & H3).
  destruct (m s) as [[a|e] s1]; simpl in *.
  - destruct (Hf a s1 H1) as (H4 & H5 & more' & H6).
    split; [assumption|]. split; [congruence|].
    exists (more ++ more'). rewrite H6, H3. now rewrite app_assoc.
  - repeat split; auto. now exists more.
Qed.

(** A new object lies beyond the first [n]. *)
Lemma keeps_alloc_bind {B : Type} (x : DataFrame) (f : loc -> M B) :
  (forall l, (n <= l)%nat -> keeps n (f l)) -> keeps n (bind (alloc x) f).
Proof.
  intros Hf s Hn. unfold bind, alloc.
  assert (Hn' : (n <= List.length (heap (mkState (heap s ++ [x]) (page s))))%nat)
    by (simpl; rewrite length_app; lia).
  destruct (Hf (List.length (heap s)) Hn _ Hn') as (H1 & H2 & more & H3).
  split; [assumption|]. split; [|now exists more].
  rewrite H2. simpl. rewrite firstn_app.
  replace (n - List.length (heap s))%nat with 0%nat by lia.
  simpl. now rewrite app_nil_r.
Qed.

Lemma keeps_try_except {A : Type} (body : M A) (handler : exn -> M A) :
  keeps n body -> (forall e, keeps n (handler e)) -> keeps n (try_except body handler).
Proof.
  intros Hm Hf s Hn. unfold try_except.
  destruct (Hm s Hn) as (H1 & H2 & more & H3).
  destruct (body s) as [[a|e] s1]; simpl in *.
  - repeat split; auto. now exists more.
  - destruct (Hf e s1 H1) as (H4 & H5 & more' & H6).
    split; [assumption|]. split; [congruence|].
    exists (more ++ more'). rewrite H6, H3. now rewrite app_assoc.
Qed.

Lemma keeps_for_each {A : Type} (l : list A) (body : A -> M unit) :
  (forall x, keeps n (body x)) -> keeps n (for_each l body).
Proof.
  intros Hb. induction l as [|x l IH]; simpl.
  - apply keeps_ret.
  - apply keeps_bind; auto.
Qed.

Lemma keeps_with_expander (name email : value) (body : M unit) :
  keeps n body -> keeps n (with_expander name email body).
Proof.
  intros Hb s Hn. unfold with_expander.
  destruct (Hb (mkState (heap s) []) Hn) as (H1 & H2 & _).
  destruct (body (mkState (heap s) [])) as [r s1]. simpl in *.
  repeat split; auto. eexists. reflexivity.
Qed.

End Frame.

Ltac frame_step :=
  first
    [ apply keeps_alloc_bind; intros ? ?
    | apply keeps_bind; [|intros ?]
    | apply keeps_ret
    | apply keeps_lift
    | apply keeps_deref
    | apply keeps_emit
    | apply keeps_alloc
    | apply keeps_store; assumption
    | apply keeps_for_each; intros ?
    | apply keeps_with_expander
    | match goal with
      | |- keeps _ (if ?b then _ else _) => destruct b
      | |- keeps _ (match ?x with _ => _ end) => destruct x
      end ].

Ltac frame := repeat frame_step.

Section FrameScript.

Variables (L : library) (n : nat) (contact_df : loc).

Lemma keeps_kpi_total : keeps n (kpi_total contact_df).
Proof. unfold kpi_total. frame. Qed.

Lemma keeps_kpi_today (now : Z) : keeps n (kpi_today contact_df now).
Proof. unfold kpi_today. frame. Qed.

Lemma keeps_kpi_last_7_days (now : Z) : keeps n (kpi_last_7_days L contact_df now).
Proof. unfold kpi_last_7_days. frame. Qed.

Lemma keeps_charts : keeps n (charts L contact_df).
Proof. unfold charts. frame. Qed.

Lemma keeps_expander_body (idx : nat) : keeps n (expander_body L contact_df idx).
Proof. unfold expander_body. frame. Qed.

Lemma keeps_show_preview (recent_contacts : loc) :
  keeps n (show_preview L contact_df recent_contacts).
Proof. unfold show_preview. frame; apply keeps_expander_body. Qed.

Lemma keeps_recent_activity : keeps n (recent_activity L contact_df).
Proof. unfold recent_activity. frame; apply keeps_show_preview. Qed.

Lemma keeps_all_contact_messages : keeps n (all_contact_messages L contact_df).
Proof. unfold all_contact_messages. frame. Qed.

Lemma keeps_render (now_today now_week : Z) :
  keeps n (render L contact_df now_today now_week).
Proof.
  unfold render.
  repeat first
    [ apply keeps_kpi_total | apply keeps_kpi_today | apply keeps_kpi_last_7_days
    | apply keeps_charts | apply keeps_recent_activity
    | apply keeps_all_contact_messages | apply keeps_emit
    | apply keeps_bind; [|intros ?] ].
Qed.

End FrameScript.

Lemma keeps_all {A : Type} (m : M A) :
  (forall n, keeps n m) -> leaves_objects_alone m.
Proof.
  intros H s. destruct (H (List.length (heap s)) s (le_n _)) as (H1 & H2 & _).
  rewrite firstn_all in H2.
  exists (skipn (List.length (heap s)) (heap (snd (m s)))).
  rewrite <- H2 at 1. symmetry. apply firstn_skipn.
Qed.

(** ** Loaded tables with one [request_time] column, or none *)

Section LoadedTables.

Variable L : library.

Lemma has_column_In (label : string) (df : DataFrame) :
  has_column label df -> In label (columns df).
Proof.
  intros [p Hp]. apply has_label_In. exact (in_columns_positions _ _ _ Hp).
Qed.

Lemma shape_NoDup (df : DataFrame) :
  shape L df ->
  has_column "request_time" df \/ ~ In "request_time" (columns df) ->
  NoDup (columns df).
Proof.
  intros [|data Hplain|data c rest p parsed Hem Htc Hp He] Hrt.
  - constructor.
  - apply DataFrame_of_NoDup.
  - assert (Hpin : In p (pd.positions c (columns (pd.DataFrame_of L data))))
      by (rewrite Hp; now left).
    pose proof (rename_positions c "request_time" _ _ Hpin) as Hren.
    pose proof (proj1 (positions_spec _ _ _) Hpin) as Hnth.
    unfold has_column, pd.setitem, pd.rename in *. rewrite Hp in *.
    cbn [columns] in *.
    destruct Hrt as [[q Hq]|Hno].
    + apply NoDup_map_NoDup_ForallPairs; [|apply DataFrame_of_NoDup].
      rewrite Hq in Hren. destruct Hren as [->|[]].
      assert (Hunique : forall y j,
                 nth_error (columns (pd.DataFrame_of L data)) j = Some y ->
                 y <> c -> y = "request_time" -> False).
      { intros y j Hj Hyc ->.
        assert (Hjq : In j [p]).
        { rewrite <- Hq. apply positions_spec.
          rewrite nth_error_map, Hj. cbn [option_map].
          now rewrite (proj2 (String.eqb_neq _ _) Hyc). }
        destruct Hjq as [<-|[]].
        congruence. }
      intros x y Hx Hy.
      destruct (String.eqb_spec x c) as [->|Hxc],
               (String.eqb_spec y c) as [->|Hyc]; auto.
      * intros E. exfalso. apply In_nth_error in Hy as [j Hj].
        now apply (Hunique y j).
      * intros E. exfalso. apply In_nth_error in Hx as [j Hj].
        now apply (Hunique x j).
    + exfalso. apply Hno. apply positions_spec in Hren.
      eapply nth_error_In; eassumption.
Qed.

(** A loaded table with one [request_time] column, or none, is
    canonical. *)
Lemma loaded_table_canonical (df : DataFrame) :
  loaded L df ->
  has_column "request_time" df \/ ~ In "request_time" (columns df) ->
  canonical df.
Proof.
  intros Hl Hrt. apply (loaded_canonical L); [assumption|].
  apply shape_NoDup; [now apply loaded_shape | assumption].
Qed.

End LoadedTables.

(** ** Running sections one after the other *)

Lemma nth_error_fresh (h fresh : list DataFrame) (l : loc) (df : DataFrame) :
  nth_error h l = Some df -> nth_error (h ++ fresh) l = Some df.
Proof.
  intros H. rewrite nth_error_app1; [assumption|].
  apply nth_error_Some. congruence.
Qed.

Lemma writes_seq (m k : M unit) (s : state) (e1 e2 e : list st.element) :
  writes m s e1 ->
  (forall fresh, writes k (mkState (heap s ++ fresh) (page s ++ e1)) e2) ->
  e = e1 ++ e2 ->
  writes (m ;;; k) s e.
Proof. intros H1 H2 ->. now apply writes_bind. Qed.

Lemma writes_last (m : M unit) (s : state) (e1 e : list st.element) :
  writes m s e1 -> e = e1 -> writes m s e.
Proof. now intros H ->. Qed.

Ltac keep_pointer H :=
  unfold points_to; cbn [heap]; repeat apply nth_error_fresh; exact H.

(** C8. For every loaded table with N rows, the Total metric shown in the
    first KPI card equals N, whether or not the table has a [request_time]
    column: the card is written with the row count, and it is the first
    card of the page however the rest of the rendering goes. *)
Theorem total_is_row_count (L : library) (df : DataFrame) (contact_df : loc)
        (s : state) (now_today now_week : Z) :
  points_to s contact_df df ->
  writes (kpi_total contact_df) s
    [st.metric_card "TOTAL MESSAGES" (List.length (rows df))]
  /\ exists more,
      page (snd (render L contact_df now_today now_week s))
      = page s
        ++ [st.title "Tymer.me Analytics Dashboard";
            st.markdown "**Real-time insights from your contact forms**";
            st.markdown "---";
            st.metric_card "TOTAL MESSAGES" (List.length (rows df))]
        ++ more.
Proof.
  intros Hc. split; [now apply kpi_total_writes|].
  unfold render, bind at 1 2 3 4, emit at 1 2 3. cbn [heap page].
  destruct (kpi_total_writes df contact_df
              (mkState (heap s)
                 (((page s ++ [st.title "Tymer.me Analytics Dashboard"])
                   ++ [st.markdown "**Real-time insights from your contact forms**"])
                  ++ [st.markdown "---"])) Hc) as [fresh Hrun].
  rewrite Hrun. cbn [heap page].
  match goal with
  | |- exists more, page (snd (?rest ?st)) = _ =>
      assert (Hk : keeps 0 rest)
  end.
  { repeat first
      [ apply keeps_kpi_today | apply keeps_kpi_last_7_days
      | apply keeps_charts | apply keeps_recent_activity
      | apply keeps_all_contact_messages | apply keeps_emit
      | apply keeps_bind; [|intros ?] ]. }
  match goal with
  | |- exists more, page (snd (?rest ?st)) = _ =>
      destruct (Hk st (Nat.le_0_l _)) as (_ & _ & more & Hmore)
  end.
  exists more. rewrite Hmore. cbn [page]. now rewrite <- !app_assoc.
Qed.

Lemma total_is_row_count_witness :
  writes (kpi_total 1%nat) Examples.loaded_state [st.metric_card "TOTAL MESSAGES" 3%nat].
Proof.
  apply (total_is_row_count Examples.library Examples.table 1%nat Examples.loaded_state
           Examples.now Examples.now).
  reflexivity.
Defined.

Ltac from_response data l :=
  exists (Ok data), Examples.start, l;
  eexists; split; [reflexivity | reflexivity].

(** ** From the records to the labels *)

Section Records.

Import pd.

Lemma add_keys_incl (r : record) (cols : list string) (x : string) :
  In x cols -> In x (add_keys cols r).
Proof.
  revert cols. induction r as [|[k v] r IH]; intros cols H; simpl; [assumption|].
  apply IH. destruct (has_label k cols); [assumption | apply in_or_app; now left].
Qed.

Lemma add_keys_key (r : record) (cols : list string) (k : string) (v : value) :
  In (k, v) r -> In k (add_keys cols r).
Proof.
  revert cols. induction r as [|[k' v'] r IH]; intros cols H; [destruct H|].
  simpl. destruct H as [E|H]; [|now apply IH].
  injection E as -> ->. apply add_keys_incl.
  destruct (has_label k cols) eqn:Ek; [now apply has_label_In|].
  apply in_or_app. right. now left.
Qed.

Lemma add_keys_inv (r : record) (cols : list string) (x : string) :
  In x (add_keys cols r) -> In x cols \/ exists v, In (x, v) r.
Proof.
  revert cols. induction r as [|[k v] r IH]; intros cols H; simpl in *; [now left|].
  destruct (IH _ H) as [Hin|[v' Hv]].
  - destruct (has_label k cols); [now left|].
    apply in_app_or in Hin as [Hin|[<-|[]]]; [now left|].
    right. exists v. now left.
  - right. exists v'. now right.
Qed.

Lemma collected_incl (data : list record) (cols : list string) (x : string) :
  In x cols -> In x (fold_left add_keys data cols).
Proof.
  revert cols. induction data as [|r data IH]; intros cols H; simpl; [assumption|].
  apply IH. now apply add_keys_incl.
Qed.

Lemma collected_key (data : list record) (cols : list string) (k : string) :
  is_key k data -> In k (fold_left add_keys data cols).
Proof.
  intros (r & v & Hr & Hv). revert cols.
  induction data as [|r' data IH]; intros cols; [destruct Hr|].
  simpl. destruct Hr as [->|Hr]; [|now apply IH].
  apply collected_incl. eapply add_keys_key; eassumption.
Qed.

Lemma collected_inv (data : list record) (cols : list string) (x : string) :
  In x (fold_left add_keys data cols) -> In x cols \/ is_key x data.
Proof.
  revert cols. induction data as [|r data IH]; intros cols H; simpl in *; [now left|].
  destruct (IH _ H) as [Hin|(r' & v & Hr & Hv)].
  - destruct (add_keys_inv _ _ _ Hin) as [Hc|[v Hv]]; [now left|].
    right. exists r, v. split; [now left | assumption].
  - right. exists r', v. split; [now right | assumption].
Qed.

End Records.

(** ** A second [request_time] column *)

Lemma two_positions (label : string) (cols : list string) (p q : nat) :
  p <> q ->
  In p (pd.positions label cols) -> In q (pd.positions label cols) ->
  exists a b rest, pd.positions label cols = a :: b :: rest.
Proof.
  intros Hpq Hp Hq.
  destruct (pd.positions label cols) as [|a [|b rest]].
  - destruct Hp.
  - destruct Hp as [<-|[]], Hq as [<-|[]]. congruence.
  - now exists a, b, rest.
Qed.

(** What the script does with a table in which [request_time] names
    several columns *)
Section SeveralColumns.

Variables (L : library) (df : DataFrame) (contact_df : loc) (s : state).
Variables (p q : nat) (more : list nat).
Hypothesis Hc : points_to s contact_df df.
Hypothesis Hem : pd.empty df = false.
Hypothesis Hp : pd.positions "request_time" (columns df) = p :: q :: more.

Lemma several_in_columns : pd.in_columns "request_time" df = true.
Proof.
  apply has_label_In. apply (nth_error_In _ p).
  apply positions_spec. rewrite Hp. now left.
Qed.

(** [contact_df['request_time']] is a frame, and a frame has no [dt]. *)
Lemma kpi_today_several (now : Z) :
  kpi_today contact_df now s
  = (Raise (Exception "AttributeError" "'DataFrame' object has no attribute 'dt'"),
     s).
Proof.
  unfold kpi_today, bind, deref.
  rewrite (Hc : nth_error (heap s) contact_df = Some df).
  rewrite Hem, several_in_columns. cbn [negb andb].
  unfold lift, pd.getitem. now rewrite Hp.
Qed.

Lemma render_several (now_today now_week : Z) :
  render L contact_df now_today now_week s
  = (Raise (Exception "AttributeError" "'DataFrame' object has no attribute 'dt'"),
     mkState (heap s)
       (page s
        ++ [st.title "Tymer.me Analytics Dashboard";
            st.markdown "**Real-time insights from your contact forms**";
            st.markdown "---";
            st.metric_card "TOTAL MESSAGES" (List.length (rows df))])).
Proof.
  unfold render, kpi_total, kpi_today, bind, emit, deref. cbn [heap page].
  rewrite (Hc : nth_error (heap s) contact_df = Some df).
  cbn [heap page]. rewrite (Hc : nth_error (heap s) contact_df = Some df).
  rewrite Hem, several_in_columns. cbn [negb andb]. unfold lift, pd.getitem.
  rewrite Hp. unfold pd.len. now rewrite <- !app_assoc.
Qed.

(** [sort_values] refuses a label that names several columns. *)
Lemma all_contact_messages_several :
  all_contact_messages L contact_df s
  = (Raise (Exception "ValueError"
              "The column label 'request_time' is not unique."),
     mkState (heap s) (page s ++ [st.subheader "All Contact Messages"])).
Proof.
  unfold all_contact_messages, bind, emit, deref. cbn [heap page].
  rewrite (Hc : nth_error (heap s) contact_df = Some df).
  rewrite Hem, several_in_columns. cbn [negb].
  unfold lift, pdx.sort_values_desc. now rewrite Hp.
Qed.

End SeveralColumns.

(** A response with a field [request_time] behind another time-like field
    whose values parse *)
Section SecondField.

Variables (L : library) (data : list record) (c : string) (rest : list string).
Variables (x : selection) (parsed : list (option Z)).
Hypothesis Hem : pd.empty (pd.DataFrame_of L data) = false.
Hypothesis Htc : time_cols (pd.DataFrame_of L data) = c :: rest.
Hypothesis Hc : c <> "request_time".
Hypothesis Hkey : is_key "request_time" data.
Hypothesis Hx : pd.getitem (pd.DataFrame_of L data) c = Ok x.
Hypothesis He : to_datetime L x = Ok parsed.

Lemma second_field_load (s : state) :
  load_contact_messages L (Ok data) s
  = (Ok (S (List.length (heap s))),
     mkState (heap s ++ [pd.setitem (pd.DataFrame_of L data) c parsed;
                         normalized L data c parsed])
             (page s)).
Proof.
  destruct (first_time_col_series _ _ _ _ Htc) as [p Hp].
  unfold pd.getitem in Hx. rewrite Hp in Hx. injection Hx as Hx'.
  rewrite <- Hx' in He.
  exact (load_normalized L data c rest p parsed s Hem Htc Hp He).
Qed.

Lemma second_field_points_to (s : state) :
  points_to (snd (load_contact_messages L (Ok data) s))
            (S (List.length (heap s))) (normalized L data c parsed).
Proof.
  rewrite second_field_load. unfold points_to. cbn [snd heap].
  rewrite nth_error_app2 by lia.
  replace (S (List.length (heap s)) - List.length (heap s))%nat with 1%nat by lia.
  reflexivity.
Qed.

Lemma second_field_columns :
  columns (normalized L data c parsed)
  = map (fun k => if String.eqb k c then "request_time" else k)
        (columns (pd.DataFrame_of L data)).
Proof.
  destruct (first_time_col_series _ _ _ _ Htc) as [p Hp].
  unfold normalized. now rewrite (setitem_rows _ _ _ _ Hp).
Qed.

Lemma second_field_len :
  List.length (rows (normalized L data c parsed)) = List.length data.
Proof.
  destruct (first_time_col_series _ _ _ _ Htc) as [p Hp].
  unfold normalized. rewrite (setitem_rows _ _ _ _ Hp). cbn [pd.rename rows].
  rewrite set_column_length. apply DataFrame_of_len.
Qed.

Lemma second_field_not_empty : pd.empty (normalized L data c parsed) = false.
Proof.
  unfold pd.empty in *. rewrite second_field_columns, length_map, second_field_len.
  now rewrite <- (DataFrame_of_len L data).
Qed.

(** The renaming leaves two columns with the label [request_time]. *)
Lemma second_field_positions :
  exists p q more,
    pd.positions "request_time" (columns (normalized L data c parsed))
    = p :: q :: more.
Proof.
  destruct (first_time_col_series _ _ _ _ Htc) as [p Hp].
  assert (Hrt : In "request_time" (columns (pd.DataFrame_of L data)))
    by (apply collected_key; assumption).
  apply In_nth_error in Hrt as [q Hq].
  assert (Hpc : nth_error (columns (pd.DataFrame_of L data)) p = Some c)
    by (apply positions_spec; rewrite Hp; now left).
  assert (Hpq : p <> q) by (intros ->; congruence).
  rewrite second_field_columns.
  apply (two_positions "request_time" _ p q Hpq).
  - apply rename_positions. rewrite Hp. now left.
  - apply positions_spec. rewrite nth_error_map, Hq.
    cbn [option_map]. now rewrite (proj2 (String.eqb_neq _ _) (not_eq_sym Hc)).
Qed.

End SecondField.

(** C1. The claim holds of the tables in which [request_time] names one
    column, and the code breaks it on a response it can receive: when the
    response has a field named request_time behind another time-like field
    whose values parse, the loader returns, without any error on the page,
    a table with one row per record in which two columns bear the label
    request_time, and the computation of the Today metric raises an
    [AttributeError] on it instead of counting the rows of today. *)
Theorem today_card_raises_on_second_request_time
        (L : library) (data : list record) (c : string) (rest : list string)
        (x : selection) (parsed : list (option Z)) (s : state) (now : Z) :
  pd.empty (pd.DataFrame_of L data) = false ->
  time_cols (pd.DataFrame_of L data) = c :: rest ->
  c <> "request_time" ->
  is_key "request_time" data ->
  pd.getitem (pd.DataFrame_of L data) c = Ok x ->
  to_datetime L x = Ok parsed ->
  exists contact_df s1 df msg,
    load_contact_messages L (Ok data) s = (Ok contact_df, s1)
    /\ page s1 = page s
    /\ points_to s1 contact_df df
    /\ List.length (rows df) = List.length data
    /\ (exists p q more,
           pd.positions "request_time" (columns df) = p :: q :: more)
    /\ kpi_today contact_df now s1
       = (Raise (Exception "AttributeError" msg), s1).
Proof.
  intros Hem Htc Hc Hkey Hx He.
  pose proof (second_field_load L data c rest x parsed Hem Htc Hx He s) as Hrun.
  pose proof (second_field_points_to L data c rest x parsed Hem Htc Hx He s) as Hl.
  rewrite Hrun in Hl. cbn [snd] in Hl.
  destruct (second_field_positions L data c rest parsed Htc Hc Hkey)
    as (p & q & more & Hp).
  eexists _, _, _, _. split; [exact Hrun|].
  split; [reflexivity|]. split; [exact Hl|].
  split; [exact (second_field_len L data c rest parsed Htc)|].
  split; [now exists p, q, more|].
  apply (kpi_today_several _ _ _ p q more Hl); [|exact Hp].
  exact (second_field_not_empty L data c rest parsed Hem Htc).
Qed.

Lemma today_card_raises_on_second_request_time_witness :
  exists contact_df s1 df msg,
    load_contact_messages Examples.library (Ok Examples.twice_data) Examples.start
    = (Ok contact_df, s1)
    /\ page s1 = []
    /\ points_to s1 contact_df df
    /\ List.length (rows df) = 1%nat
    /\ (exists p q more,
           pd.positions "request_time" (columns df) = p :: q :: more)
    /\ kpi_today contact_df Examples.now s1
       = (Raise (Exception "AttributeError" msg), s1).
Proof.
  apply (today_card_raises_on_second_request_time Examples.library
           Examples.twice_data "created_at" ["request_time"]
           (Column [VStr "2024-01-02T00:30:00Z"]) [Some (utc 2024 1 2 0 30)]
           Examples.start Examples.now).
  - reflexivity.
  - reflexivity.
  - discriminate.
  - exists [("id", VNum 1);
            ("created_at", VStr "2024-01-02T00:30:00Z");
            ("request_time", VStr "2024-01-01T23:00:00Z")],
           (VStr "2024-01-01T23:00:00Z").
    split; simpl; auto.
  - reflexivity.
  - reflexivity.
Defined.

(** C2. The claim holds of the tables in which [request_time] names one
    column, and the code breaks it on the same responses as for the Today
    metric: with two columns labelled request_time in the table loaded,
    the render pass raises after the Total card, so no Last-7-days metric
    is computed or shown. *)
Theorem last_7_days_card_is_not_reached
        (L : library) (data : list record) (c : string) (rest : list string)
        (x : selection) (parsed : list (option Z)) (s : state)
        (now_today now_week : Z) :
  pd.empty (pd.DataFrame_of L data) = false ->
  time_cols (pd.DataFrame_of L data) = c :: rest ->
  c <> "request_time" ->
  is_key "request_time" data ->
  pd.getitem (pd.DataFrame_of L data) c = Ok x ->
  to_datetime L x = Ok parsed ->
  exists contact_df s1 e s2 shown,
    load_contact_messages L (Ok data) s = (Ok contact_df, s1)
    /\ render L contact_df now_today now_week s1 = (Raise e, s2)
    /\ page s2 = page s1 ++ shown
    /\ shown = [st.title "Tymer.me Analytics Dashboard";
                st.markdown "**Real-time insights from your contact forms**";
                st.markdown "---";
                st.metric_card "TOTAL MESSAGES" (List.length data)]
    /\ forall n, ~ In (st.metric_card "LAST 7 DAYS" n) shown.
Proof.
  intros Hem Htc Hc Hkey Hx He.
  pose proof (second_field_load L data c rest x parsed Hem Htc Hx He s) as Hrun.
  pose proof (second_field_points_to L data c rest x parsed Hem Htc Hx He s) as Hl.
  rewrite Hrun in Hl. cbn [snd] in Hl.
  destruct (second_field_positions L data c rest parsed Htc Hc Hkey)
    as (p & q & more & Hp).
  eexists _, _, _, _, _. split; [exact Hrun|].
  split.
  { apply (render_several L _ _ _ p q more Hl); [|exact Hp].
    exact (second_field_not_empty L data c rest parsed Hem Htc). }
  cbn [page]. split; [reflexivity|].
  rewrite (second_field_len L data c rest parsed Htc).
  split; [reflexivity|].
  intros n [H|[H|[H|[H|[]]]]]; discriminate H.
Qed.

Lemma last_7_days_card_is_not_reached_witness :
  exists contact_df s1 e s2 shown,
    load_contact_messages Examples.library (Ok Examples.twice_data) Examples.start
    = (Ok contact_df, s1)
    /\ render Examples.library contact_df Examples.now Examples.now s1
       = (Raise e, s2)
    /\ page s2 = page s1 ++ shown
    /\ shown = [st.title "Tymer.me Analytics Dashboard";
                st.markdown "**Real-time insights from your contact forms**";
                st.markdown "---";
                st.metric_card "TOTAL MESSAGES" 1]
    /\ forall n, ~ In (st.metric_card "LAST 7 DAYS" n) shown.
Proof.
  apply (last_7_days_card_is_not_reached Examples.library
           Examples.twice_data "created_at" ["request_time"]
           (Column [VStr "2024-01-02T00:30:00Z"]) [Some (utc 2024 1 2 0 30)]
           Examples.start Examples.now Examples.now).
  - reflexivity.
  - reflexivity.
  - discriminate.
  - exists [("id", VNum 1);
            ("created_at", VStr "2024-01-02T00:30:00Z");
            ("request_time", VStr "2024-01-01T23:00:00Z")],
           (VStr "2024-01-01T23:00:00Z").
    split; simpl; auto.
  - reflexivity.
  - reflexivity.
Defined.

(** ** Rows without an instant *)

Section Missing.

Variable L : library.

(** A loaded table that has a [request_time] column has rows: the loader
    names a column so only in a table that is not empty. *)
Lemma loaded_with_request_time_not_empty (df : DataFrame) :
  loaded L df -> has_column "request_time" df -> pd.empty df = false.
Proof.
  intros Hl Hrt. pose proof (has_column_In _ _ Hrt) as Hin.
  apply loaded_shape in Hl.
  destruct Hl as [|data Hplain|data c rest p parsed Hem Htc Hp He].
  - destruct Hin.
  - exfalso. destruct Hplain as [Hem|Htc].
    + unfold pd.empty in Hem. apply orb_true_iff in Hem as [Hem|Hem];
        apply Nat.eqb_eq in Hem.
      * pose proof (DataFrame_of_len L data) as Hlen. unfold pd.len in Hlen.
        rewrite Hem in Hlen. destruct data; [destruct Hin | discriminate].
      * destruct (columns (pd.DataFrame_of L data)); [destruct Hin | discriminate].
    + assert (Hin' : In "request_time" (time_cols (pd.DataFrame_of L data)))
        by (apply filter_In; split; [assumption | reflexivity]).
      rewrite Htc in Hin'. destruct Hin'.
  - unfold pd.empty in *. rewrite (setitem_rows _ _ _ _ Hp).
    cbn [pd.rename rows columns].
    now rewrite set_column_length, length_map.
Qed.

Lemma rows_where_timed (df : DataFrame) (f : Z -> bool) :
  rows_where df f
  = filter (fun r => match request_time df r with
                     | Some t => f t
                     | None => false
                     end) (timed_rows df).
Proof.
  unfold timed_rows, rows_where.
  induction (rows df) as [|r rs IH]; simpl; [reflexivity|].
  destruct (request_time df r) as [t|] eqn:E; simpl; rewrite ?E, IH; reflexivity.
Qed.

Lemma timed_and_untimed (df : DataFrame) :
  List.length (rows df)
  = (List.length (timed_rows df) + List.length (untimed_rows df))%nat.
Proof.
  unfold timed_rows, untimed_rows, rows_where.
  induction (rows df) as [|r rs IH]; simpl; [reflexivity|].
  destruct (request_time df r); simpl; lia.
Qed.

End Missing.

(** C10, amended. For every loaded table in which [request_time] names
    exactly one column, the rows whose [request_time] is missing count in
    the Total metric, and in nothing else: Today and Last-7-days count
    among the rows that carry an instant, the daily counts of the chart add
    up to the number of these rows, and this number is the Total less the
    number of rows without an instant, which can make it smaller than the
    Total.  A value that does not parse gives no such row: when
    [pd.to_datetime] raises, the loader reports the error and returns the
    empty table, and the Total metric is 0. *)
Theorem missing_request_time_counts_only_in_total
        (L : library) (df : DataFrame)
        (contact_df : loc) (s : state) (now_today now_week : Z) :
  loaded L df -> has_column "request_time" df ->
  points_to s contact_df df ->
  writes (kpi_total contact_df) s
    [st.metric_card "TOTAL MESSAGES" (List.length (rows df))]
  /\ writes (kpi_today contact_df now_today) s
       [st.metric_card "TODAY"
          (List.length
             (filter (fun r => match request_time df r with
                               | Some t => same_utc_day t now_today
                               | None => false
                               end) (timed_rows df)))]
  /\ writes (kpi_last_7_days L contact_df now_week) s
       [st.metric_card "LAST 7 DAYS"
          (List.length
             (filter (fun r => match request_time df r with
                               | Some t => within_7_days t now_week
                               | None => false
                               end) (timed_rows df)))]
  /\ writes (charts L contact_df) s
       [st.subheader "Submission Trends";
        st.markdown "**Contact Messages Over Time**";
        st.plotly_chart (chart_points (daily_counts df))]
  /\ total_count (daily_counts df) = List.length (timed_rows df)
  /\ List.length (rows df)
     = (List.length (timed_rows df) + List.length (untimed_rows df))%nat
  /\ total_count (daily_counts Examples.table) = 2%nat
  /\ List.length (rows Examples.table) = 3%nat
  /\ forall data c rest x e s0,
       pd.empty (pd.DataFrame_of L data) = false ->
       time_cols (pd.DataFrame_of L data) = c :: rest ->
       pd.getitem (pd.DataFrame_of L data) c = Ok x ->
       to_datetime L x = Raise e ->
       exists l s1,
         load_contact_messages L (Ok data) s0 = (Ok l, s1)
         /\ points_to s1 l pd.empty_frame
         /\ page s1 = page s0 ++ [load_error e]
         /\ writes (kpi_total l) s1 [st.metric_card "TOTAL MESSAGES" 0].
Proof.
  intros Hl Hrt Hc.
  assert (Hcan : canonical df)
    by (apply (loaded_table_canonical L); [assumption | now left]).
  pose proof (has_column_In _ _ Hrt) as Hin.
  pose proof (loaded_with_request_time_not_empty L df Hl Hrt) as Hem.
  split; [now apply kpi_total_writes|].
  split.
  { rewrite <- (rows_where_timed df (fun t => same_utc_day t now_today)).
    now apply kpi_today_writes. }
  split.
  { rewrite <- (rows_where_timed df (fun t => within_7_days t now_week)).
    now apply kpi_last_7_days_writes. }
  split; [now apply charts_writes|].
  split.
  { unfold daily_counts. now rewrite groupby_size_total, present_timed_rows. }
  split; [apply timed_and_untimed|].
  split; [reflexivity|]. split; [reflexivity|].
  intros data c rest x e s0 Hne Htc Hx He.
  destruct (first_time_col_series _ _ _ _ Htc) as [p Hp].
  unfold pd.getitem in Hx. rewrite Hp in Hx. injection Hx as Hx.
  rewrite <- Hx in He.
  eexists _, _.
  split; [exact (load_parse_failed L data c rest p e s0 Hne Htc Hp He)|].
  assert (Hl0 : points_to
                  (mkState (heap s0 ++ [pd.DataFrame_of L data; pd.empty_frame])
                           (page s0 ++ [load_error e]))
                  (S (List.length (heap s0))) pd.empty_frame).
  { unfold points_to. cbn [heap]. rewrite nth_error_app2 by lia.
    replace (S (List.length (heap s0)) - List.length (heap s0))%nat
      with 1%nat by lia.
    reflexivity. }
  split; [exact Hl0|]. split; [reflexivity|].
  exact (kpi_total_writes pd.empty_frame _ _ Hl0).
Qed.

Lemma missing_request_time_counts_only_in_total_witness :
  writes (charts Examples.library 1%nat) Examples.loaded_state
    [st.subheader "Submission Trends";
     st.markdown "**Contact Messages Over Time**";
     st.plotly_chart [(VDate 19723, VNum 1); (VDate 19724, VNum 1)]].
Proof.
  apply (missing_request_time_counts_only_in_total Examples.library
           Examples.table 1%nat Examples.loaded_state Examples.now Examples.now).
  - from_response Examples.data 1%nat.
  - exists 3%nat. reflexivity.
  - reflexivity.
Defined.

(** C10 as stated fails on a request time that does not parse: the parser
    raises, the loader returns the empty table, and the Total metric is 0
    for a response of two records; the record is counted nowhere. *)
Lemma unparseable_request_time_empties_the_table :
  List.length Examples.garbled_data = 2%nat
  /\ (exists l s',
         load_contact_messages Examples.library (Ok Examples.garbled_data)
           Examples.start = (Ok l, s')
         /\ points_to s' l pd.empty_frame)
  /\ exists body rest,
       page (snd (app Examples.library (Ok Examples.garbled_data)
                      Examples.now Examples.now Examples.start))
       = st.markdown "<style>...</style>"
         :: st.error body
         :: st.title "Tymer.me Analytics Dashboard"
         :: st.markdown "**Real-time insights from your contact forms**"
         :: st.markdown "---"
         :: st.metric_card "TOTAL MESSAGES" 0
         :: rest.
Proof.
  split; [reflexivity|]. split.
  - eexists _, _. split; reflexivity.
  - eexists _, _. vm_compute. reflexivity.
Qed.

(** ** The sorted views *)

Lemma frame_eta (df : DataFrame) : mkDataFrame (columns df) (rows df) = df.
Proof. now destruct df. Qed.

Lemma in_columns_absent (label : string) (df : DataFrame) :
  ~ In label (columns df) -> pd.in_columns label df = false.
Proof.
  intros H. destruct (pd.in_columns label df) eqn:E; [|reflexivity].
  exfalso. apply H. now apply has_label_In.
Qed.

Lemma in_columns_present (label : string) (df : DataFrame) :
  In label (columns df) -> pd.in_columns label df = true.
Proof. intros H. now apply has_label_In. Qed.

(** C7. The claim holds of the tables in which [request_time] names at
    most one column, and the code breaks it on the responses that give the
    table loaded two columns labelled request_time: the sort of the full
    table raises a [ValueError], so the section shows its heading and
    neither the table nor the CSV export. *)
Theorem csv_export_raises_on_second_request_time
        (L : library) (data : list record) (c : string) (rest : list string)
        (x : selection) (parsed : list (option Z)) (s : state) :
  pd.empty (pd.DataFrame_of L data) = false ->
  time_cols (pd.DataFrame_of L data) = c :: rest ->
  c <> "request_time" ->
  is_key "request_time" data ->
  pd.getitem (pd.DataFrame_of L data) c = Ok x ->
  to_datetime L x = Ok parsed ->
  exists contact_df s1 df msg s2,
    load_contact_messages L (Ok data) s = (Ok contact_df, s1)
    /\ points_to s1 contact_df df
    /\ pd.empty df = false
    /\ In "request_time" (columns df)
    /\ all_contact_messages L contact_df s1
       = (Raise (Exception "ValueError" msg), s2)
    /\ page s2 = page s1 ++ [st.subheader "All Contact Messages"].
Proof.
  intros Hem Htc Hc Hkey Hx He.
  pose proof (second_field_load L data c rest x parsed Hem Htc Hx He s) as Hrun.
  pose proof (second_field_points_to L data c rest x parsed Hem Htc Hx He s) as Hl.
  rewrite Hrun in Hl. cbn [snd] in Hl.
  destruct (second_field_positions L data c rest parsed Htc Hc Hkey)
    as (p & q & more & Hp).
  pose proof (second_field_not_empty L data c rest parsed Hem Htc) as Hne.
  eexists _, _, _, _, _. split; [exact Hrun|].
  split; [exact Hl|]. split; [exact Hne|].
  split.
  { apply has_label_In. exact (several_in_columns _ p q more Hp). }
  split; [exact (all_contact_messages_several L _ _ _ p q more Hl Hne Hp)|].
  reflexivity.
Qed.

Lemma csv_export_raises_on_second_request_time_witness :
  exists contact_df s1 df msg s2,
    load_contact_messages Examples.library (Ok Examples.twice_data) Examples.start
    = (Ok contact_df, s1)
    /\ points_to s1 contact_df df
    /\ pd.empty df = false
    /\ In "request_time" (columns df)
    /\ all_contact_messages Examples.library contact_df s1
       = (Raise (Exception "ValueError" msg), s2)
    /\ page s2 = page s1 ++ [st.subheader "All Contact Messages"].
Proof.
  apply (csv_export_raises_on_second_request_time Examples.library
           Examples.twice_data "created_at" ["request_time"]
           (Column [VStr "2024-01-02T00:30:00Z"]) [Some (utc 2024 1 2 0 30)]
           Examples.start).
  - reflexivity.
  - reflexivity.
  - discriminate.
  - exists [("id", VNum 1);
            ("created_at", VStr "2024-01-02T00:30:00Z");
            ("request_time", VStr "2024-01-01T23:00:00Z")],
           (VStr "2024-01-01T23:00:00Z").
    split; simpl; auto.
  - reflexivity.
  - reflexivity.
Defined.

(** ** The preview, case by case *)

Lemma preview_labels_some (df : DataFrame) :
  In "name" (columns df) \/ In "email" (columns df)
  \/ In "request_time" (columns df) ->
  preview_labels df <> [].
Proof.
  intros H E.
  assert (Hall : forall l, In l ["name"; "email"; "request_time"] ->
                           pd.in_columns l df = false).
  { intros l Hl. destruct (pd.in_columns l df) eqn:El; [|reflexivity].
    assert (Hin : In l (preview_labels df)) by (apply filter_In; now split).
    rewrite E in Hin. destruct Hin. }
  destruct H as [H|[H|H]]; apply in_columns_present in H;
    rewrite Hall in H; simpl; auto; discriminate.
Qed.

Lemma preview_labels_none (df : DataFrame) :
  ~ In "name" (columns df) -> ~ In "email" (columns df) ->
  ~ In "request_time" (columns df) ->
  preview_labels df = [].
Proof.
  intros H1 H2 H3. unfold preview_labels. simpl.
  now rewrite !in_columns_absent.
Qed.

(** ** Humanized labels *)

Lemma replace_length (a b : ascii) (s : string) :
  String.length (PyStr.replace a b s) = String.length s.
Proof. induction s as [|c s IH]; simpl; [reflexivity | now rewrite IH]. Qed.

Lemma title_from_length (p : bool) (s : string) :
  String.length (PyStr.title_from p s) = String.length s.
Proof.
  revert p. induction s as [|c s IH]; intros p; simpl; [reflexivity | now rewrite IH].
Qed.

Lemma replace_removes (b : ascii) (s : string) :
  b <> "_"%char ->
  ~ In "_"%char (list_ascii_of_string (PyStr.replace "_" b s)).
Proof.
  intros Hb. induction s as [|c s IH]; simpl; [tauto|].
  intros [H|H]; [|tauto].
  destruct (Ascii.eqb_spec c "_"%char); congruence.
Qed.

Lemma case_keeps_underscore_out (c : ascii) :
  c <> "_"%char ->
  PyStr.to_lower c <> "_"%char /\ PyStr.to_upper c <> "_"%char.
Proof.
  intros H.
  destruct c as [[] [] [] [] [] [] [] []];
    split; first [exact H | vm_compute; discriminate].
Qed.

Lemma title_from_keeps_out (p : bool) (s : string) :
  ~ In "_"%char (list_ascii_of_string s) ->
  ~ In "_"%char (list_ascii_of_string (PyStr.title_from p s)).
Proof.
  revert p. induction s as [|c s IH]; intros p; simpl; [tauto|].
  intros H [E|Hin].
  - assert (Hc : c <> "_"%char) by (intros ->; apply H; now left).
    destruct (case_keeps_underscore_out c Hc) as [Hl Hu].
    destruct p; congruence.
  - apply (IH _ (fun Hs => H (or_intror Hs)) Hin).
Qed.

Lemma replace_is_ascii (s : string) :
  PyStr.is_ascii s = true -> PyStr.is_ascii (PyStr.replace "_" " " s) = true.
Proof.
  induction s as [|c s IH]; simpl; [reflexivity|].
  intros H. apply andb_true_iff in H as [Hc Hs].
  rewrite (IH Hs), andb_true_r.
  destruct (Ascii.eqb c "_"); [reflexivity | exact Hc].
Qed.

(** The label of a column named in ASCII: as long as the name, and without
    an underscore *)
Lemma humanize_ascii (L : library) (col : string) :
  PyStr.is_ascii col = true ->
  humanize L col = PyStr.title (PyStr.replace "_" " " col)
  /\ String.length (humanize L col) = String.length col
  /\ ~ In "_"%char (list_ascii_of_string (humanize L col)).
Proof.
  intros H. unfold humanize. rewrite (replace_is_ascii _ H).
  split; [reflexivity|]. unfold PyStr.title. split.
  - now rewrite title_from_length, replace_length.
  - apply title_from_keeps_out, replace_removes. discriminate.
Qed.

(** C6, amended. For every non-empty loaded table in which [request_time]
    names at most one column, the preview of recent activity follows the
    table sorted by [request_time], latest first, when the table has that
    column, and the original order when it has not, and shows at most its
    first 10 rows (request times 3, 1, 2 come out as 3, 2, 1).  When the
    table has at least one of the columns name, email and request_time,
    each row shown is a collapsible summary labelled with its name and
    email, "Unknown" and the empty text standing in for a column the table
    lacks, and holding every field of the row except id under its
    humanized label: the name of the column with a space for every
    underscore and in title case, so request_time reads Request Time.
    When the table has none of the three columns, the rows are shown as
    one plain table without its index. *)
Theorem preview_shows_latest_rows
        (L : library) (df : DataFrame) (contact_df : loc) (s : state) :
  loaded L df ->
  has_column "request_time" df \/ ~ In "request_time" (columns df) ->
  pd.empty df = false ->
  points_to s contact_df df ->
  (exists view,
    Permutation view (rows df)
    /\ (has_column "request_time" df -> StronglySorted (not_earlier df) view)
    /\ (~ In "request_time" (columns df) -> view = rows df)
    /\ (List.length (firstn 10 view) <= 10)%nat
    /\ (In "name" (columns df) \/ In "email" (columns df)
        \/ In "request_time" (columns df) ->
        writes (recent_activity L contact_df) s
          (st.subheader "Recent Activity"
           :: st.markdown "**Latest Contact Messages**"
           :: map (summary L df) (firstn 10 view)))
    /\ (~ In "name" (columns df) -> ~ In "email" (columns df) ->
        ~ In "request_time" (columns df) ->
        writes (recent_activity L contact_df) s
          [st.subheader "Recent Activity";
           st.markdown "**Latest Contact Messages**";
           st.dataframe (mkDataFrame (columns df) (firstn 10 view)) true]))
  /\ (forall r, ~ In "name" (columns df) ->
                field_or df r "name" (VStr "Unknown") = VStr "Unknown")
  /\ (forall r, ~ In "email" (columns df) ->
                field_or df r "email" (VStr "") = VStr "")
  /\ pdx.sort_values_desc L Examples.ordinal_table "request_time"
     = Ok (mkDataFrame ["name"; "request_time"]
             [ (0%nat, [VStr "c"; VTime 3]);
               (2%nat, [VStr "b"; VTime 2]);
               (1%nat, [VStr "a"; VTime 1]) ])
  /\ (forall col, PyStr.is_ascii col = true ->
        String.length (humanize L col) = String.length col
        /\ ~ In "_"%char (list_ascii_of_string (humanize L col)))
  /\ humanize L "request_time" = "Request Time"
  /\ humanize L "first_name" = "First Name"
  /\ humanize L "EMAIL" = "Email"
  /\ humanize L "zip_code_2" = "Zip Code 2".
Proof.
  intros Hl Hrt Hem Hc.
  pose proof (loaded_table_canonical L df Hl Hrt) as Hcan.
  assert (Hcases : forall view,
            writes (recent_activity L contact_df) s
              (st.subheader "Recent Activity"
               :: st.markdown "**Latest Contact Messages**"
               :: preview_of L df view) ->
            (In "name" (columns df) \/ In "email" (columns df)
             \/ In "request_time" (columns df) ->
             writes (recent_activity L contact_df) s
               (st.subheader "Recent Activity"
                :: st.markdown "**Latest Contact Messages**"
                :: map (summary L df) (firstn 10 view)))
            /\ (~ In "name" (columns df) -> ~ In "email" (columns df) ->
                ~ In "request_time" (columns df) ->
                writes (recent_activity L contact_df) s
                  [st.subheader "Recent Activity";
                   st.markdown "**Latest Contact Messages**";
                   st.dataframe (mkDataFrame (columns df) (firstn 10 view)) true])).
  { intros view Hw. unfold preview_of in Hw. split.
    - intros Hsome. apply preview_labels_some in Hsome.
      destruct (preview_labels df); [congruence | exact Hw].
    - intros H1 H2 H3. now rewrite (preview_labels_none df H1 H2 H3) in Hw. }
  assert (Hfall : forall label default r,
            ~ In label (columns df) -> field_or df r label default = default).
  { intros label default r H. apply field_or_absent. now apply in_columns_absent. }
  split; [|split; [now auto | split; [now auto | split; [reflexivity|]]]].
  - destruct Hrt as [Hrt|Hno].
    + destruct (recent_activity_sorted L df contact_df Hcan s Hc
                  (has_column_In _ _ Hrt) Hem) as (view & Hperm & Hsorted & Hw).
      destruct (Hcases view Hw) as [Hsome Hnone].
      exists view. repeat split; auto.
      * intros Hno. exfalso. apply Hno. now apply has_column_In.
      * apply firstn_le_length.
    + pose proof (recent_activity_unsorted L df contact_df Hcan s Hc Hem
                    (in_columns_absent _ _ Hno)) as Hw.
      destruct (Hcases (rows df) Hw) as [Hsome Hnone].
      exists (rows df). repeat split; auto.
      * intros Hrt. exfalso. apply Hno. now apply has_column_In.
      * apply firstn_le_length.
  - split; [|repeat split; reflexivity].
    intros col Hcol. now destruct (humanize_ascii L col Hcol) as (_ & H1 & H2).
Qed.

Lemma preview_shows_latest_rows_witness :
  exists view,
    Permutation view (rows Examples.table)
    /\ StronglySorted (not_earlier Examples.table) view
    /\ writes (recent_activity Examples.library 1%nat) Examples.loaded_state
         (st.subheader "Recent Activity"
          :: st.markdown "**Latest Contact Messages**"
          :: map (summary Examples.library Examples.table) (firstn 10 view))
    /\ map (summary Examples.library Examples.table) (firstn 10 view)
       = [st.expander (VStr "Bob") (VStr "bob@example.org")
            [st.write "Name" (VStr "Bob");
             st.write "Email" (VStr "bob@example.org");
             st.write "Request Time" (VTime (utc 2024 1 2 0 30))];
          st.expander (VStr "Ann") (VStr "ann@example.org")
            [st.write "Name" (VStr "Ann");
             st.write "Email" (VStr "ann@example.org");
             st.write "Request Time" (VTime (utc 2024 1 1 23 0))];
          st.expander (VStr "Cy") (VStr "cy@example.org")
            [st.write "Name" (VStr "Cy");
             st.write "Email" (VStr "cy@example.org");
             st.write "Request Time" VNaT]].
Proof.
  destruct (preview_shows_latest_rows Examples.library Examples.table 1%nat
              Examples.loaded_state)
    as ((view & Hperm & Hsorted & _ & _ & H & _) & _).
  - from_response Examples.data 1%nat.
  - left. exists 3%nat. reflexivity.
  - reflexivity.
  - reflexivity.
  - assert (Hhas : has_column "request_time" Examples.table)
      by (exists 3%nat; reflexivity).
    assert (Hw := H (or_introl (or_intror (or_introl eq_refl)))).
    exists view. split; [exact Hperm|]. split; [exact (Hsorted Hhas)|].
    split; [exact Hw|].
    destruct Hw as [fresh Hw].
    apply (f_equal (fun r => page (snd r))) in Hw.
    vm_compute in Hw. injection Hw as Hw. symmetry. exact Hw.
Defined.

(** C6 as stated fails on a table with none of the columns name, email and
    request_time: its rows are shown as a plain table, not as summaries
    labelled "Unknown". *)
Lemma preview_without_labels_is_plain_table :
  loaded Examples.library Examples.bare_table
  /\ pd.empty Examples.bare_table = false
  /\ points_to Examples.bare_state 0%nat Examples.bare_table
  /\ writes (recent_activity Examples.library 0%nat) Examples.bare_state
       [st.subheader "Recent Activity";
        st.markdown "**Latest Contact Messages**";
        st.dataframe Examples.bare_table true]
  /\ ~ writes (recent_activity Examples.library 0%nat) Examples.bare_state
         (st.subheader "Recent Activity"
          :: st.markdown "**Latest Contact Messages**"
          :: map (summary Examples.library Examples.bare_table)
                 (firstn 10 (rows Examples.bare_table))).
Proof.
  split; [from_response Examples.bare_data 0%nat|].
  split; [reflexivity|]. split; [reflexivity|]. split.
  - eexists. reflexivity.
  - intros [fresh H]. vm_compute in H. discriminate H.
Qed.

(** ** The whole page *)

Ltac run_emit := apply writes_emit_bind.

Ltac run_section lemma :=
  eapply writes_seq; [ lemma | intros ? | reflexivity ].

(** C5. For an empty loaded table the three metrics are 0 and the chart,
    the preview and the full table each show their empty-state message, and
    nothing raises.  For a non-empty loaded table without a [request_time]
    column, Today and Last-7-days are 0 and the chart shows its placeholder,
    while Total is the row count and the preview and the full table (with
    its CSV export) show the rows in their original order. *)
Theorem empty_and_untimed_tables_render
        (L : library) (df : DataFrame)
        (contact_df : loc) (s : state) (now_today now_week : Z) :
  loaded L df -> points_to s contact_df df ->
  (rows df = [] ->
   writes (render L contact_df now_today now_week) s
     [st.title "Tymer.me Analytics Dashboard";
      st.markdown "**Real-time insights from your contact forms**";
      st.markdown "---";
      st.metric_card "TOTAL MESSAGES" 0;
      st.metric_card "TODAY" 0;
      st.metric_card "LAST 7 DAYS" 0;
      st.markdown "<br>";
      st.subheader "Submission Trends";
      st.markdown "**Contact Messages Over Time**";
      st.info "No contact message data available";
      st.markdown "---";
      st.subheader "Recent Activity";
      st.markdown "**Latest Contact Messages**";
      st.info "No messages yet";
      st.markdown "---";
      st.subheader "All Contact Messages";
      st.info "No contact messages yet";
      st.markdown "---";
      st.caption "Data refreshes every 60 seconds | Built with Streamlit & Supabase"])
  /\ (pd.empty df = false -> ~ In "request_time" (columns df) ->
      writes (render L contact_df now_today now_week) s
        ([st.title "Tymer.me Analytics Dashboard";
          st.markdown "**Real-time insights from your contact forms**";
          st.markdown "---";
          st.metric_card "TOTAL MESSAGES" (List.length (rows df));
          st.metric_card "TODAY" 0;
          st.metric_card "LAST 7 DAYS" 0;
          st.markdown "<br>";
          st.subheader "Submission Trends";
          st.markdown "**Contact Messages Over Time**";
          st.info "No contact message data available";
          st.markdown "---";
          st.subheader "Recent Activity";
          st.markdown "**Latest Contact Messages**"]
         ++ preview_of L df (rows df)
         ++ [st.markdown "---";
             st.subheader "All Contact Messages";
             st.dataframe df false;
             st.download_button "Download as CSV"
               (pdx.mkCsv (columns df) (map snd (rows df)))
               "contact_messages.csv" "text/csv";
             st.markdown "---";
             st.caption
               "Data refreshes every 60 seconds | Built with Streamlit & Supabase"])).
Proof.
  intros Hl Hc. split.
  - intros Hrows.
    assert (Hem : pd.empty df = true) by (unfold pd.empty; now rewrite Hrows).
    eapply writes_last.
    + unfold render. do 3 run_emit.
      run_section ltac:(apply (kpi_total_writes df); keep_pointer Hc).
      run_section ltac:(apply (kpi_today_absent df);
                        [keep_pointer Hc | now left]).
      run_section ltac:(apply (kpi_last_7_days_absent L df);
                        [keep_pointer Hc | now left]).
      run_emit.
      run_section ltac:(apply (charts_absent L df); [keep_pointer Hc | now left]).
      run_emit.
      run_section ltac:(apply (recent_activity_empty L df);
                        [keep_pointer Hc | exact Hem]).
      run_emit.
      run_section ltac:(apply (all_contact_messages_empty L df);
                        [keep_pointer Hc | exact Hem]).
      run_emit. apply writes_emit.
    + rewrite Hrows. reflexivity.
  - intros Hem Hno.
    pose proof (loaded_table_canonical L df Hl (or_intror Hno)) as Hcan.
    pose proof (in_columns_absent _ _ Hno) as Hrt.
    eapply writes_last.
    + unfold render. do 3 run_emit.
      run_section ltac:(apply (kpi_total_writes df); keep_pointer Hc).
      run_section ltac:(apply (kpi_today_absent df);
                        [keep_pointer Hc | now right]).
      run_section ltac:(apply (kpi_last_7_days_absent L df);
                        [keep_pointer Hc | now right]).
      run_emit.
      run_section ltac:(apply (charts_absent L df); [keep_pointer Hc | now right]).
      run_emit.
      run_section ltac:(apply (recent_activity_unsorted L df);
                        [exact Hcan | keep_pointer Hc | exact Hem | exact Hrt]).
      run_emit.
      run_section ltac:(apply (all_contact_messages_unsorted L df);
                        [keep_pointer Hc | exact Hem | exact Hrt]).
      run_emit. apply writes_emit.
    + reflexivity.
Qed.

Lemma empty_and_untimed_tables_render_witness :
  writes (render Examples.library 0%nat Examples.now Examples.now) Examples.plain_state
    ([st.title "Tymer.me Analytics Dashboard";
      st.markdown "**Real-time insights from your contact forms**";
      st.markdown "---";
      st.metric_card "TOTAL MESSAGES" 2;
      st.metric_card "TODAY" 0;
      st.metric_card "LAST 7 DAYS" 0;
      st.markdown "<br>";
      st.subheader "Submission Trends";
      st.markdown "**Contact Messages Over Time**";
      st.info "No contact message data available";
      st.markdown "---";
      st.subheader "Recent Activity";
      st.markdown "**Latest Contact Messages**"]
     ++ map (summary Examples.library Examples.plain_table)
            (rows Examples.plain_table)
     ++ [st.markdown "---";
         st.subheader "All Contact Messages";
         st.dataframe Examples.plain_table false;
         st.download_button "Download as CSV"
           (pdx.mkCsv ["id"; "name"; "email"]
              (map snd (rows Examples.plain_table)))
           "contact_messages.csv" "text/csv";
         st.markdown "---";
         st.caption
           "Data refreshes every 60 seconds | Built with Streamlit & Supabase"]).
Proof.
  apply (empty_and_untimed_tables_render Examples.library Examples.plain_table
           0%nat Examples.plain_state Examples.now Examples.now).
  - from_response Examples.plain_data 0%nat.
  - reflexivity.
  - reflexivity.
  - simpl. intuition discriminate.
Defined.

(** ** Column normalization *)

Lemma filter_first {A : Type} (f : A -> bool) (l : list A) (c : A) (rest : list A) :
  filter f l = c :: rest ->
  exists before after,
    l = before ++ c :: after
    /\ Forall (fun k => f k = false) before
    /\ f c = true.
Proof.
  induction l as [|x l IH]; simpl; [discriminate|].
  destruct (f x) eqn:E.
  - intros H. injection H as -> _. exists [], l. now repeat split.
  - intros H. destruct (IH H) as (before & after & -> & Hb & Hc).
    exists (x :: before), after. repeat split; auto.
Qed.

Lemma rename_only (c new : string) (before after : list string) :
  NoDup (before ++ c :: after) ->
  map (fun k => if String.eqb k c then new else k) (before ++ c :: after)
  = before ++ new :: after.
Proof.
  intros Hnd. apply NoDup_remove_2 in Hnd.
  rewrite map_app. simpl. rewrite String.eqb_refl.
  assert (Hid : forall l, ~ In c l ->
            map (fun k => if String.eqb k c then new else k) l = l).
  { induction l as [|k l IH]; simpl; intros H; [reflexivity|].
    destruct (String.eqb_spec k c) as [->|_]; [exfalso; apply H; now left|].
    f_equal. apply IH. intros Hin. apply H. now right. }
  rewrite !Hid; [reflexivity | |]; intros Hin; apply Hnd; apply in_or_app; auto.
Qed.

(** C3, amended. For every non-empty table the data source returns, the
    loader looks for the labels that contain "created" or "time", letter
    case apart.  If there is one and [pd.to_datetime] parses the first
    such column, in column order, this column holds the parsed UTC
    instants, row by row, and is named request_time in the table returned,
    and the labels and cells of every other column are as they were; for
    the columns id, updated_time, created_at it is updated_time that
    becomes request_time.  If no label matches, the table is returned as
    it is. *)
Theorem first_time_like_column_becomes_request_time
        (L : library) (data : list record) (s : state) :
  pd.empty (pd.DataFrame_of L data) = false ->
  (time_cols (pd.DataFrame_of L data) = [] ->
   load_contact_messages L (Ok data) s
   = (Ok (List.length (heap s)),
      mkState (heap s ++ [pd.DataFrame_of L data]) (page s)))
  /\ (forall c rest,
         time_cols (pd.DataFrame_of L data) = c :: rest ->
         exists before after,
           columns (pd.DataFrame_of L data) = before ++ c :: after
           /\ Forall (fun k => time_like k = false) before
           /\ time_like c = true
           /\ forall parsed,
               to_datetime L
                 (Column (map (pd.cell (List.length before))
                              (rows (pd.DataFrame_of L data))))
               = Ok parsed ->
               exists l s' df,
                 load_contact_messages L (Ok data) s = (Ok l, s')
                 /\ page s' = page s
                 /\ points_to s' l df
                 /\ columns df = before ++ "request_time" :: after
                 /\ map fst (rows df) = map fst (rows (pd.DataFrame_of L data))
                 /\ map (pd.cell (List.length before)) (rows df)
                    = map (fun i => pd.of_timestamp (nth i parsed None))
                          (seq 0 (List.length data))
                 /\ (List.length parsed = List.length data ->
                     map (pd.cell (List.length before)) (rows df)
                     = map pd.of_timestamp parsed)
                 /\ forall q, q <> List.length before ->
                      map (pd.cell q) (rows df)
                      = map (pd.cell q) (rows (pd.DataFrame_of L data)))
  /\ time_cols (mkDataFrame ["id"; "updated_time"; "created_at"] [])
     = ["updated_time"; "created_at"]
  /\ time_like "Created_At" = true
  /\ time_like "TIMESTAMP" = true
  /\ time_like "id" = false.
Proof.
  intros Hem. split; [|split; [|repeat split]].
  - intros Htc. apply load_plain. now right.
  - intros c rest Htc.
    destruct (filter_first _ _ _ _ Htc) as (before & after & Hcols & Hb & Hc).
    exists before, after. repeat split; auto.
    intros parsed He.
    pose proof (DataFrame_of_NoDup L data) as Hnd.
    assert (Hp : pd.positions c (columns (pd.DataFrame_of L data))
                 = [List.length before]).
    { destruct (first_time_col_series _ _ _ _ Htc) as [p Hp]. rewrite Hp. f_equal.
      assert (Hin : In (List.length before)
                       (pd.positions c (columns (pd.DataFrame_of L data)))).
      { apply positions_spec. rewrite Hcols.
        rewrite nth_error_app2, Nat.sub_diag by lia. reflexivity. }
      rewrite Hp in Hin. destruct Hin as [->|[]]. reflexivity. }
    assert (Hpb : (List.length before
                   < List.length (columns (pd.DataFrame_of L data)))%nat).
    { apply (positions_bound c). rewrite Hp. now left. }
    assert (Hidx : map fst (rows (pd.DataFrame_of L data))
                   = seq 0 (List.length data)).
    { rewrite DataFrame_of_index. f_equal. apply DataFrame_of_len. }
    assert (Hcells : map (pd.cell (List.length before))
                       (pd.set_column (List.length before) parsed
                          (rows (pd.DataFrame_of L data)))
                     = map (fun i => pd.of_timestamp (nth i parsed None))
                           (seq 0 (List.length data))).
    { rewrite (set_column_same _ (List.length (columns (pd.DataFrame_of L data))));
        [|assumption | apply DataFrame_of_rectangular].
      rewrite <- Hidx, map_map. reflexivity. }
    eexists _, _, _.
    split; [exact (load_normalized L data c rest (List.length before) parsed s
                     Hem Htc Hp He)|].
    split; [reflexivity|]. split.
    { unfold points_to. cbn [heap]. rewrite nth_error_app2 by lia.
      replace (S (List.length (heap s)) - List.length (heap s))%nat with 1%nat by lia.
      reflexivity. }
    rewrite (setitem_rows _ _ _ _ Hp). unfold pd.rename. cbn [columns rows].
    split; [rewrite Hcols; apply rename_only; now rewrite <- Hcols|].
    split; [apply set_column_fst|].
    split; [exact Hcells|].
    split.
    { intros Hlen. rewrite Hcells, <- Hlen.
      rewrite <- (map_map (fun i => nth i parsed None) pd.of_timestamp).
      f_equal. clear. induction parsed as [|t ts IH]; [reflexivity|].
      cbn [List.length seq map nth]. f_equal.
      rewrite <- seq_shift, map_map. exact IH. }
    intros q Hq. now apply set_column_other.
Qed.

Lemma first_time_like_column_becomes_request_time_witness :
  exists l s' df,
    load_contact_messages Examples.library (Ok Examples.tie_data) Examples.start
    = (Ok l, s')
    /\ points_to s' l df
    /\ columns df = ["id"; "request_time"; "created_at"]
    /\ map (pd.cell 1) (rows df) = [VTime (utc 2024 1 2 0 30)]
    /\ map (pd.cell 2) (rows df) = [VStr "2024-01-01T23:00:00Z"].
Proof.
  destruct (first_time_like_column_becomes_request_time Examples.library
              Examples.tie_data Examples.start eq_refl) as (_ & H & _).
  destruct (H "updated_time" ["created_at"] eq_refl)
    as (before & after & Hcols & _ & _ & Hrun).
  change (columns (pd.DataFrame_of Examples.library Examples.tie_data))
    with ["id"; "updated_time"; "created_at"] in Hcols.
  assert (Hb : before = ["id"] /\ after = ["created_at"]).
  { destruct before as [|a [|b [|c before]]]; simpl in Hcols;
      try discriminate Hcols; injection Hcols; intros; subst; try discriminate.
    - now split.
    - destruct before; discriminate. }
  destruct Hb as [-> ->].
  destruct (Hrun [Some (utc 2024 1 2 0 30)] eq_refl)
    as (l & s' & df & H1 & _ & H3 & H4 & _ & H6 & _ & H8).
  exists l, s', df. repeat split; try assumption.
  rewrite (H8 2%nat) by discriminate. reflexivity.
Defined.

(** C3 as stated fails when the first time-like column holds no
    timestamps: the parser raises, and the table returned is the empty
    one, with no request_time column. *)
Lemma time_like_column_without_timestamps :
  pd.empty (pd.DataFrame_of Examples.library Examples.zone_data) = false
  /\ time_cols (pd.DataFrame_of Examples.library Examples.zone_data) = ["timezone"]
  /\ (exists body,
         load_contact_messages Examples.library (Ok Examples.zone_data)
           Examples.start
         = (Ok 1%nat,
            mkState [mkDataFrame ["id"; "name"; "timezone"]
                       [(0%nat, [VNum 1; VStr "Ann"; VStr "Europe/Paris"])];
                     pd.empty_frame]
                    [st.error body]))
  /\ ~ exists l s' df,
         load_contact_messages Examples.library (Ok Examples.zone_data)
           Examples.start = (Ok l, s')
         /\ points_to s' l df
         /\ In "request_time" (columns df).
Proof.
  split; [reflexivity|]. split; [reflexivity|]. split.
  - eexists. vm_compute. reflexivity.
  - intros (l & s' & df & Hrun & Hl & Hin).
    vm_compute in Hrun. injection Hrun as <- <-.
    vm_compute in Hl. injection Hl as <-. destruct Hin.
Qed.

(** ** Failures of the loader *)

Lemma fetch_and_normalize_page (L : library)
      (execute : result (list record)) (s s1 : state) (r : result loc) :
  fetch_and_normalize L execute s = (r, s1) -> page s1 = page s.
Proof.
  unfold fetch_and_normalize, bind, lift.
  destruct execute as [data|e0]; [|intros H; now injection H as <- <-].
  unfold alloc. rewrite (deref_points_to _ _ _ (points_to_new _ _ _)).
  destruct (negb (pd.empty (pd.DataFrame_of L data)));
    [|intros H; now injection H as <- <-].
  destruct (time_cols (pd.DataFrame_of L data)) as [|c rest];
    [intros H; now injection H as <- <-|].
  destruct (pd.getitem (pd.DataFrame_of L data) c) as [col|e1];
    [|intros H; now injection H as <- <-].
  destruct (to_datetime L col) as [parsed|e2];
    [|intros H; now injection H as <- <-].
  unfold store. cbn [heap page]. rewrite set_at_last.
  rewrite (deref_points_to _ _ _ (points_to_new _ _ _)).
  intros H. now injection H as <- <-.
Qed.

(** C4. Whatever fails in the fetch or in the processing of the response,
    [load_contact_messages] writes the error on the page and returns an
    empty table; it raises nothing.  The failures are the exception of the
    client and the exception of the timestamp parser. *)
Theorem loader_reports_and_returns_empty
        (L : library)
        (execute : result (list record)) (s : state) :
  (exists l s', load_contact_messages L execute s = (Ok l, s'))
  /\ (forall e s1,
         fetch_and_normalize L execute s = (Raise e, s1) ->
         exists l s',
           load_contact_messages L execute s = (Ok l, s')
           /\ points_to s' l pd.empty_frame
           /\ page s' = page s ++ [load_error e])
  /\ (forall e,
         execute = Raise e ->
         fetch_and_normalize L execute s = (Raise e, s))
  /\ (forall data c rest p e,
         execute = Ok data ->
         pd.empty (pd.DataFrame_of L data) = false ->
         time_cols (pd.DataFrame_of L data) = c :: rest ->
         pd.positions c (columns (pd.DataFrame_of L data)) = [p] ->
         to_datetime L (Column (map (pd.cell p) (rows (pd.DataFrame_of L data))))
         = Raise e ->
         fetch_and_normalize L execute s
         = (Raise e, mkState (heap s ++ [pd.DataFrame_of L data]) (page s))).
Proof.
  assert (Hfail : forall e s1,
            fetch_and_normalize L execute s = (Raise e, s1) ->
            exists l s',
              load_contact_messages L execute s = (Ok l, s')
              /\ points_to s' l pd.empty_frame
              /\ page s' = page s ++ [load_error e]).
  { intros e s1 H. pose proof (fetch_and_normalize_page _ _ _ _ _ H) as Hpage.
    unfold load_contact_messages, try_except. rewrite H.
    unfold bind, emit, alloc. cbn [heap page].
    eexists _, _. split; [reflexivity|]. split.
    - apply points_to_new.
    - cbn [page]. now rewrite Hpage. }
  split; [|split; [exact Hfail|split]].
  - destruct (fetch_and_normalize L execute s) as [[l|e] s1] eqn:H.
    + exists l, s1. unfold load_contact_messages, try_except. now rewrite H.
    + destruct (Hfail e s1 eq_refl) as (l & s' & Hrun & _). now exists l, s'.
  - intros e ->. reflexivity.
  - intros data c rest p e -> Hem Htc Hp He.
    unfold fetch_and_normalize, bind, lift, alloc.
    rewrite (deref_points_to _ _ _ (points_to_new _ _ _)).
    rewrite Hem, Htc. cbn [negb]. unfold pd.getitem. now rewrite Hp, He.
Qed.

(** C9. Nothing the script does after loading changes the loaded table in
    place: computing each of the three metrics, building the daily counts,
    sorting for the preview and sorting for the full table and its export
    leave every object that exists as it is and put their results in new
    objects, so the table [contact_df] is bound to is, at the end of the
    render pass, the table the loader returned. *)
Theorem rendering_leaves_loaded_table_alone
        (L : library) (contact_df : loc) (now_today now_week : Z) :
  leaves_objects_alone (kpi_total contact_df)
  /\ leaves_objects_alone (kpi_today contact_df now_today)
  /\ leaves_objects_alone (kpi_last_7_days L contact_df now_week)
  /\ leaves_objects_alone (charts L contact_df)
  /\ leaves_objects_alone (recent_activity L contact_df)
  /\ leaves_objects_alone (all_contact_messages L contact_df)
  /\ leaves_objects_alone (render L contact_df now_today now_week)
  /\ forall s df,
       points_to s contact_df df ->
       points_to (snd (render L contact_df now_today now_week s)) contact_df df.
Proof.
  repeat split.
  - apply keeps_all. intros n. apply keeps_kpi_total.
  - apply keeps_all. intros n. apply keeps_kpi_today.
  - apply keeps_all. intros n. apply keeps_kpi_last_7_days.
  - apply keeps_all. intros n. apply keeps_charts.
  - apply keeps_all. intros n. apply keeps_recent_activity.
  - apply keeps_all. intros n. apply keeps_all_contact_messages.
  - apply keeps_all. intros n. apply keeps_render.
  - intros s df Hc.
    destruct (keeps_all _ (fun n => keeps_render L n contact_df now_today now_week) s)
      as [fresh Hfresh].
    unfold points_to. rewrite Hfresh. now apply nth_error_fresh.
Qed.

Lemma loader_reports_and_returns_empty_witness :
  exists l s',
    load_contact_messages Examples.library
      (Raise (Exception "ConnectionError" "connection refused")) Examples.start
    = (Ok l, s')
    /\ points_to s' l pd.empty_frame
    /\ page s' = [st.error "Error loading contact messages: connection refused"].
Proof.
  destruct (loader_reports_and_returns_empty Examples.library
              (Raise (Exception "ConnectionError" "connection refused"))
              Examples.start) as (_ & H & _).
  exact (H (Exception "ConnectionError" "connection refused") Examples.start
           eq_refl).
Defined.

Lemma rendering_leaves_loaded_table_alone_witness :
  points_to (snd (render Examples.library 1%nat Examples.now Examples.now
                     Examples.loaded_state))
            1%nat Examples.table.
Proof.
  destruct (rendering_leaves_loaded_table_alone Examples.library 1%nat
              Examples.now Examples.now)
    as (_ & _ & _ & _ & _ & _ & _ & H).
  apply H. reflexivity.
Defined.

(** * Further properties of the script *)

(** ** The daily counts, date by date *)

Section DailyCounts.

Import pdx.

Lemma count_key_count_on (d k : Z) (g : list (Z * nat)) :
  count_on d (count_key k g)
  = (count_on d g + (if (k =? d)%Z then 1 else 0))%nat.
Proof.
  unfold count_on. induction g as [|[k' n] g IH]; simpl.
  - destruct (k =? d); reflexivity.
  - destruct (Z.ltb_spec k k') as [Hlt|Hge]; simpl.
    + destruct (k =? d), (k' =? d); simpl; lia.
    + destruct (Z.eqb_spec k k') as [->|Hne]; simpl.
      * destruct (k' =? d); simpl; lia.
      * destruct (k' =? d); simpl; rewrite IH; lia.
Qed.

Lemma groupby_size_count_on (d : Z) (keys : list (option Z)) (g : list (Z * nat)) :
  count_on d
    (fold_left (fun g k => match k with
                           | Some k => count_key k g
                           | None => g
                           end) keys g)
  = (count_on d g
     + List.length (filter (fun k => match k with
                                     | Some k => (k =? d)%Z
                                     | None => false
                                     end) keys))%nat.
Proof.
  revert g. induction keys as [|[k|] keys IH]; intros g; simpl.
  - lia.
  - rewrite IH, count_key_count_on. destruct (k =? d); simpl; lia.
  - apply IH.
Qed.

Lemma count_key_positive (k : Z) (g : list (Z * nat)) :
  Forall (fun dn => (0 < snd dn)%nat) g ->
  Forall (fun dn => (0 < snd dn)%nat) (count_key k g).
Proof.
  induction 1 as [|[k' n] g Hn Hg IH]; simpl.
  - repeat constructor.
  - destruct (k <? k'); [repeat constructor; auto|].
    destruct (k =? k'); constructor; simpl in *; auto; lia.
Qed.

Lemma groupby_size_positive (keys : list (option Z)) :
  Forall (fun dn => (0 < snd dn)%nat) (groupby_size keys).
Proof.
  unfold groupby_size.
  assert (H : Forall (fun dn : Z * nat => (0 < snd dn)%nat) []) by constructor.
  revert H. generalize (@nil (Z * nat)).
  induction keys as [|[k|] keys IH]; intros g Hg; simpl; auto.
  apply IH. now apply count_key_positive.
Qed.

(** In counts by ascending date the entry of a date holds its count. *)
Lemma count_on_entry (d : Z) (n : nat) (g : list (Z * nat)) :
  StronglySorted Z.lt (map fst g) -> In (d, n) g -> count_on d g = n.
Proof.
  unfold count_on. induction g as [|[k m] g IH]; simpl; intros Hs Hin;
    [destruct Hin|].
  inversion Hs as [|? ? Hs' Hall]; subst.
  assert (Hnone : forall l, Forall (Z.lt k) (map fst l) ->
            filter (fun dn : Z * nat => fst dn =? k) l = []).
  { induction l as [|[k2 m2] l IHl]; simpl; intros H; [reflexivity|].
    inversion H; subst. destruct (Z.eqb_spec k2 k); [lia | now apply IHl]. }
  destruct Hin as [E|Hin].
  - injection E as -> ->. rewrite Z.eqb_refl. simpl.
    rewrite (Hnone g Hall). simpl. lia.
  - destruct (Z.eqb_spec k d) as [->|Hne].
    + exfalso. rewrite Forall_forall in Hall.
      assert (d < d); [|lia]. apply Hall.
      change d with (fst (d, n)). now apply in_map.
    + now apply IH.
Qed.

Lemma count_on_some (d : Z) (g : list (Z * nat)) :
  (0 < count_on d g)%nat -> exists n, In (d, n) g.
Proof.
  unfold count_on. induction g as [|[k m] g IH]; simpl; [lia|].
  destruct (Z.eqb_spec k d) as [->|Hne]; simpl.
  - intros _. exists m. now left.
  - intros H. destruct (IH H) as [n Hn]. exists n. now right.
Qed.

Lemma rows_on_keys (df : DataFrame) (d : Z) :
  List.length (filter (fun k => match k with
                                | Some k => k =? d
                                | None => false
                                end)
                      (pd.dt_date (map (request_time df) (rows df))))
  = List.length (rows_on df d).
Proof.
  unfold rows_on, rows_where, pd.dt_date.
  induction (rows df) as [|r rs IH]; simpl; [reflexivity|].
  destruct (request_time df r) as [t|]; simpl; [|exact IH].
  destruct (date t =? d); simpl; now rewrite IH.
Qed.

End DailyCounts.

(** X1. The chart of a loaded table in which [request_time] names exactly
    one column has one point per UTC date on which some row falls, by
    ascending date, and the point of a date holds the number of rows of
    that date. *)
Theorem daily_counts_by_date
        (L : library) (df : DataFrame)
        (contact_df : loc) (s : state) :
  loaded L df -> has_column "request_time" df ->
  points_to s contact_df df ->
  writes (charts L contact_df) s
    [st.subheader "Submission Trends";
     st.markdown "**Contact Messages Over Time**";
     st.plotly_chart (chart_points (daily_counts df))]
  /\ StronglySorted Z.lt (map fst (daily_counts df))
  /\ forall d n,
       In (d, n) (daily_counts df)
       <-> (0 < n)%nat /\ n = List.length (rows_on df d).
Proof.
  intros Hl Hrt Hc.
  assert (Hcount : forall d, count_on d (daily_counts df)
                             = List.length (rows_on df d)).
  { intros d. unfold daily_counts, pdx.groupby_size.
    rewrite groupby_size_count_on. unfold count_on. simpl.
    apply rows_on_keys. }
  assert (Hasc : StronglySorted Z.lt (map fst (daily_counts df)))
    by apply groupby_size_ascending.
  split; [|split; [exact Hasc|]].
  - apply charts_writes; try assumption.
    + apply (loaded_table_canonical L); [assumption | now left].
    + now apply has_column_In.
    + now apply (loaded_with_request_time_not_empty L).
  - intros d n. split.
    + intros Hin. split.
      * pose proof (groupby_size_positive
                      (pd.dt_date (map (request_time df) (rows df)))) as Hpos.
        rewrite Forall_forall in Hpos. exact (Hpos (d, n) Hin).
      * rewrite <- Hcount. symmetry. now apply count_on_entry.
    + intros [Hpos ->].
      destruct (count_on_some d (daily_counts df)) as [m Hm];
        [rewrite Hcount; exact Hpos|].
      rewrite <- Hcount, (count_on_entry d m _ Hasc Hm). exact Hm.
Qed.

Lemma daily_counts_by_date_witness :
  In (19724, 1%nat) (daily_counts Examples.table)
  <-> (0 < 1)%nat /\ 1%nat = List.length (rows_on Examples.table 19724).
Proof.
  apply (daily_counts_by_date Examples.library Examples.table 1%nat
           Examples.loaded_state).
  - from_response Examples.data 1%nat.
  - exists 3%nat. reflexivity.
  - reflexivity.
Defined.

(** ** How the three metrics compare *)

Lemma today_is_within_7_days (t now_today now_week : Z) :
  now_week - now_today <= 6 * day_ns ->
  same_utc_day t now_today = true -> within_7_days t now_week = true.
Proof.
  unfold same_utc_day, within_7_days, date. intros Hgap H.
  apply Z.eqb_eq in H. apply Z.leb_le.
  pose proof day_ns_pos as Hd.
  pose proof (Z.div_mod t day_ns ltac:(lia)) as Ht.
  pose proof (Z.div_mod now_today day_ns ltac:(lia)) as Hn.
  pose proof (Z.mod_pos_bound t day_ns Hd) as Hmt.
  pose proof (Z.mod_pos_bound now_today day_ns Hd) as Hmn.
  rewrite H in Ht.
  assert (7 * 24 * hour_ns = 7 * day_ns) as -> by reflexivity.
  lia.
Qed.

Lemma filter_length_mono {A : Type} (f g : A -> bool) (l : list A) :
  (forall x, f x = true -> g x = true) ->
  (List.length (filter f l) <= List.length (filter g l))%nat.
Proof.
  intros H. induction l as [|x l IH]; simpl; [lia|].
  destruct (f x) eqn:E.
  - rewrite (H x E). simpl. lia.
  - destruct (g x); simpl; lia.
Qed.

(** X2. For a loaded table in which [request_time] names exactly one
    column and clock readings at most 6 days apart (the script reads the
    clock twice in one pass), the Today card never shows more than the
    Last-7-days card, which never shows more than the Total card. *)
Theorem today_at_most_last_7_days_at_most_total
        (L : library) (df : DataFrame)
        (contact_df : loc) (s : state) (now_today now_week : Z) :
  loaded L df -> has_column "request_time" df ->
  points_to s contact_df df ->
  now_week - now_today <= 6 * day_ns ->
  exists today last total,
    writes (kpi_total contact_df) s [st.metric_card "TOTAL MESSAGES" total]
    /\ writes (kpi_today contact_df now_today) s [st.metric_card "TODAY" today]
    /\ writes (kpi_last_7_days L contact_df now_week) s
         [st.metric_card "LAST 7 DAYS" last]
    /\ (today <= last)%nat /\ (last <= total)%nat.
Proof.
  intros Hl Hrt Hc Hgap.
  assert (Hcan : canonical df)
    by (apply (loaded_table_canonical L); [assumption | now left]).
  pose proof (has_column_In _ _ Hrt) as Hin.
  exists (List.length (rows_today df now_today)),
         (List.length (rows_last_7_days df now_week)),
         (List.length (rows df)).
  split; [now apply kpi_total_writes|].
  split; [now apply kpi_today_writes|].
  split; [now apply kpi_last_7_days_writes|].
  split.
  - unfold rows_today, rows_last_7_days, rows_where.
    apply filter_length_mono. intros r.
    destruct (request_time df r) as [t|]; [|discriminate].
    now apply today_is_within_7_days.
  - unfold rows_last_7_days, rows_where. apply List.filter_length_le.
Qed.

Lemma today_at_most_last_7_days_at_most_total_witness :
  exists today last total,
    writes (kpi_total 1%nat) Examples.loaded_state
      [st.metric_card "TOTAL MESSAGES" total]
    /\ writes (kpi_today 1%nat Examples.now) Examples.loaded_state
         [st.metric_card "TODAY" today]
    /\ writes (kpi_last_7_days Examples.library 1%nat Examples.now) Examples.loaded_state
         [st.metric_card "LAST 7 DAYS" last]
    /\ (today <= last)%nat /\ (last <= total)%nat.
Proof.
  apply (today_at_most_last_7_days_at_most_total Examples.library
           Examples.table).
  - from_response Examples.data 1%nat.
  - exists 3%nat. reflexivity.
  - reflexivity.
  - vm_compute. discriminate.
Defined.

(** ** Objects the loader and the whole script leave alone *)

Lemma keeps_load_contact_messages (n : nat)
      (L : library) (execute : result (list record)) :
  keeps n (load_contact_messages L execute).
Proof.
  unfold load_contact_messages. apply keeps_try_except.
  - unfold fetch_and_normalize. frame.
  - intros e. frame.
Qed.

(** X3. The loader updates in place only the table it has just built, and
    the whole script changes no object that exists before it runs: what it
    computes goes to new objects, whether the fetch fails or not. *)
Theorem script_leaves_objects_alone
        (L : library) (execute : result (list record))
        (now_today now_week : Z) :
  leaves_objects_alone (fetch_and_normalize L execute)
  /\ leaves_objects_alone (load_contact_messages L execute)
  /\ leaves_objects_alone (app L execute now_today now_week).
Proof.
  repeat split; apply keeps_all; intros n.
  - unfold fetch_and_normalize. frame.
  - apply keeps_load_contact_messages.
  - unfold app. apply keeps_bind; [apply keeps_emit | intros _].
    apply keeps_bind; [apply keeps_load_contact_messages | intros l].
    apply keeps_render.
Qed.

(** ** Labels *)

Lemma lower_app (a b : string) :
  PyStr.lower (a ++ b) = (PyStr.lower a ++ PyStr.lower b)%string.
Proof. induction a as [|c a IH]; simpl; [reflexivity | now rewrite IH]. Qed.

Lemma prefix_app (n y : string) : String.prefix n (n ++ y) = true.
Proof.
  induction n as [|c n IH]; simpl; [now destruct y|].
  destruct (Ascii.ascii_dec c c) as [_|H]; [exact IH | congruence].
Qed.

Lemma contains_prefix (n h : string) :
  String.prefix n h = true -> PyStr.contains n h = true.
Proof. destruct h; simpl; now intros ->. Qed.

Lemma contains_app (n x y : string) :
  PyStr.contains n (x ++ n ++ y) = true.
Proof.
  induction x as [|c x IH].
  - cbn [String.append]. apply contains_prefix, prefix_app.
  - cbn [String.append PyStr.contains]. rewrite IH. apply orb_true_r.
Qed.

(** X4. A label counts as time-like as soon as it holds the word time or
    the word created somewhere, in any letter case. *)
Theorem time_like_any_case (a w b : string) :
  PyStr.lower w = "time" \/ PyStr.lower w = "created" ->
  time_like (a ++ w ++ b) = true.
Proof.
  intros H. unfold time_like. rewrite !lower_app.
  destruct H as [-> | ->]; rewrite contains_app;
    [apply orb_true_r | reflexivity].
Qed.

Lemma time_like_any_case_witness : time_like "Last_TiMe_seen" = true.
Proof.
  apply (time_like_any_case "Last_" "TiMe" "_seen"). left. reflexivity.
Defined.
(** X5. For a column named in ASCII, the label an expander shows is the
    name in title case with a space for every underscore: it is as long as
    the name and holds no underscore. *)
Theorem humanize_has_no_underscore (L : library) (col : string) :
  PyStr.is_ascii col = true ->
  humanize L col = PyStr.title (PyStr.replace "_" " " col)
  /\ String.length (humanize L col) = String.length col
  /\ ~ In "_"%char (list_ascii_of_string (humanize L col)).
Proof. apply humanize_ascii. Qed.

Lemma humanize_has_no_underscore_witness :
  humanize Examples.library "created_at" = "Created At"
  /\ String.length (humanize Examples.library "created_at") = 10%nat.
Proof.
  destruct (humanize_has_no_underscore Examples.library "created_at" eq_refl)
    as (H1 & H2 & _).
  split; [exact H1 | exact H2].
Defined.

(** ** From the records to the table *)

Lemma nth_mapped {A B : Type} (f : A -> B) (l : list A) (p : nat) (a : A) (d : B) :
  nth_error l p = Some a -> nth p (map f l) d = f a.
Proof.
  revert p. induction l as [|x l IH]; intros [|p] H; simpl in *;
    try discriminate.
  - now injection H as ->.
  - now apply IH.
Qed.

(** X6. The table built from the records of a response has one column
    under every key of some record, and no other; the column of a key
    holds, row by row in the order of the response, what the library
    stores for the values the records hold for this key, a record without
    the key giving a missing value.  A label that is a key of no record
    names no column: selecting it raises a [KeyError]. *)
Theorem table_holds_the_fields_of_the_records
        (L : library) (data : list record) (k : string) :
  (is_key k data ->
   pd.getitem (pd.DataFrame_of L data) k
   = Ok (Column (map (fun i => nth i (stored L (map (fun r => pd.field r k) data))
                                   VNone)
                     (seq 0 (List.length data)))))
  /\ (~ is_key k data ->
      exists msg,
        pd.getitem (pd.DataFrame_of L data) k = Raise (Exception "KeyError" msg))
  /\ (In k (columns (pd.DataFrame_of L data)) <-> is_key k data)
  /\ NoDup (columns (pd.DataFrame_of L data)).
Proof.
  split; [|split; [|split]].
  - intros Hk.
    assert (Hin : In k (columns (pd.DataFrame_of L data)))
      by (apply collected_key; assumption).
    destruct (positions_unique _ _ (DataFrame_of_NoDup L data) Hin) as [p Hp].
    unfold pd.getitem. rewrite Hp. do 2 f_equal.
    unfold pd.DataFrame_of. cbn [rows]. rewrite map_map.
    apply map_ext. intros i. unfold pd.cell. cbn [snd].
    apply (nth_mapped
             (fun k0 => nth i (stored L (map (fun r => pd.field r k0) data)) VNone)).
    apply positions_spec.
    change (fold_left pd.add_keys data []) with (columns (pd.DataFrame_of L data)).
    rewrite Hp. now left.
  - intros Hk. unfold pd.getitem.
    replace (pd.positions k (columns (pd.DataFrame_of L data))) with (@nil nat);
      [now eexists|].
    symmetry. apply positions_nil. intros Hin.
    apply collected_inv in Hin as [[]|Hin]. now apply Hk.
  - split.
    + intros Hin. apply collected_inv in Hin as [[]|Hin]. exact Hin.
    + intros Hk. now apply collected_key.
  - apply DataFrame_of_NoDup.
Qed.

Lemma table_holds_the_fields_of_the_records_witness :
  pd.getitem (pd.DataFrame_of Examples.library Examples.plain_data) "email"
  = Ok (Column [VStr "ann@example.org"; VStr "bob@example.org"]).
Proof.
  apply (table_holds_the_fields_of_the_records Examples.library
           Examples.plain_data "email").
  exists [("id", VNum 1); ("name", VStr "Ann"); ("email", VStr "ann@example.org")],
         (VStr "ann@example.org").
  split; simpl; auto.
Defined.

(** X7. When the fetch succeeds, the table the loader returns either has
    one row per record of the response, with the index 0, 1, 2, ... and
    nothing written on the page, or is the empty table, with the error
    written on the page. *)
Theorem loader_keeps_one_row_per_record
        (L : library) (data : list record)
        (s s' : state) (l : loc) (df : DataFrame) :
  load_contact_messages L (Ok data) s = (Ok l, s') ->
  points_to s' l df ->
  (page s' = page s
   /\ pd.len df = List.length data
   /\ map fst (rows df) = seq 0 (List.length data))
  \/ (df = pd.empty_frame /\ exists e, page s' = page s ++ [load_error e]).
Proof.
  intros Hrun Hl. unfold points_to in Hl.
  assert (Hplain : page s = page s
            /\ pd.len (pd.DataFrame_of L data) = List.length data
            /\ map fst (rows (pd.DataFrame_of L data)) = seq 0 (List.length data)).
  { split; [reflexivity|]. split; [apply DataFrame_of_len|].
    rewrite DataFrame_of_index. f_equal. apply DataFrame_of_len. }
  destruct (pd.empty (pd.DataFrame_of L data)) eqn:Hem.
  - rewrite load_plain in Hrun by now left.
    injection Hrun as <- <-. cbn [heap page] in *.
    rewrite nth_error_app2, Nat.sub_diag in Hl by lia.
    injection Hl as <-. now left.
  - destruct (time_cols (pd.DataFrame_of L data)) as [|c rest] eqn:Htc.
    + rewrite load_plain in Hrun by now right.
      injection Hrun as <- <-. cbn [heap page] in *.
      rewrite nth_error_app2, Nat.sub_diag in Hl by lia.
      injection Hl as <-. now left.
    + destruct (first_time_col_series _ _ _ _ Htc) as [p Hp].
      destruct (to_datetime L
                  (Column (map (pd.cell p) (rows (pd.DataFrame_of L data)))))
        as [parsed|e] eqn:He.
      * rewrite (load_normalized L _ _ _ _ _ s Hem Htc Hp He) in Hrun.
        injection Hrun as <- <-. cbn [heap page] in *.
        rewrite nth_error_app2 in Hl by lia.
        replace (S (List.length (heap s)) - List.length (heap s))%nat
          with 1%nat in Hl by lia.
        injection Hl as <-. left.
        unfold pd.len. rewrite (setitem_rows _ _ _ _ Hp). cbn [pd.rename rows].
        rewrite set_column_fst, set_column_length.
        destruct Hplain as (_ & H1 & H2). now repeat split.
      * rewrite (load_parse_failed L _ _ _ _ _ s Hem Htc Hp He) in Hrun.
        injection Hrun as <- <-. cbn [heap page] in *.
        rewrite nth_error_app2 in Hl by lia.
        replace (S (List.length (heap s)) - List.length (heap s))%nat
          with 1%nat in Hl by lia.
        injection Hl as <-. right. split; [reflexivity | now exists e].
Qed.

Lemma loader_keeps_one_row_per_record_witness :
  pd.len Examples.table = 3%nat.
Proof.
  destruct (loader_keeps_one_row_per_record Examples.library Examples.data
              Examples.start Examples.loaded_state 1%nat Examples.table
              eq_refl eq_refl) as [(_ & H & _)|[H _]].
  - exact H.
  - discriminate H.
Defined.

(** ** The page of a response with a second [request_time] field *)

(** X8. When the response has a field named request_time behind another
    time-like field whose values parse, the renaming leaves two columns
    with the label request_time, and the script stops with an
    [AttributeError] when it computes the Today metric: the page ends after
    the Total card. *)
Theorem second_request_time_field_stops_the_page
        (L : library) (data : list record)
        (c : string) (rest : list string) (x : selection)
        (parsed : list (option Z)) (s : state) (now_today now_week : Z) :
  pd.empty (pd.DataFrame_of L data) = false ->
  time_cols (pd.DataFrame_of L data) = c :: rest ->
  c <> "request_time" ->
  is_key "request_time" data ->
  pd.getitem (pd.DataFrame_of L data) c = Ok x ->
  to_datetime L x = Ok parsed ->
  exists msg s',
    app L (Ok data) now_today now_week s
    = (Raise (Exception "AttributeError" msg), s')
    /\ page s'
       = page s
         ++ [st.markdown "<style>...</style>";
             st.title "Tymer.me Analytics Dashboard";
             st.markdown "**Real-time insights from your contact forms**";
             st.markdown "---";
             st.metric_card "TOTAL MESSAGES" (List.length data)].
Proof.
  intros Hem Htc Hc Hkey Hx He.
  destruct (second_field_positions L data c rest parsed Htc Hc Hkey)
    as (p & q & more & Hp).
  pose proof (second_field_not_empty L data c rest parsed Hem Htc) as Hne.
  set (s0 := mkState (heap s) (page s ++ [st.markdown "<style>...</style>"])).
  pose proof (second_field_points_to L data c rest x parsed Hem Htc Hx He s0)
    as Hl.
  pose proof (second_field_load L data c rest x parsed Hem Htc Hx He s0) as Hrun.
  rewrite Hrun in Hl. cbn [snd] in Hl.
  unfold app. unfold bind at 1, emit at 1. fold s0.
  unfold bind at 1. rewrite Hrun.
  rewrite (render_several L _ _ _ p q more Hl Hne Hp).
  eexists _, _. split; [reflexivity|]. cbn [page s0].
  rewrite (second_field_len L data c rest parsed Htc).
  now rewrite <- !app_assoc.
Qed.

Lemma second_request_time_field_stops_the_page_witness :
  exists msg s',
    app Examples.library (Ok Examples.twice_data) Examples.now Examples.now
        Examples.start
    = (Raise (Exception "AttributeError" msg), s')
    /\ page s'
       = [st.markdown "<style>...</style>";
          st.title "Tymer.me Analytics Dashboard";
          st.markdown "**Real-time insights from your contact forms**";
          st.markdown "---";
          st.metric_card "TOTAL MESSAGES" 1].
Proof.
  apply (second_request_time_field_stops_the_page Examples.library
           Examples.twice_data "created_at" ["request_time"]
           (Column [VStr "2024-01-02T00:30:00Z"]) [Some (utc 2024 1 2 0 30)]
           Examples.start Examples.now Examples.now).
  - reflexivity.
  - reflexivity.
  - discriminate.
  - exists [("id", VNum 1);
            ("created_at", VStr "2024-01-02T00:30:00Z");
            ("request_time", VStr "2024-01-01T23:00:00Z")],
           (VStr "2024-01-01T23:00:00Z").
    split; simpl; auto.
  - reflexivity.
  - reflexivity.
Defined.

(** ** The page of a table with request times *)

Section Latest.

Variables (L : library) (df : DataFrame) (contact_df : loc) (s : state).
Hypothesis Hc : points_to s contact_df df.
Hypothesis Hcan : canonical df.
Hypothesis Hrt : In "request_time" (columns df).

Lemma latest_first_sorted :
  pdx.sort_values_desc L df "request_time"
  = Ok (mkDataFrame (columns df) (latest_first L df))
  /\ Permutation (latest_first L df) (rows df)
  /\ StronglySorted (not_earlier df) (latest_first L df).
Proof.
  destruct (sort_values_desc_sorted L df Hcan Hrt) as (sorted & Hsort & Hperm & Hs).
  unfold latest_first. rewrite Hsort. cbn [rows]. now repeat split.
Qed.

Lemma recent_activity_latest :
  pd.empty df = false ->
  writes (recent_activity L contact_df) s
    (st.subheader "Recent Activity"
     :: st.markdown "**Latest Contact Messages**"
     :: preview_of L df (latest_first L df)).
Proof.
  intros Hem. destruct latest_first_sorted as (Hsort & Hperm & _).
  unfold recent_activity. do 2 apply writes_emit_bind.
  apply writes_deref with (df := df); [exact Hc|].
  rewrite Hem. cbn [negb].
  apply writes_alloc.
  apply writes_deref with (df := pd.copy df); [apply points_to_new|].
  change (pd.in_columns "request_time" (pd.copy df))
    with (pd.in_columns "request_time" df).
  rewrite (in_columns_present _ _ Hrt).
  rewrite (copy_same df), Hsort. unfold bind at 2, lift at 1.
  apply writes_alloc.
  apply show_preview_writes.
  - exact Hcan.
  - now do 2 apply points_to_fresh.
  - apply points_to_new.
  - apply Forall_forall. intros r Hr. eapply Permutation_in; eassumption.
Qed.

Lemma all_contact_messages_latest :
  pd.empty df = false ->
  writes (all_contact_messages L contact_df) s
    [st.subheader "All Contact Messages";
     st.dataframe (mkDataFrame (columns df) (latest_first L df)) false;
     st.download_button "Download as CSV"
       (pdx.mkCsv (columns df) (map snd (latest_first L df)))
       "contact_messages.csv" "text/csv"].
Proof.
  intros Hem. destruct latest_first_sorted as (Hsort & _ & _).
  unfold all_contact_messages. apply writes_emit_bind.
  apply writes_deref with (df := df); [exact Hc|].
  rewrite Hem. cbn [negb]. rewrite (in_columns_present _ _ Hrt).
  unfold writes, bind, lift. rewrite Hsort. unfold alloc. cbn [heap page].
  rewrite (deref_points_to _ _ _ (points_to_new _ _ _)).
  unfold emit. cbn [heap page].
  eexists [_]. rewrite <- !app_assoc. reflexivity.
Qed.

End Latest.

(** X9. For a loaded table in which [request_time] names exactly one
    column the whole page is written without an exception: the three
    cards, the chart of the daily counts, the preview and the full table
    with its export.  The preview and the full table follow one and the
    same order, the rows as [sort_values] leaves them: sorted by
    [request_time], latest first and rows without an instant last, rows of
    one instant in the order pandas gives them.  So the preview shows the
    first rows of the full table. *)
Theorem page_of_table_with_request_time
        (L : library) (df : DataFrame)
        (contact_df : loc) (s : state) (now_today now_week : Z) :
  loaded L df -> has_column "request_time" df ->
  points_to s contact_df df ->
  Permutation (latest_first L df) (rows df)
  /\ StronglySorted (not_earlier df) (latest_first L df)
  /\ writes (render L contact_df now_today now_week) s
       ([st.title "Tymer.me Analytics Dashboard";
         st.markdown "**Real-time insights from your contact forms**";
         st.markdown "---";
         st.metric_card "TOTAL MESSAGES" (List.length (rows df));
         st.metric_card "TODAY" (List.length (rows_today df now_today));
         st.metric_card "LAST 7 DAYS"
           (List.length (rows_last_7_days df now_week));
         st.markdown "<br>";
         st.subheader "Submission Trends";
         st.markdown "**Contact Messages Over Time**";
         st.plotly_chart (chart_points (daily_counts df));
         st.markdown "---";
         st.subheader "Recent Activity";
         st.markdown "**Latest Contact Messages**"]
        ++ preview_of L df (latest_first L df)
        ++ [st.markdown "---";
            st.subheader "All Contact Messages";
            st.dataframe (mkDataFrame (columns df) (latest_first L df)) false;
            st.download_button "Download as CSV"
              (pdx.mkCsv (columns df) (map snd (latest_first L df)))
              "contact_messages.csv" "text/csv";
            st.markdown "---";
            st.caption
              "Data refreshes every 60 seconds | Built with Streamlit & Supabase"]).
Proof.
  intros Hl Hrt Hc.
  assert (Hcan : canonical df)
    by (apply (loaded_table_canonical L); [assumption | now left]).
  pose proof (has_column_In _ _ Hrt) as Hin.
  pose proof (loaded_with_request_time_not_empty L df Hl Hrt) as Hem.
  destruct (latest_first_sorted L df Hcan Hin) as (_ & Hperm & Hsorted).
  split; [assumption|]. split; [assumption|].
  eapply writes_last.
  - unfold render. do 3 run_emit.
    run_section ltac:(apply (kpi_total_writes df); keep_pointer Hc).
    run_section ltac:(apply (kpi_today_writes df);
                      [keep_pointer Hc | exact Hcan | exact Hin]).
    run_section ltac:(apply (kpi_last_7_days_writes L df);
                      [keep_pointer Hc | exact Hcan | exact Hin]).
    run_emit.
    run_section ltac:(apply (charts_writes L df);
                      [keep_pointer Hc | exact Hcan | exact Hin | exact Hem]).
    run_emit.
    run_section ltac:(apply (recent_activity_latest L df);
                      [keep_pointer Hc | exact Hcan | exact Hin | exact Hem]).
    run_emit.
    run_section ltac:(apply (all_contact_messages_latest L df);
                      [keep_pointer Hc | exact Hcan | exact Hin | exact Hem]).
    run_emit. apply writes_emit.
  - reflexivity.
Qed.

Lemma page_of_table_with_request_time_witness :
  map fst (latest_first Examples.library Examples.table) = [1%nat; 0%nat; 2%nat]
  /\ Permutation (latest_first Examples.library Examples.table) (rows Examples.table).
Proof.
  split; [reflexivity|].
  apply (page_of_table_with_request_time Examples.library Examples.table
           1%nat Examples.loaded_state Examples.now Examples.now).
  - from_response Examples.data 1%nat.
  - exists 3%nat. reflexivity.
  - reflexivity.
Defined.

(** ** Pages that are always written *)

Lemma runs_emit_bind (e : st.element) (k : M unit) (s : state) :
  runs k (mkState (heap s) (page s ++ [e])) -> runs (emit e ;;; k) s.
Proof. intros [elems H]. exists (e :: elems). now apply writes_emit_bind. Qed.

Lemma runs_bind (m k : M unit) (s : state) :
  runs m s ->
  (forall fresh pg, runs k (mkState (heap s ++ fresh) pg)) ->
  runs (m ;;; k) s.
Proof.
  intros [e1 [f1 H1]] Hk.
  destruct (Hk f1 (page s ++ e1)) as [e2 [f2 H2]]. cbn [heap page] in H2.
  exists (e1 ++ e2), (f1 ++ f2). unfold bind. rewrite H1, H2.
  now rewrite <- !app_assoc.
Qed.

Section Runs.

Variables (L : library) (df : DataFrame) (contact_df : loc).
Hypothesis Hcan : canonical df.

Lemma kpi_today_runs (s : state) (now : Z) :
  points_to s contact_df df -> runs (kpi_today contact_df now) s.
Proof.
  intros Hc. destruct (in_dec string_dec "request_time" (columns df)) as [Hin|Hno].
  - eexists. now apply (kpi_today_writes df).
  - eexists. apply (kpi_today_absent df); [assumption|].
    right. now apply in_columns_absent.
Qed.

Lemma kpi_last_7_days_runs (s : state) (now : Z) :
  points_to s contact_df df -> runs (kpi_last_7_days L contact_df now) s.
Proof.
  intros Hc. destruct (in_dec string_dec "request_time" (columns df)) as [Hin|Hno].
  - eexists. now apply (kpi_last_7_days_writes L df).
  - eexists. apply (kpi_last_7_days_absent L df); [assumption|].
    right. now apply in_columns_absent.
Qed.

Lemma charts_runs (s : state) :
  points_to s contact_df df -> runs (charts L contact_df) s.
Proof.
  intros Hc. destruct (pd.empty df) eqn:Hem.
  - eexists. apply (charts_absent L df); [assumption | now left].
  - destruct (in_dec string_dec "request_time" (columns df)) as [Hin|Hno].
    + eexists. now apply (charts_writes L df).
    + eexists. apply (charts_absent L df); [assumption|].
      right. now apply in_columns_absent.
Qed.

Lemma recent_activity_runs (s : state) :
  points_to s contact_df df -> runs (recent_activity L contact_df) s.
Proof.
  intros Hc. destruct (pd.empty df) eqn:Hem.
  - eexists. now apply (recent_activity_empty L df).
  - destruct (in_dec string_dec "request_time" (columns df)) as [Hin|Hno].
    + eexists. now apply (recent_activity_latest L df).
    + eexists. apply (recent_activity_unsorted L df); try assumption.
      now apply in_columns_absent.
Qed.

Lemma all_contact_messages_runs (s : state) :
  points_to s contact_df df -> runs (all_contact_messages L contact_df) s.
Proof.
  intros Hc. destruct (pd.empty df) eqn:Hem.
  - eexists. now apply (all_contact_messages_empty L df).
  - destruct (in_dec string_dec "request_time" (columns df)) as [Hin|Hno].
    + eexists. now apply (all_contact_messages_latest L df).
    + eexists. apply (all_contact_messages_unsorted L df); try assumption.
      now apply in_columns_absent.
Qed.

Lemma render_runs (s : state) (now_today now_week : Z) :
  points_to s contact_df df -> runs (render L contact_df now_today now_week) s.
Proof.
  intros Hc. unfold render. do 3 apply runs_emit_bind.
  apply runs_bind;
    [eexists; apply (kpi_total_writes df); keep_pointer Hc | intros ? ?].
  apply runs_bind; [apply kpi_today_runs; keep_pointer Hc | intros ? ?].
  apply runs_bind; [apply kpi_last_7_days_runs; keep_pointer Hc | intros ? ?].
  apply runs_emit_bind.
  apply runs_bind; [apply charts_runs; keep_pointer Hc | intros ? ?].
  apply runs_emit_bind.
  apply runs_bind; [apply recent_activity_runs; keep_pointer Hc | intros ? ?].
  apply runs_emit_bind.
  apply runs_bind; [apply all_contact_messages_runs; keep_pointer Hc | intros ? ?].
  apply runs_emit_bind. eexists. apply writes_emit.
Qed.

End Runs.

(** X10. Whatever table the loader returned, as long as request_time names
    at most one of its columns, every section after the loader is written
    without an exception and without touching an object that exists: the
    sections treat an empty table and a missing column as valid inputs. *)
Theorem render_never_raises
        (L : library) (df : DataFrame)
        (contact_df : loc) (s : state) (now_today now_week : Z) :
  loaded L df ->
  has_column "request_time" df \/ ~ In "request_time" (columns df) ->
  points_to s contact_df df ->
  runs (render L contact_df now_today now_week) s.
Proof.
  intros Hl Hrt Hc. apply (render_runs L df); [|assumption].
  now apply (loaded_table_canonical L).
Qed.

Lemma render_never_raises_witness :
  runs (render Examples.library 0%nat Examples.now Examples.now) Examples.bare_state.
Proof.
  apply (render_never_raises Examples.library Examples.bare_table).
  - from_response Examples.bare_data 0%nat.
  - right. simpl. intuition discriminate.
  - reflexivity.
Defined.

(** ** The whole script *)

Lemma rename_to_fresh_label (old new : string) (cols : list string) (i : nat) :
  ~ In new cols ->
  pd.positions_from i new (map (fun k => if String.eqb k old then new else k) cols)
  = pd.positions_from i old cols.
Proof.
  revert i. induction cols as [|k cols IH]; intros i Hno; [reflexivity|].
  cbn [map pd.positions_from].
  rewrite IH by (intros H; apply Hno; now right). f_equal.
  destruct (String.eqb_spec k old) as [->|Hne].
  - now rewrite String.eqb_refl.
  - destruct (String.eqb_spec k new) as [->|_]; [|reflexivity].
    exfalso. apply Hno. now left.
Qed.

Lemma rename_to_itself (label : string) (cols : list string) :
  map (fun k => if String.eqb k label then label else k) cols = cols.
Proof.
  induction cols as [|k cols IH]; simpl; [reflexivity|]. rewrite IH.
  now destruct (String.eqb_spec k label) as [->|_].
Qed.

(** What the loader returns, and where *)
Lemma load_outcome (L : library)
      (execute : result (list record)) (s : state) :
  exists l fresh errors df,
    load_contact_messages L execute s
    = (Ok l, mkState (heap s ++ fresh) (page s ++ errors))
    /\ nth_error (heap s ++ fresh) l = Some df
    /\ ((forall data, execute = Ok data ->
           ~ is_key "request_time" data
           \/ exists rest,
                time_cols (pd.DataFrame_of L data) = "request_time" :: rest) ->
        has_column "request_time" df \/ ~ In "request_time" (columns df)).
Proof.
  assert (Hlast : forall (h : list DataFrame) x, nth_error (h ++ [x]) (List.length h) = Some x).
  { intros h x. now rewrite nth_error_app2, Nat.sub_diag by lia. }
  assert (Hlast2 : forall (h : list DataFrame) x y,
            nth_error (h ++ [x; y]) (S (List.length h)) = Some y).
  { intros h x y. rewrite nth_error_app2 by lia.
    now replace (S (List.length h) - List.length h)%nat with 1%nat by lia. }
  destruct execute as [data|e].
  - assert (Hraw : has_column "request_time" (pd.DataFrame_of L data)
                   \/ ~ In "request_time" (columns (pd.DataFrame_of L data))).
    { destruct (in_dec string_dec "request_time" (columns (pd.DataFrame_of L data)))
        as [Hin|Hno]; [left | now right].
      apply positions_unique; [apply DataFrame_of_NoDup | assumption]. }
    destruct (pd.empty (pd.DataFrame_of L data)) eqn:Hem.
    { exists (List.length (heap s)), [pd.DataFrame_of L data], [], (pd.DataFrame_of L data).
      rewrite app_nil_r. split; [apply load_plain; now left|].
      split; [apply Hlast|]. intros _. exact Hraw. }
    destruct (time_cols (pd.DataFrame_of L data)) as [|c rest] eqn:Htc.
    { exists (List.length (heap s)), [pd.DataFrame_of L data], [], (pd.DataFrame_of L data).
      rewrite app_nil_r. split; [apply load_plain; now right|].
      split; [apply Hlast|]. intros _. exact Hraw. }
    destruct (first_time_col_series _ _ _ _ Htc) as [p Hp].
    destruct (to_datetime L
                (Column (map (pd.cell p) (rows (pd.DataFrame_of L data)))))
      as [parsed|e] eqn:He.
    + eexists _, [_; _], [], _. rewrite app_nil_r.
      split; [exact (load_normalized L data c rest p parsed s Hem Htc Hp He)|].
      split; [apply Hlast2|].
      intros H. left. unfold has_column. rewrite (setitem_rows _ _ _ _ Hp).
      cbn [pd.rename columns]. unfold pd.positions in *.
      destruct (H data eq_refl) as [Hno|[rest' Hfirst]].
      * rewrite rename_to_fresh_label; [now exists p|].
        intros Hin. apply Hno.
        apply collected_inv in Hin as [[]|Hin]. exact Hin.
      * assert (c = "request_time") by congruence. subst c.
        rewrite rename_to_itself. now exists p.
    + eexists _, [_; _], [_], _.
      split; [exact (load_parse_failed L data c rest p e s Hem Htc Hp He)|].
      split; [apply Hlast2|]. intros _. right. intros [].
  - eexists _, [_], [_], _. split; [apply load_fetch_failed|].
    split; [apply Hlast|]. intros _. right. intros [].
Qed.

(** X11. The whole script ends without an exception whenever the fetch
    fails, and whenever it succeeds with a response in which request_time
    is no field at all or is the first time-like field. *)
Theorem script_never_raises
        (L : library) (execute : result (list record))
        (now_today now_week : Z) (s : state) :
  (forall data, execute = Ok data ->
     ~ is_key "request_time" data
     \/ exists rest, time_cols (pd.DataFrame_of L data) = "request_time" :: rest) ->
  runs (app L execute now_today now_week) s.
Proof.
  intros Hdata.
  destruct (load_outcome L execute
              (mkState (heap s) (page s ++ [st.markdown "<style>...</style>"])))
    as (l & fresh & errors & df & Hload & Hl & Hrt).
  cbn [heap page] in *.
  assert (Hloaded : loaded L df).
  { exists execute, (mkState (heap s) (page s ++ [st.markdown "<style>...</style>"])),
           l. eexists. split; [exact Hload | exact Hl]. }
  pose proof (loaded_table_canonical L df Hloaded (Hrt Hdata)) as Hcan.
  destruct (render_runs L df l Hcan
              (mkState (heap s ++ fresh)
                 ((page s ++ [st.markdown "<style>...</style>"]) ++ errors))
              now_today now_week Hl) as [elems [more Hrender]].
  cbn [heap page] in Hrender.
  exists ([st.markdown "<style>...</style>"] ++ errors ++ elems), (fresh ++ more).
  unfold app. unfold bind at 1, emit at 1. cbn [heap page].
  unfold bind at 1. rewrite Hload, Hrender.
  now rewrite <- !app_assoc.
Qed.

Lemma script_never_raises_witness :
  runs (app Examples.library (Ok Examples.data) Examples.now Examples.now)
       Examples.start.
Proof.
  apply (script_never_raises Examples.library (Ok Examples.data)).
  intros data E. injection E as <-. left.
  intros (r & v & Hr & Hv). simpl in Hr.
  destruct Hr as [<-|[<-|[<-|[]]]]; simpl in Hv;
    repeat (destruct Hv as [Hv|Hv]; [discriminate Hv|]); destruct Hv.
Defined.

Lemma render_without_rows (L : library) (df : DataFrame) (contact_df : loc)
      (s : state) (now_today now_week : Z) :
  points_to s contact_df df -> rows df = [] ->
  writes (render L contact_df now_today now_week) s
    [st.title "Tymer.me Analytics Dashboard";
     st.markdown "**Real-time insights from your contact forms**";
     st.markdown "---";
     st.metric_card "TOTAL MESSAGES" 0;
     st.metric_card "TODAY" 0;
     st.metric_card "LAST 7 DAYS" 0;
     st.markdown "<br>";
     st.subheader "Submission Trends";
     st.markdown "**Contact Messages Over Time**";
     st.info "No contact message data available";
     st.markdown "---";
     st.subheader "Recent Activity";
     st.markdown "**Latest Contact Messages**";
     st.info "No messages yet";
     st.markdown "---";
     st.subheader "All Contact Messages";
     st.info "No contact messages yet";
     st.markdown "---";
     st.caption "Data refreshes every 60 seconds | Built with Streamlit & Supabase"].
Proof.
  intros Hc Hrows.
  assert (Hem : pd.empty df = true) by (unfold pd.empty; now rewrite Hrows).
  eapply writes_last.
  - unfold render. do 3 run_emit.
    run_section ltac:(apply (kpi_total_writes df); keep_pointer Hc).
    run_section ltac:(apply (kpi_today_absent df); [keep_pointer Hc | now left]).
    run_section ltac:(apply (kpi_last_7_days_absent L df);
                      [keep_pointer Hc | now left]).
    run_emit.
    run_section ltac:(apply (charts_absent L df); [keep_pointer Hc | now left]).
    run_emit.
    run_section ltac:(apply (recent_activity_empty L df);
                      [keep_pointer Hc | exact Hem]).
    run_emit.
    run_section ltac:(apply (all_contact_messages_empty L df);
                      [keep_pointer Hc | exact Hem]).
    run_emit. apply writes_emit.
  - rewrite Hrows. reflexivity.
Qed.

(** X12. When the fetch or the parsing of the timestamps fails, the page
    of the whole script is the style sheet, the error message and the
    empty-state page: three zeros and the three messages that stand for the
    chart, the preview and the table. *)
Theorem page_of_failed_load
        (L : library) (execute : result (list record))
        (e : exn) (s s1 : state) (now_today now_week : Z) :
  fetch_and_normalize L execute
    (mkState (heap s) (page s ++ [st.markdown "<style>...</style>"]))
  = (Raise e, s1) ->
  writes (app L execute now_today now_week) s
    [st.markdown "<style>...</style>";
     load_error e;
     st.title "Tymer.me Analytics Dashboard";
     st.markdown "**Real-time insights from your contact forms**";
     st.markdown "---";
     st.metric_card "TOTAL MESSAGES" 0;
     st.metric_card "TODAY" 0;
     st.metric_card "LAST 7 DAYS" 0;
     st.markdown "<br>";
     st.subheader "Submission Trends";
     st.markdown "**Contact Messages Over Time**";
     st.info "No contact message data available";
     st.markdown "---";
     st.subheader "Recent Activity";
     st.markdown "**Latest Contact Messages**";
     st.info "No messages yet";
     st.markdown "---";
     st.subheader "All Contact Messages";
     st.info "No contact messages yet";
     st.markdown "---";
     st.caption "Data refreshes every 60 seconds | Built with Streamlit & Supabase"].
Proof.
  intros Hbody.
  pose proof (fetch_and_normalize_page _ _ _ _ _ Hbody) as Hpage.
  assert (Hgrow : exists fresh, heap s1 = heap s ++ fresh).
  { assert (Hk : forall n, keeps n (fetch_and_normalize L execute))
      by (intros n; unfold fetch_and_normalize; frame).
    destruct (keeps_all _ Hk
                (mkState (heap s) (page s ++ [st.markdown "<style>...</style>"])))
      as [fresh H]. rewrite Hbody in H. now exists fresh. }
  destruct Hgrow as [fresh Hheap]. cbn [page] in Hpage.
  destruct (render_without_rows L pd.empty_frame (List.length (heap s1))
              (mkState (heap s1 ++ [pd.empty_frame]) (page s1 ++ [load_error e]))
              now_today now_week (points_to_new _ _ _) eq_refl)
    as [more Hrender].
  cbn [heap page] in Hrender. unfold load_error in *.
  exists (fresh ++ [pd.empty_frame] ++ more).
  unfold app. unfold bind at 1, emit at 1. cbn [heap page].
  unfold bind at 1, load_contact_messages, try_except. rewrite Hbody.
  unfold bind at 1, emit at 1, alloc. cbn [heap page].
  rewrite Hrender, Hheap, Hpage. now rewrite <- !app_assoc.
Qed.

Lemma page_of_failed_load_witness :
  exists body elems,
    writes (app Examples.library (Ok Examples.zone_data) Examples.now Examples.now)
      Examples.start
      (st.markdown "<style>...</style>" :: st.error body :: elems).
Proof.
  eexists _, _.
  eapply (page_of_failed_load Examples.library (Ok Examples.zone_data)).
  reflexivity.
Defined.

(** ** Tables in which [request_time] names one column *)

(** X13. For every loaded table in which [request_time] names exactly one
    column, the Today metric is the number of rows whose [request_time]
    falls on the UTC calendar day of the clock reading; with the clock at
    2024-01-02T01:00Z an instant of 2024-01-01T23:00Z is not of today and
    one of 2024-01-02T00:30Z is. *)
Theorem today_counts_rows_of_utc_day
        (L : library) (df : DataFrame)
        (contact_df : loc) (s : state) (now : Z) :
  loaded L df -> has_column "request_time" df ->
  points_to s contact_df df ->
  writes (kpi_today contact_df now) s
    [st.metric_card "TODAY" (List.length (rows_today df now))]
  /\ same_utc_day (utc 2024 1 1 23 0) (utc 2024 1 2 1 0) = false
  /\ same_utc_day (utc 2024 1 2 0 30) (utc 2024 1 2 1 0) = true.
Proof.
  intros Hl Hrt Hc. split; [|split; reflexivity].
  apply kpi_today_writes; [assumption | | now apply has_column_In].
  apply (loaded_table_canonical L); [assumption | now left].
Qed.

Lemma today_counts_rows_of_utc_day_witness :
  writes (kpi_today 1%nat Examples.now) Examples.loaded_state
    [st.metric_card "TODAY" 1%nat].
Proof.
  apply (today_counts_rows_of_utc_day Examples.library Examples.table 1%nat
           Examples.loaded_state Examples.now).
  - from_response Examples.data 1%nat.
  - exists 3%nat. reflexivity.
  - reflexivity.
Defined.

(** X14. For every loaded table in which [request_time] names exactly one
    column, the Last-7-days metric is the number of rows whose
    [request_time] is no earlier than the clock reading minus 7 times 24
    hours, the boundary included: an instant equal to the reading and one
    6 days 23 hours before it are inside, one 7 days 1 hour before it is
    outside. *)
Theorem last_7_days_counts_rolling_window
        (L : library) (df : DataFrame)
        (contact_df : loc) (s : state) (now : Z) :
  loaded L df -> has_column "request_time" df ->
  points_to s contact_df df ->
  writes (kpi_last_7_days L contact_df now) s
    [st.metric_card "LAST 7 DAYS" (List.length (rows_last_7_days df now))]
  /\ (forall t, within_7_days t now = true <-> now - 168 * hour_ns <= t)
  /\ within_7_days now now = true
  /\ within_7_days (now - (6 * 24 + 23) * hour_ns) now = true
  /\ within_7_days (now - 7 * 24 * hour_ns) now = true
  /\ within_7_days (now - (7 * 24 + 1) * hour_ns) now = false.
Proof.
  intros Hl Hrt Hc. split.
  - apply kpi_last_7_days_writes; [assumption | | now apply has_column_In].
    apply (loaded_table_canonical L); [assumption | now left].
  - unfold within_7_days, hour_ns. repeat split.
    + intros H. apply Z.leb_le in H. lia.
    + intros H. apply Z.leb_le. lia.
    + apply Z.leb_le. lia.
    + apply Z.leb_le. lia.
    + apply Z.leb_le. lia.
    + apply Z.leb_gt. lia.
Qed.

Lemma last_7_days_counts_rolling_window_witness :
  writes (kpi_last_7_days Examples.library 1%nat Examples.now)
    Examples.loaded_state
    [st.metric_card "LAST 7 DAYS" 2%nat].
Proof.
  apply (last_7_days_counts_rolling_window Examples.library Examples.table 1%nat
           Examples.loaded_state Examples.now).
  - from_response Examples.data 1%nat.
  - exists 3%nat. reflexivity.
  - reflexivity.
Defined.

(** X15. For every non-empty loaded table in which [request_time] names
    at most one column, the full table is shown, and exported, in one
    order: its rows sorted by [request_time], latest first and rows
    without an instant last, when the table has that column, and its
    original order when it has not.  The export has the column labels as
    its header and then the cells of each row, one line per row of the
    table shown and no index, and is offered as contact_messages.csv
    with the type text/csv. *)
Theorem csv_export_is_sorted_table
        (L : library) (df : DataFrame) (contact_df : loc) (s : state) :
  loaded L df ->
  has_column "request_time" df \/ ~ In "request_time" (columns df) ->
  pd.empty df = false ->
  points_to s contact_df df ->
  exists view,
    Permutation view (rows df)
    /\ (has_column "request_time" df -> StronglySorted (not_earlier df) view)
    /\ (~ In "request_time" (columns df) -> view = rows df)
    /\ writes (all_contact_messages L contact_df) s
         [st.subheader "All Contact Messages";
          st.dataframe (mkDataFrame (columns df) view) false;
          st.download_button "Download as CSV"
            (pdx.mkCsv (columns df) (map snd view))
            "contact_messages.csv" "text/csv"]
    /\ Forall (fun line => List.length line = List.length (columns df))
              (map snd view).
Proof.
  intros Hl Hrt Hem Hc.
  pose proof (loaded_table_canonical L df Hl Hrt) as Hcan.
  assert (Hwide : forall view, Permutation view (rows df) ->
            Forall (fun line => List.length line = List.length (columns df))
                   (map snd view)).
  { intros view Hperm. apply Forall_map.
    apply (Permutation_Forall (Permutation_sym Hperm)).
    exact (cells_per_row _ Hcan). }
  destruct Hrt as [Hrt|Hno].
  - destruct (all_contact_messages_sorted L df contact_df s Hc Hcan
                (has_column_In _ _ Hrt) Hem) as (view & Hperm & Hsorted & Hw).
    exists view. repeat split; auto.
    intros Hno. exfalso. apply Hno. now apply has_column_In.
  - exists (rows df). repeat split; auto.
    + intros Hrt. exfalso. apply Hno. now apply has_column_In.
    + rewrite frame_eta.
      apply all_contact_messages_unsorted; [assumption | assumption |].
      now apply in_columns_absent.
Qed.

Lemma csv_export_is_sorted_table_witness :
  exists view,
    StronglySorted (not_earlier Examples.table) view
    /\ writes (all_contact_messages Examples.library 1%nat) Examples.loaded_state
         [st.subheader "All Contact Messages";
          st.dataframe (mkDataFrame (columns Examples.table) view) false;
          st.download_button "Download as CSV"
            (pdx.mkCsv (columns Examples.table) (map snd view))
            "contact_messages.csv" "text/csv"]
    /\ map snd view
       = [ [VNum 2; VStr "Bob"; VStr "bob@example.org"; VTime (utc 2024 1 2 0 30)];
           [VNum 1; VStr "Ann"; VStr "ann@example.org"; VTime (utc 2024 1 1 23 0)];
           [VNum 3; VStr "Cy"; VStr "cy@example.org"; VNaT] ].
Proof.
  destruct (csv_export_is_sorted_table Examples.library Examples.table 1%nat
              Examples.loaded_state) as (view & _ & Hsorted & _ & Hw & _).
  - from_response Examples.data 1%nat.
  - left. exists 3%nat. reflexivity.
  - reflexivity.
  - reflexivity.
  - exists view. split; [apply Hsorted; exists 3%nat; reflexivity|].
    split; [exact Hw|].
    destruct Hw as [fresh Hw].
    apply (f_equal (fun r => page (snd r))) in Hw.
    vm_compute in Hw. injection Hw as Hw _. rewrite <- Hw. reflexivity.
Defined.
